(** * Procedural kitchen cabinets: geometry and door-state engine

    A shallow embedding of [robocasa/models/fixtures/cabinets.py]:
    the cabinet variants ([SingleCabinet], [HingeCabinet], [OpenCabinet],
    [Drawer], [PanelCabinet], [HousingCabinet]), their bounding sites, the
    door-state mapping between open-ness fractions and joint values, the
    shelf reset regions and the housing size/padding resolution.

    Numbers.  Python floats are embedded as exact rationals [Q]: a decimal
    literal denotes its decimal value, [np.pi] denotes the rational value
    of the binary64 constant, and [+ - * /] are exact.  Rounding error of
    the machine arithmetic is therefore outside the model; equalities
    between computed numbers are stated with [==] ([Qeq]).

    Effects.  The simulator's joint table and joint positions and the
    injected random generator form an explicit [World] that is threaded
    through a small state-and-exception monad; a raised Python exception
    leaves the world as it was when the exception was raised. *)

From Stdlib Require Import QArith Qabs Lqa ZArith Lia.
From Stdlib Require Import Ascii DecimalString DecimalZ.
From stdpp Require Import gmap strings list fin_maps.

Local Open Scope Q_scope.

(** ** Python runtime *)

Inductive exn : Type :=
| AssertionError
| NotImplementedError
| ValueError
| KeyError
| IndexError.

Inductive result (A : Type) : Type :=
| Ok (a : A)
| Raise (e : exn).
Arguments Ok {A} a.
Arguments Raise {A} e.

Definition Qlt_bool (a b : Q) : bool := negb (Qle_bool b a).

(** A three-component numpy array or Python list [[x, y, z]]. *)
Definition Vec3 : Type := (Q * Q * Q)%type.

(** ** numpy *)

Module np.

(** [np.pi], the binary64 number 0x400921FB54442D18. *)
Definition pi : Q := 884279719003555 # 281474976710656.

(** [np.random.Generator]: the generator's state is the stream of
    doubles of [[0, 1)] it will produce and the number already drawn. *)
Record Generator : Type := {
  stream : nat -> Q;
  drawn : nat;
}.

Definition well_formed (g : Generator) : Prop :=
  forall n, 0 <= stream g n /\ stream g n < 1.

Definition random (g : Generator) : Q * Generator :=
  (stream g (drawn g), {| stream := stream g; drawn := S (drawn g) |}).

(** [rng.uniform(low, high)] is [low + (high - low) * rng.random()]. *)
Definition uniform (low high : Q) (g : Generator) : Q * Generator :=
  let (u, g') := random g in (low + (high - low) * u, g').

(** [np.linspace(start, stop, num, endpoint=False)]: [num] samples
    [start + i * step] with [step = (stop - start) / num]; the stop
    value itself is left out. *)
Definition linspace_open (start stop : Q) (num : nat) : list Q :=
  let step := (stop - start) / inject_Z (Z.of_nat num) in
  (fun i : nat => inject_Z (Z.of_nat i) * step + start) <$> seq 0 num.

End np.

(** ** The simulation runtime

    [env.sim.model] lists the joints of the compiled model in the order of
    their ids.  A hinge or a slide joint owns one entry of the flat
    position vector [env.sim.data.qpos], a ball joint four (a quaternion)
    and a free joint seven (a position and a quaternion); the entries of a
    joint start at its address, the number of entries owned by the joints
    declared before it.

    [env.sim.data.set_joint_qpos(name, value)] writes the entry at the
    address of the joint [name].  The positions of the hinge and slide
    joints are therefore kept under the joint's name, in [qpos]; the
    entries of the free and ball joints, which no fixture writes, are kept
    with the joint.  The flat vector is read off the joint list
    ([data_qpos]); [get_door_state] indexes it with a joint id. *)

Inductive MjJoint : Type :=
| mjJNT_FREE (name : string) (pos : Vec3) (quat : Q * Q * Q * Q)
| mjJNT_BALL (name : string) (quat : Q * Q * Q * Q)
| mjJNT_SLIDE (name : string)
| mjJNT_HINGE (name : string).

Definition jnt_name (j : MjJoint) : string :=
  match j with
  | mjJNT_FREE name _ _ | mjJNT_BALL name _ | mjJNT_SLIDE name | mjJNT_HINGE name => name
  end.

(** The number of entries of [sim.data.qpos] a joint owns. *)
Definition jnt_nq (j : MjJoint) : nat :=
  match j with
  | mjJNT_FREE _ _ _ => 7
  | mjJNT_BALL _ _ => 4
  | mjJNT_SLIDE _ | mjJNT_HINGE _ => 1
  end.

(** Whether the joint has a single position: a hinge or a slide joint. *)
Definition jnt_scalar (j : MjJoint) : bool :=
  match j with
  | mjJNT_SLIDE _ | mjJNT_HINGE _ => true
  | _ => false
  end.

Record World : Type := {
  qpos : gmap string Q;
  rng : np.Generator;
  sim_joints : list MjJoint;
}.

(** [sim.model.joint_name2id]: the position of the joint in the list. *)
Definition name2id (joints : list MjJoint) (name : string) : option nat :=
  fst <$> list_find (fun j => jnt_name j = name) joints.

(** [sim.model.jnt_qposadr[id]]: where the entries of joint [id] start. *)
Definition jnt_qposadr (joints : list MjJoint) (id : nat) : nat :=
  sum_list (jnt_nq <$> take id joints).

(** The entries of [sim.data.qpos] a joint owns; a hinge or slide joint
    that was never given a position rests at 0. *)
Definition jnt_qpos (positions : gmap string Q) (j : MjJoint) : list Q :=
  match j with
  | mjJNT_FREE _ (x, y, z) (qw, qx, qy, qz) => [x; y; z; qw; qx; qy; qz]
  | mjJNT_BALL _ (qw, qx, qy, qz) => [qw; qx; qy; qz]
  | mjJNT_SLIDE name | mjJNT_HINGE name => [default 0 (positions !! name)]
  end.

(** [sim.data.qpos], the flat position vector. *)
Definition data_qpos (w : World) : list Q :=
  concat (jnt_qpos (qpos w) <$> sim_joints w).

Definition M (A : Type) : Type := World -> result A * World.

#[global] Instance M_ret : MRet M := fun A (a : A) w => (Ok a, w).

#[global] Instance M_bind : MBind M := fun A B (k : A -> M B) (m : M A) w =>
  match m w with
  | (Ok a, w') => k a w'
  | (Raise e, w') => (Raise e, w')
  end.

Definition raise {A} (e : exn) : M A := fun w => (Raise e, w).

(** The [assert] statement. *)
Definition assert_ (b : bool) : M unit :=
  if b then mret tt else raise AssertionError.

Definition rng_uniform (low high : Q) : M Q :=
  fun w => let (v, g) := np.uniform low high (rng w) in
           (Ok v, {| qpos := qpos w; rng := g; sim_joints := sim_joints w |}).

Definition set_joint_qpos (name : string) (value : Q) : M unit :=
  fun w => match qpos w !! name with
           | Some _ => (Ok tt, {| qpos := <[name := value]> (qpos w); rng := rng w;
                                  sim_joints := sim_joints w |})
           | None => (Raise ValueError, w)
           end.

(** [sim.model.joint_name2id(name)]; an unknown name raises. *)
Definition joint_name2id (name : string) : M nat :=
  fun w => match name2id (sim_joints w) name with
           | Some joint_id => (Ok joint_id, w)
           | None => (Raise ValueError, w)
           end.

(** [sim.data.qpos[i]], the subscript of the flat position vector. *)
Definition data_qpos_at (i : nat) : M Q :=
  fun w => match data_qpos w !! i with
           | Some v => (Ok v, w)
           | None => (Raise IndexError, w)
           end.

(** ** robocasa.utils.object_utils *)

Module OU.

(** Modelled from the spec: [normalize_joint_value] of
    [robocasa/utils/object_utils.py] lives outside the file embedded here.
    The specification describes it as the inverse of the linear map used
    by [set_door_state]: a joint value is normalised to a fraction of the
    joint range [[joint_min, joint_max]]. *)
Definition normalize_joint_value (raw joint_min joint_max : Q) : Q :=
  (raw - joint_min) / (joint_max - joint_min).

End OU.

(** ** Geometry produced by [_create_cab] *)

#[global] Instance result_ret : MRet result := fun A (a : A) => Ok a.

#[global] Instance result_bind : MBind result := fun A B (k : A -> result B) r =>
  match r with
  | Ok a => k a
  | Raise e => Raise e
  end.

Inductive PanelClass : Type :=
| SlabCabinetPanel
| ShakerCabinetPanel
| RaisedCabinetPanel
| DividedWindowCabinetPanel
| FullWindowedCabinetPanel.

(** A door element: the panel object built in [_add_door] together with
    the position given to its root element. *)
Record Door : Type := {
  door_class : PanelClass;
  door_size : Vec3;
  door_name : string;
  door_texture : option string;
  door_handle_type : option string;
  door_handle_config : gmap string string;
  door_panel_config : gmap string string;
  door_pos : Vec3;
}.

(** The eight bounding sites handed to [set_bounds_sites]. *)
Record BoundingSites : Type := {
  ext_p0 : Vec3;
  ext_px : Vec3;
  ext_py : Vec3;
  ext_pz : Vec3;
  int_p0 : Vec3;
  int_px : Vec3;
  int_py : Vec3;
  int_pz : Vec3;
}.

(** A joint element: the attributes written by [_create_cab]. *)
Record Joint : Type := {
  joint_pos : Vec3;
  joint_range : option (Q * Q);
}.

(** A shelf of the open cabinet ([CabinetShelf]). *)
Record Shelf : Type := {
  shelf_size : Vec3;
  shelf_pos : Vec3;
  shelf_name : string;
  shelf_texture : option string;
}.

(** What a [_create_cab] leaves behind: the size and position dictionaries
    of the primitive geoms, the positions of the door bodies, the joint
    attributes, the door elements appended to each body (by body name), the
    shelves, and the bounding sites (absent when none are set). *)
Record Geometry : Type := {
  sizes : list (string * Vec3);
  positions : list (string * Vec3);
  bodies : list (string * Vec3);
  joints : list (string * Joint);
  doors : list (string * list Door);
  shelves : list Shelf;
  sites : option BoundingSites;
}.

(** ** Cabinets *)

Module Cabinet.

(** The attributes set by [Cabinet.__init__].  [panel_type] is a string
    or [None]; the two configuration dictionaries map option names to
    values. *)
Record t : Type := {
  name : string;
  size : Vec3;
  thickness : Q;
  door_gap : Q;
  handle_type : option string;
  handle_config : gmap string string;
  panel_type : option string;
  panel_config : gmap string string;
  texture : option string;
}.

(** The chain of tests on [self.panel_type] in [Cabinet._add_door]:
    [Ok (Some c)] selects the panel class [c], [Ok None] is the bare
    [return] of the ["no_panel"] branch, and the final [else] raises. *)
Definition panel_class_of (panel_type : option string) : result (option PanelClass) :=
  match panel_type with
  | None => Ok (Some SlabCabinetPanel)
  | Some s =>
      if String.eqb s "slab" then Ok (Some SlabCabinetPanel)
      else if String.eqb s "shaker" then Ok (Some ShakerCabinetPanel)
      else if String.eqb s "raised" then Ok (Some RaisedCabinetPanel)
      else if String.eqb s "divided_window" then Ok (Some DividedWindowCabinetPanel)
      else if String.eqb s "full_window" then Ok (Some FullWindowedCabinetPanel)
      else if String.eqb s "no_panel" then Ok None
      else Raise NotImplementedError
  end.

(** [Cabinet._add_door]; [parent_body] is the list of door elements
    already appended to the parent body, and the result is that list
    after the call. *)
Definition _add_door (self : t) (w h th : Q) (pos : Vec3)
    (parent_body : list Door) (handle_hpos handle_vpos : string)
    (door_name : string) : result (list Door) :=
  sel ← panel_class_of (panel_type self);
  match sel with
  | None => mret parent_body
  | Some panel_class =>
      let dg := door_gap self in
      let panel_config :=
        <["handle_vpos" := handle_vpos]>
          (<["handle_hpos" := handle_hpos]> (panel_config self)) in
      let door_elem :=
        {| door_class := panel_class;
           door_size := (w - dg, th, h - dg);
           door_name := name self +:+ "_" +:+ door_name;
           door_texture := texture self;
           door_handle_type := handle_type self;
           door_handle_config := handle_config self;
           door_panel_config := panel_config;
           door_pos := pos |} in
      mret (parent_body ++ [door_elem])
  end.

(** The base class leaves the door state alone. *)
Definition set_door_state (self : t) (min max : Q) : M unit := mret tt.

Definition get_door_state (self : t) : M (list (string * Q)) := mret [].

End Cabinet.

(** The housing and the two box sites shared by the single-door and the
    double-door cabinet (the dictionaries are written out in both
    [_create_cab] methods). *)
Definition box_sizes (x y z th : Q) : list (string * Vec3) :=
  [ ("top", (x, y - th, th));
    ("bottom", (x, y - th, th));
    ("back", (x - 2 * th, th, z - 2 * th));
    ("left", (th, y - th, z - 2 * th));
    ("right", (th, y - th, z - 2 * th));
    ("shelf", (x - 2 * th, y - 0.05, th)) ].

Definition box_positions (x y z th : Q) : list (string * Vec3) :=
  [ ("top", (0, th, z - th));
    ("bottom", (0, th, - z + th));
    ("back", (0, y - th, 0));
    ("left", (- x + th, th, 0));
    ("right", (x - th, th, 0));
    ("shelf", (0, 0.05 - th, 0)) ].

Definition box_sites (x y z th : Q) : BoundingSites :=
  {| ext_p0 := (- x, - y, - z);
     ext_px := (x, - y, - z);
     ext_py := (- x, y, - z);
     ext_pz := (- x, - y, z);
     int_p0 := (- x + th * 2, - y + th * 2, - z + th * 2);
     int_px := (x - th * 2, - y + th * 2, - z + th * 2);
     int_py := (- x + th * 2, y - th * 2, - z + th * 2);
     int_pz := (- x + th * 2, - y + th * 2, z - th * 2) |}.

(** [self.panel_config.get("handle_vpos", "bottom")]. *)
Definition handle_vpos_of (self : Cabinet.t) : string :=
  default "bottom" (Cabinet.panel_config self !! "handle_vpos").

(** The precondition asserted by every [set_door_state]:
    [0 <= min <= 1 and 0 <= max <= 1 and min <= max]. *)
Definition door_range_ok (min max : Q) : bool :=
  Qle_bool 0 min && Qle_bool min 1 && (Qle_bool 0 max && Qle_bool max 1)
  && Qle_bool min max.

Module SingleCabinet.

Record t : Type := {
  cab : Cabinet.t;
  orientation : string;
}.

Definition sign (self : t) : Q :=
  if String.eqb (orientation self) "left" then -1 else 1.

Definition _create_cab (self : t) : result Geometry :=
  let c := cab self in
  let '(sx, sy, sz) := Cabinet.size c in
  let '(x, y, z) := (sx / 2, sy / 2, sz / 2) in
  let th := Cabinet.thickness c / 2 in
  let sizes := box_sizes x y z th in
  let positions := box_positions x y z th in
  let doorhinge :=
    if String.eqb (orientation self) "left"
    then {| joint_pos := (- x + th, - y, 0); joint_range := Some (- 3.00, 0) |}
    else {| joint_pos := (x - th, - y, 0); joint_range := None |} in
  let door_pos := (0, - y + th, 0) in
  let handle_hpos :=
    if String.eqb (orientation self) "left" then "right" else "left" in
  let handle_vpos := handle_vpos_of c in
  hingedoor ← Cabinet._add_door c (x * 2) (z * 2) (th * 2) door_pos []
                handle_hpos handle_vpos "door";
  mret {| sizes := sizes;
          positions := positions;
          bodies := [("hingedoor", (0, 0, 0))];
          joints := [("doorhinge", doorhinge)];
          doors := [("hingedoor", hingedoor)];
          shelves := [];
          sites := Some (box_sites x y z th) |}.

Definition set_door_state (self : t) (min max : Q) : M unit :=
  assert_ (door_range_ok min max);;
  let joint_min := 0 in
  let joint_max := np.pi / 2 in
  let desired_min := joint_min + (joint_max - joint_min) * min in
  let desired_max := joint_min + (joint_max - joint_min) * max in
  let sign := sign self in
  u ← rng_uniform desired_min desired_max;
  set_joint_qpos (Cabinet.name (cab self) +:+ "_doorhinge") (sign * u).

Definition get_door_state (self : t) : M (list (string * Q)) :=
  joint_id ← joint_name2id (Cabinet.name (cab self) +:+ "_doorhinge");
  hinge_qpos ← data_qpos_at joint_id;
  let sign := sign self in
  let hinge_qpos := hinge_qpos * sign in
  let door := OU.normalize_joint_value hinge_qpos 0 (np.pi / 2) in
  mret [("door", door)].

End SingleCabinet.

Module HingeCabinet.

Record t : Type := {
  cab : Cabinet.t;
}.

Definition _create_cab (self : t) : result Geometry :=
  let c := cab self in
  let '(sx, sy, sz) := Cabinet.size c in
  let '(x, y, z) := (sx / 2, sy / 2, sz / 2) in
  let th := Cabinet.thickness c / 2 in
  let leftdoorhinge := {| joint_pos := (- x + th, - y, 0); joint_range := None |} in
  let rightdoorhinge := {| joint_pos := (x - th, - y, 0); joint_range := None |} in
  let positions := box_positions x y z th in
  let sizes := box_sizes x y z th in
  let door_x_positions (side : string) : Q :=
    if String.eqb side "left" then - x / 2 else x / 2 in
  let handle_vpos := handle_vpos_of c in
  let add (side : string) : result (list Door) :=
    Cabinet._add_door c x (z * 2) (th * 2)
      (door_x_positions side, - y + th, 0) []
      (if String.eqb side "right" then "left" else "right")
      handle_vpos (side +:+ "_door") in
  hingeleftdoor ← add "left";
  hingerightdoor ← add "right";
  mret {| sizes := sizes;
          positions := positions;
          bodies := [("hingeleftdoor", (0, 0, 0)); ("hingerightdoor", (0, 0, 0))];
          joints := [("leftdoorhinge", leftdoorhinge); ("rightdoorhinge", rightdoorhinge)];
          doors := [("hingeleftdoor", hingeleftdoor); ("hingerightdoor", hingerightdoor)];
          shelves := [];
          sites := Some (box_sites x y z th) |}.

Definition set_door_state (self : t) (min max : Q) : M unit :=
  assert_ (door_range_ok min max);;
  let joint_min := 0 in
  let joint_max := np.pi / 2 in
  let desired_min := joint_min + (joint_max - joint_min) * min in
  let desired_max := joint_min + (joint_max - joint_min) * max in
  u_right ← rng_uniform desired_min desired_max;
  set_joint_qpos (Cabinet.name (cab self) +:+ "_rightdoorhinge") u_right;;
  u_left ← rng_uniform desired_min desired_max;
  set_joint_qpos (Cabinet.name (cab self) +:+ "_leftdoorhinge") (- u_left).

Definition get_door_state (self : t) : M (list (string * Q)) :=
  right_id ← joint_name2id (Cabinet.name (cab self) +:+ "_rightdoorhinge");
  right_hinge_qpos ← data_qpos_at right_id;
  left_id ← joint_name2id (Cabinet.name (cab self) +:+ "_leftdoorhinge");
  q ← data_qpos_at left_id;
  let left_hinge_qpos := - q in
  let left_door := OU.normalize_joint_value left_hinge_qpos 0 (np.pi / 2) in
  let right_door := OU.normalize_joint_value right_hinge_qpos 0 (np.pi / 2) in
  mret [("left_door", left_door); ("right_door", right_door)].

End HingeCabinet.

Module Drawer.

Record t : Type := {
  cab : Cabinet.t;
}.

Definition _create_cab (self : t) : result Geometry :=
  let c := cab self in
  let '(sx, sy, sz) := Cabinet.size c in
  let '(x, y, z) := (sx / 2, sy / 2, sz / 2) in
  let th := Cabinet.thickness c / 2 in
  let ix := x - 2 * th - 0.001 in
  let iy := y - 2 * th in
  let iz := z - 2 * th - 0.001 in
  let sizes :=
    [ ("top", (x, y - th, th));
      ("bottom", (x, y - th, th));
      ("back", (x - 2 * th, th, z - 2 * th));
      ("left", (th, y - th, z - 2 * th));
      ("right", (th, y - th, z - 2 * th));
      ("inner_bottom", (ix, iy, th));
      ("inner_back", (ix - 2 * th, th, iz - 2 * th));
      ("inner_left", (th, iy, iz - 2 * th));
      ("inner_right", (th, iy, iz - 2 * th)) ] in
  let positions :=
    [ ("top", (0, th, z - th));
      ("bottom", (0, th, - z + th));
      ("back", (0, y - th, 0));
      ("left", (- x + th, th, 0));
      ("right", (x - th, th, 0));
      ("inner_bottom", (0, 0, - iz + th));
      ("inner_back", (0, iy - th, 0));
      ("inner_left", (- ix + th, 0, 0));
      ("inner_right", (ix - th, 0, 0)) ] in
  let slidejoint := {| joint_pos := (0, - y, 0); joint_range := Some (- y * 2, 0) |} in
  let '(door_w, door_h, door_th) := (x * 2, z * 2, th * 2) in
  let door_pos := (0, - y + th, 0) in
  inner_box ← Cabinet._add_door c door_w door_h door_th door_pos []
                "center" "center" "door";
  mret {| sizes := sizes;
          positions := positions;
          bodies := [("inner_box", (0, 0, 0))];
          joints := [("slidejoint", slidejoint)];
          doors := [("inner_box", inner_box)];
          shelves := [];
          sites := Some
            {| ext_p0 := (- x, - y, - z);
               ext_px := (x, - y, - z);
               ext_py := (- x, y, - z);
               ext_pz := (- x, - y, z);
               int_p0 := (- ix + 2 * th, - iy, - iz + 2 * th);
               int_px := (ix - 2 * th, - iy, - iz + 2 * th);
               int_py := (- ix + 2 * th, iy - 2 * th, - iz + 2 * th);
               int_pz := (- ix + 2 * th, - iy, iz) |} |}.

(** [self.size[1] * 0.55]: the drawer is never opened all the way. *)
Definition joint_max (self : t) : Q :=
  snd (fst (Cabinet.size (cab self))) * 0.55.

Definition set_door_state (self : t) (min max : Q) : M unit :=
  assert_ (door_range_ok min max);;
  let joint_min := 0 in
  let joint_max := joint_max self in
  let desired_min := joint_min + (joint_max - joint_min) * min in
  let desired_max := joint_min + (joint_max - joint_min) * max in
  let sign := -1 in
  u ← rng_uniform desired_min desired_max;
  set_joint_qpos (Cabinet.name (cab self) +:+ "_slidejoint") (sign * u).

Definition get_door_state (self : t) : M (list (string * Q)) :=
  joint_id ← joint_name2id (Cabinet.name (cab self) +:+ "_slidejoint");
  q ← data_qpos_at joint_id;
  let sign := -1 in
  let hinge_qpos := q * sign in
  let door := OU.normalize_joint_value hinge_qpos 0 (joint_max self) in
  mret [("door", door)].

End Drawer.

(** [str(i)] for a Python integer, as used by the string formatting. *)
Definition str_int (i : Z) : string := NilEmpty.string_of_int (Z.to_int i).

(** [enumerate(l)], counting from [n]. *)
Fixpoint enumerate_from {A} (n : nat) (l : list A) : list (nat * A) :=
  match l with
  | [] => []
  | a :: l' => (n, a) :: enumerate_from (S n) l'
  end.

Definition enumerate {A} (l : list A) : list (nat * A) := enumerate_from 0 l.

Definition SHELF_SECTIONS : list string :=
  ["section_1"; "section_2"; "section_3"; "section_4"].

(** A reset region: the dictionary with the keys ["offset"] and ["size"]. *)
Record Region : Type := {
  region_offset : Vec3;
  region_size : Q * Q;
}.

Module OpenCabinet.

(** [num_shelves] is a count; [np.linspace] rejects a negative one. *)
Record t : Type := {
  cab : Cabinet.t;
  num_shelves : nat;
}.

(** [self.shelf_z_positions], computed in [_create_cab]. *)
Definition shelf_z_positions (self : t) : list Q :=
  let '(x, y, z) := Cabinet.size (cab self) in
  let th := Cabinet.thickness (cab self) in
  (fun v => v - z / 2)
    <$> np.linspace_open (th / 2) (z - th / 2) (num_shelves self).

Definition _create_cab (self : t) : result Geometry :=
  let c := cab self in
  let '(x, y, z) := Cabinet.size c in
  let th := Cabinet.thickness c in
  let shelf_size := (x, y, th) in
  let shelves :=
    (fun '(i, z_pos) =>
       {| shelf_size := shelf_size;
          shelf_pos := (0, 0, z_pos);
          shelf_name := Cabinet.name c +:+ "_shelf_" +:+ str_int (Z.of_nat i);
          shelf_texture := Cabinet.texture c |})
      <$> enumerate (shelf_z_positions self) in
  mret {| sizes := [];
          positions := [];
          bodies := [];
          joints := [];
          doors := [];
          shelves := shelves;
          sites := Some (box_sites x y z th) |}.

Definition region_key (shelf_index : Z) (section : string) : string :=
  "shelf_" +:+ str_int shelf_index +:+ "_" +:+ section.

Definition section_width (self : t) : Q :=
  let '(x, y, z) := Cabinet.size (cab self) in
  let th := Cabinet.thickness (cab self) in
  (x - 2 * th) / inject_Z (Z.of_nat (length SHELF_SECTIONS)).

(** The dictionary value built in the body of the two loops of
    [get_reset_regions], for section number [j] of a shelf at height
    [z_pos]. *)
Definition region_at (self : t) (z_pos : Q) (j : nat) : Region :=
  let '(x, y, z) := Cabinet.size (cab self) in
  let th := Cabinet.thickness (cab self) in
  let section_width := section_width self in
  let x_offset :=
    - x / 2 + th + (inject_Z (Z.of_nat j) * section_width) + (section_width / 2) in
  {| region_offset := (x_offset, 0, z_pos + th);
     region_size := (section_width * 0.8, y - 2 * th) |}.

Definition get_reset_regions (self : t) : gmap string Region :=
  foldl (fun regions '(i, z_pos) =>
           foldl (fun regions '(j, section) =>
                    <[region_key (Z.of_nat i) section := region_at self z_pos j]> regions)
                 regions (enumerate SHELF_SECTIONS))
        ∅ (enumerate (shelf_z_positions self)).

(** The keyword dictionary of a region request.  [shelf_index] is a
    named parameter of [sample_reset_region], so it is never a key of
    [kwargs]; [kwargs.get("shelf_index", 0)] is always the default. *)
Record RegionKwargs : Type := {
  rk_shelf_index : option Z;
  rk_section : option string;
}.

Record Kwargs : Type := {
  kw_sample_region_kwargs : option RegionKwargs;
  kw_section : option string;
}.

(** The shelf index and the section the request is resolved to. *)
Definition requested (shelf_index : option Z) (kwargs : Kwargs) : Z * string :=
  match kw_sample_region_kwargs kwargs with
  | Some region_kwargs =>
      (default 0%Z (rk_shelf_index region_kwargs),
       default "section_1" (rk_section region_kwargs))
  | None =>
      match kw_section kwargs with
      | Some section => (0%Z, section)
      | None => (match shelf_index with Some i => i | None => 0%Z end, "section_1")
      end
  end.

Definition sample_reset_region (self : t) (shelf_index : option Z)
    (kwargs : Kwargs) : result Region :=
  let regions := get_reset_regions self in
  let '(shelf_index, section) := requested shelf_index kwargs in
  let region_key := region_key shelf_index section in
  match regions !! region_key with
  | Some r => Ok r
  | None =>
      match regions !! "shelf_0_section_1" with
      | Some r => Ok r
      | None => Raise KeyError
      end
  end.

End OpenCabinet.

Module PanelCabinet.

(** The attributes are those left by [__init__], which forces
    [handle_type] to [None]; the door is appended to the fixture's own
    root element. *)
Record t : Type := {
  cab : Cabinet.t;
  solid_body : bool;
}.

Definition _create_cab (self : t) : result Geometry :=
  let c := cab self in
  let '(sx, sy, sz) := Cabinet.size c in
  let '(x, y, z) := (sx / 2, sy / 2, sz / 2) in
  let th := Cabinet.thickness c / 2 in
  let geom_name := Cabinet.name c +:+ "_body" in
  let size := (x, y - th, z) in
  let pos := (0, th, 0) in
  let '(sizes, positions) :=
    if solid_body self
    then ([(geom_name, size); (geom_name +:+ "_visual", size)],
          [(geom_name, pos); (geom_name +:+ "_visual", pos)])
    else ([], []) in
  let '(door_w, door_h, door_th) := (x * 2, z * 2, th * 2) in
  let door_pos := (0, - y + th, 0) in
  obj ← Cabinet._add_door c door_w door_h door_th door_pos []
          "center" "center" "door";
  mret {| sizes := sizes;
          positions := positions;
          bodies := [];
          joints := [];
          doors := [("object", obj)];
          shelves := [];
          sites := None |}.

End PanelCabinet.

Module HousingCabinet.

(** [padding], as [[[-x, x], [-y, y], [-z, z]]]. *)
Definition Padding : Type := ((Q * Q) * (Q * Q) * (Q * Q))%type.

Record t : Type := {
  cab : Cabinet.t;
  padding : Padding;
  interior_obj_size : Vec3;
}.

(** [sum(padding[d])]. *)
Definition sum_padding (p : Q * Q) : Q := 0 + p.1 + p.2.

(** The branches of the loop body of [__init__] that fill in the missing
    one of size and padding on one axis. *)
Definition derive_axis (size_d : option Q) (padding_d : option Q * option Q)
    (interior_size_d : Q) : result (Q * (Q * Q)) :=
  match size_d with
  | None =>
      match padding_d with
      | (Some p0, Some p1) => Ok (sum_padding (p0, p1) + interior_size_d, (p0, p1))
      | _ => Raise ValueError
      end
  | Some size_d =>
      match padding_d with
      | (None, None) =>
          let p := (size_d - interior_size_d) / 2 in Ok (size_d, (p, p))
      | (None, Some p1) => Ok (size_d, (size_d - interior_size_d - p1, p1))
      | (Some p0, None) => Ok (size_d, (p0, size_d - interior_size_d - p0))
      | (Some p0, Some p1) =>
          if Qeq_bool size_d (sum_padding (p0, p1) + interior_size_d)
          then Ok (size_d, (p0, p1))
          else Raise AssertionError
      end
  end.

(** [i if abs(i) > 0.000001 else 0]. *)
Definition round_small (i : Q) : Q :=
  if Qlt_bool 0.000001 (Qabs i) then i else 0.

(** One turn of the loop over [d] in [__init__]. *)
Definition resolve_axis (d : nat) (size_d : option Q)
    (padding_d : option Q * option Q) (interior_size_d : Q)
    : result (Q * (Q * Q)) :=
  '(size_d, (p0, p1)) ← derive_axis size_d padding_d interior_size_d;
  let '(p0, p1) := (round_small p0, round_small p1) in
  if Qlt_bool size_d 0 || Qlt_bool p1 0 || (negb (Nat.eqb d 1) && Qlt_bool p0 0)
  then Raise ValueError
  else Ok (size_d, (p0, p1)).

(** The size and padding parsed by [__init__]: [size] is [None] or a list
    of three optional numbers, [padding] is [None] or a list of three
    entries that are [None] or a pair of optional numbers. *)
Definition parse_size_padding
    (interior_size : Vec3)
    (size : option (option Q * option Q * option Q))
    (padding : option (option (option Q * option Q)
                       * option (option Q * option Q)
                       * option (option Q * option Q)))
    : result (Vec3 * Padding) :=
  '(size, padding) ←
    match size, padding with
    | None, None => Raise ValueError
    | None, Some padding => Ok ((None, None, None), padding)
    | Some size, None => Ok (size, (None, None, None))
    | Some size, Some padding => Ok (size, padding)
    end;
  let fill (p : option (option Q * option Q)) := default (None, None) p in
  let '(s0, s1, s2) := size in
  let '(q0, q1, q2) := padding in
  let '(i0, i1, i2) := interior_size in
  '(s0, p0) ← resolve_axis 0 s0 (fill q0) i0;
  '(s1, p1) ← resolve_axis 1 s1 (fill q1) i1;
  '(s2, p2) ← resolve_axis 2 s2 (fill q2) i2;
  mret ((s0, s1, s2), (p0, p1, p2)).

(** [all([d > 0 for d in size])]. *)
Definition all_positive (size : Vec3) : bool :=
  let '(a, b, c) := size in Qlt_bool 0 a && Qlt_bool 0 b && Qlt_bool 0 c.

Definition _create_cab (self : t) : result Geometry :=
  let c := cab self in
  let '(sx, sy, sz) := Cabinet.size c in
  let '(x, y, z) := (sx / 2, sy / 2, sz / 2) in
  let '(pad0, pad1, pad2) := padding self in
  let positions :=
    [ ("top", (0, - pad1.2 / 2, z - pad2.2 / 2));
      ("bottom", (0, - pad1.2 / 2, - z + pad2.1 / 2));
      ("back", (0, y - pad1.2 / 2, 0));
      ("left", (- x + pad0.1 / 2, - pad1.2 / 2, 0));
      ("right", (x - pad0.2 / 2, - pad1.2 / 2, 0)) ] in
  let sizes :=
    [ ("top", (x, y - pad1.2 / 2, pad2.2 / 2));
      ("bottom", (x, y - pad1.2 / 2, pad2.1 / 2));
      ("back", (x, pad1.2 / 2, z));
      ("left", (pad0.1 / 2, y - pad1.2 / 2, z - sum_padding pad2 / 2));
      ("right", (pad0.2 / 2, y - pad1.2 / 2, z - sum_padding pad2 / 2)) ] in
  let sizes := List.filter (fun '(geom, size) => all_positive size) sizes in
  let positions :=
    List.filter (fun '(geom, pos) =>
              bool_decide (geom ∈ List.map fst sizes)) positions in
  mret {| sizes := sizes;
          positions := positions;
          bodies := [];
          joints := [];
          doors := [];
          shelves := [];
          sites := Some
            {| ext_p0 := (- x, - y, - z);
               ext_px := (x, - y, - z);
               ext_py := (- x, y, - z);
               ext_pz := (- x, - y, z);
               int_p0 := (- x + pad0.1, - y + pad1.1, - z + pad2.1);
               int_px := (x - pad0.2, - y + pad1.1, - z + pad2.1);
               int_py := (- x + pad0.1, y - pad1.2, - z + pad2.1);
               int_pz := (- x + pad0.1, - y + pad1.1, z - pad2.2) |} |}.

(** [HousingCabinet.__init__] up to the placement of the interior
    object: the parsed size and padding become the cabinet's. *)
Definition __init__ (proto : Cabinet.t) (interior_size : Vec3)
    (size : option (option Q * option Q * option Q))
    (padding : option (option (option Q * option Q)
                       * option (option Q * option Q)
                       * option (option Q * option Q)))
    : result (t * Geometry) :=
  '(size, padding) ← parse_size_padding interior_size size padding;
  let self :=
    {| cab := {| Cabinet.name := Cabinet.name proto;
                 Cabinet.size := size;
                 Cabinet.thickness := Cabinet.thickness proto;
                 Cabinet.door_gap := Cabinet.door_gap proto;
                 Cabinet.handle_type := Cabinet.handle_type proto;
                 Cabinet.handle_config := Cabinet.handle_config proto;
                 Cabinet.panel_type := Cabinet.panel_type proto;
                 Cabinet.panel_config := Cabinet.panel_config proto;
                 Cabinet.texture := Cabinet.texture proto |};
       padding := padding;
       interior_obj_size := interior_size |} in
  geometry ← _create_cab self;
  mret (self, geometry).

End HousingCabinet.

(** ** The six variants *)

Inductive Fixture : Type :=
| Single (self : SingleCabinet.t)
| Hinge (self : HingeCabinet.t)
| Open (self : OpenCabinet.t)
| DrawerFixture (self : Drawer.t)
| Panel (self : PanelCabinet.t)
| Housing (self : HousingCabinet.t).

(** Method dispatch: a variant that does not override a method inherits
    the one of [Cabinet]. *)
Definition cabinet_of (fx : Fixture) : Cabinet.t :=
  match fx with
  | Single s => SingleCabinet.cab s
  | Hinge s => HingeCabinet.cab s
  | Open s => OpenCabinet.cab s
  | DrawerFixture s => Drawer.cab s
  | Panel s => PanelCabinet.cab s
  | Housing s => HousingCabinet.cab s
  end.

Definition _create_cab (fx : Fixture) : result Geometry :=
  match fx with
  | Single s => SingleCabinet._create_cab s
  | Hinge s => HingeCabinet._create_cab s
  | Open s => OpenCabinet._create_cab s
  | DrawerFixture s => Drawer._create_cab s
  | Panel s => PanelCabinet._create_cab s
  | Housing s => HousingCabinet._create_cab s
  end.

Definition set_door_state (fx : Fixture) (min max : Q) : M unit :=
  match fx with
  | Single s => SingleCabinet.set_door_state s min max
  | Hinge s => HingeCabinet.set_door_state s min max
  | DrawerFixture s => Drawer.set_door_state s min max
  | _ => Cabinet.set_door_state (cabinet_of fx) min max
  end.

Definition get_door_state (fx : Fixture) : M (list (string * Q)) :=
  match fx with
  | Single s => SingleCabinet.get_door_state s
  | Hinge s => HingeCabinet.get_door_state s
  | DrawerFixture s => Drawer.get_door_state s
  | _ => Cabinet.get_door_state (cabinet_of fx)
  end.

(** The variants with a moving part, and the joints each one drives. *)
Definition movable (fx : Fixture) : bool :=
  match fx with
  | Single _ | Hinge _ | DrawerFixture _ => true
  | _ => false
  end.

Definition joint_names (fx : Fixture) : list string :=
  let name := Cabinet.name (cabinet_of fx) in
  match fx with
  | Single _ => [name +:+ "_doorhinge"]
  | Hinge _ => [name +:+ "_rightdoorhinge"; name +:+ "_leftdoorhinge"]
  | DrawerFixture _ => [name +:+ "_slidejoint"]
  | _ => []
  end.

(** ** Further methods and their callers *)

Module CabinetRegions.

(** Modelled from the spec: [get_int_sites] belongs to the fixture base
    class, outside the embedded file; it hands back the four interior
    bounding sites [int_p0], [int_px], [int_py], [int_pz] last given to
    [set_bounds_sites]. *)
Definition get_int_sites (b : BoundingSites) : Vec3 * Vec3 * Vec3 * Vec3 :=
  (int_p0 b, int_px b, int_py b, int_pz b).

(** [Cabinet.get_reset_regions]: the one region ["bottom"]. *)
Definition get_reset_regions (b : BoundingSites) : list (string * Region) :=
  let '(p0, px, py, pz) := get_int_sites b in
  [ ("bottom",
     {| region_offset := (0, 0, p0.2);
        region_size := (px.1.1 - p0.1.1, py.1.2 - p0.1.2) |}) ].

End CabinetRegions.

Module HousingPlacement.

(** [HousingCabinet._place_interior_obj]: the origin handed to
    [interior_obj.set_origin] for a cabinet at position [pos]. *)
Definition _place_interior_obj (self : HousingCabinet.t) (pos : Vec3) : Vec3 :=
  let '(pad0, pad1, pad2) := HousingCabinet.padding self in
  (pos.1.1 + (pad0.1 - pad0.2) / 2,
   pos.1.2 + (pad1.1 - pad1.2) / 2,
   pos.2 + (pad2.1 - pad2.2) / 2).

(** [HousingCabinet.set_pos]: the cabinet takes the position and the
    interior object is placed again; the result is the cabinet's position
    and the interior object's origin. *)
Definition set_pos (self : HousingCabinet.t) (pos : Vec3) : Vec3 * Vec3 :=
  (pos, _place_interior_obj self pos).

End HousingPlacement.

Module BasicEnvChef.





End BasicEnvChef.

(** The whole joint-position store agrees on the joints of [fx]. *)
Definition same_joints (fx : Fixture) (w1 w2 : World) : Prop :=
  forall j, In j (joint_names fx) -> qpos w1 !! j = qpos w2 !! j.

(** [sim.data.qpos] holds the same at the ids of the joints of [fx]. *)
Definition same_entries_at_ids (fx : Fixture) (w1 w2 : World) : Prop :=
  forall j, In j (joint_names fx) ->
    name2id (sim_joints w1) j = name2id (sim_joints w2) j
    /\ forall i, name2id (sim_joints w1) j = Some i ->
         data_qpos w1 !! i = data_qpos w2 !! i.

(** Every door fraction of a state dictionary lies in [[lo, hi]]. *)
Definition fractions_within (lo hi : Q) (state : list (string * Q)) : Prop :=
  Forall (fun door => lo <= door.2 /\ door.2 <= hi) state.

(** The box of half extents [size] centred at [pos] reaches from
    [box_low] to [box_high] on each axis. *)
Definition box_low (pos size : Vec3) : Vec3 :=
  (pos.1.1 - size.1.1, pos.1.2 - size.1.2, pos.2 - size.2).

Definition box_high (pos size : Vec3) : Vec3 :=
  (pos.1.1 + size.1.1, pos.1.2 + size.1.2, pos.2 + size.2).

(** Lookup in a dictionary written as a list of pairs. *)
Definition dict_get {A} (k : string) (d : list (string * A)) : option A :=
  snd <$> List.find (fun kv => String.eqb kv.1 k) d.

(** ** Vocabulary of the properties *)

(** All size components of the specification are positive. *)
Definition positive_size (c : Cabinet.t) : Prop :=
  let '(x, y, z) := Cabinet.size c in 0 < x /\ 0 < y /\ 0 < z.

(** The compiled model has every joint the fixture drives. *)
Definition joints_exist (fx : Fixture) (w : World) : Prop :=
  Forall (fun j => is_Some (qpos w !! j)) (joint_names fx).

(** The joint [name] is a hinge or slide joint of the model whose address
    in [sim.data.qpos] equals its id, as it does when every joint declared
    before it is a hinge or a slide joint. *)
Definition address_is_id (w : World) (name : string) : bool :=
  match name2id (sim_joints w) name with
  | Some joint_id =>
      match sim_joints w !! joint_id with
      | Some j => jnt_scalar j && Nat.eqb (jnt_qposadr (sim_joints w) joint_id) joint_id
      | None => false
      end
  | None => false
  end.

(** Every joint the fixture drives has its address equal to its id. *)
Definition joints_at_their_ids (fx : Fixture) (w : World) : Prop :=
  Forall (fun j => address_is_id w j = true) (joint_names fx).

Definition strictly_between (lo v hi : Q) : bool :=
  Qlt_bool lo v && Qlt_bool v hi.

(** A point lies strictly inside the exterior box spanned by [ext_p0]
    and the far corners [ext_px], [ext_py], [ext_pz]. *)
Definition strictly_inside (b : BoundingSites) (p : Vec3) : bool :=
  let '(px, py, pz) := p in
  strictly_between (ext_p0 b).1.1 px (ext_px b).1.1
  && strictly_between (ext_p0 b).1.2 py (ext_py b).1.2
  && strictly_between (ext_p0 b).2 pz (ext_pz b).2.

Definition interior_strictly_inside (b : BoundingSites) : bool :=
  strictly_inside b (int_p0 b) && strictly_inside b (int_px b)
  && strictly_inside b (int_py b) && strictly_inside b (int_pz b).

(** ** Example fixtures *)

Definition example_cabinet (size : Vec3) (thickness : Q) : Cabinet.t :=
  {| Cabinet.name := "cab";
     Cabinet.size := size;
     Cabinet.thickness := thickness;
     Cabinet.door_gap := 0.003;
     Cabinet.handle_type := Some "bar";
     Cabinet.handle_config := ∅;
     Cabinet.panel_type := Some "raised";
     Cabinet.panel_config := ∅;
     Cabinet.texture := None |}.

Definition example_single (orientation : string) : SingleCabinet.t :=
  {| SingleCabinet.cab := example_cabinet (0.6, 0.4, 0.8) 0.03;
     SingleCabinet.orientation := orientation |}.

Definition example_hinge : HingeCabinet.t :=
  {| HingeCabinet.cab := example_cabinet (0.6, 0.4, 0.8) 0.03 |}.

Definition example_drawer : Drawer.t :=
  {| Drawer.cab := example_cabinet (0.5, 0.5, 0.3) 0.03 |}.

(** A world in which all joints of the example fixtures are at rest and
    the generator yields 0 first and 1/2 ever after. *)
Definition example_world : World :=
  {| qpos := <["cab_doorhinge" := 0]> (<["cab_rightdoorhinge" := 0]>
              (<["cab_leftdoorhinge" := 0]> (<["cab_slidejoint" := 0]> ∅)));
     rng := {| np.stream := fun n => match n with O => 0 | S _ => 1 # 2 end;
               np.drawn := 0 |};
     sim_joints := [mjJNT_HINGE "cab_doorhinge"; mjJNT_HINGE "cab_rightdoorhinge";
                    mjJNT_HINGE "cab_leftdoorhinge"; mjJNT_SLIDE "cab_slidejoint"] |}.

(** The same joints at rest in a model that declares the free joint of a
    movable object first: the hinge ["cab_doorhinge"] has joint id 1 and
    address 7, and entry 1 of [sim.data.qpos] is the object's y
    coordinate. *)
Definition object_first_world : World :=
  {| qpos := qpos example_world;
     rng := rng example_world;
     sim_joints := mjJNT_FREE "obj_joint0" (0, 0, 0.9) (1, 0, 0, 0)
                   :: sim_joints example_world |}.

(** ** Further vocabulary and examples *)

(** The world after [n] draws from the generator and with joint
    positions [q]. *)
Definition after_draws (n : nat) (q : gmap string Q) (w : World) : World :=
  {| qpos := q;
     rng := {| np.stream := np.stream (rng w);
               np.drawn := n + np.drawn (rng w) |};
     sim_joints := sim_joints w |}.

(** The [n]-th number the generator of [w] will draw next. *)
Definition draw (n : nat) (w : World) : Q :=
  np.stream (rng w) (n + np.drawn (rng w)).

(** The fraction sampled by [set_door_state min max] in world [w]. *)
Definition sampled_fraction (n : nat) (min max : Q) (w : World) : Q :=
  min + (max - min) * draw n w.

Definition example_shelves : OpenCabinet.t :=
  {| OpenCabinet.cab := example_cabinet (1, 1 # 2, 1) (1 # 4);
     OpenCabinet.num_shelves := 2 |}.

(** A valid specification in full: positive size components, positive
    wall thickness, non-negative padding. *)
Definition valid_spec (fx : Fixture) : Prop :=
  positive_size (cabinet_of fx)
  /\ 0 < Cabinet.thickness (cabinet_of fx)
  /\ match fx with
     | Housing s =>
         let '((a0, a1), (b0, b1), (c0, c1)) := HousingCabinet.padding s in
         0 <= a0 /\ 0 <= a1 /\ 0 <= b0 /\ 0 <= b1 /\ 0 <= c0 /\ 0 <= c1
     | _ => True
     end.

(** The walls leave room for an interior: the thickness (for the drawer,
    the two nested walls and the clearance of 0.001; for the housing, each
    padding) is positive and smaller than the size it is taken from. *)
Definition roomy (fx : Fixture) : Prop :=
  let '(sx, sy, sz) := Cabinet.size (cabinet_of fx) in
  let t := Cabinet.thickness (cabinet_of fx) in
  match fx with
  | Single _ | Hinge _ | Open _ => 0 < t /\ t < sx /\ t < sy /\ t < sz
  | DrawerFixture _ =>
      0 < t /\ 2 * t + 0.001 < sx /\ 2 * t < sy /\ 2 * t + 0.001 < sz
  | Panel _ => True
  | Housing s =>
      let '((a0, a1), (b0, b1), (c0, c1)) := HousingCabinet.padding s in
      (0 < a0 /\ a0 < sx) /\ (0 < a1 /\ a1 < sx)
      /\ (0 < b0 /\ b0 < sy) /\ (0 < b1 /\ b1 < sy)
      /\ (0 < c0 /\ c0 < sz) /\ (0 < c1 /\ c1 < sz)
  end.

(** The panel style is one [_add_door] accepts. *)
Definition style_supported (c : Cabinet.t) : Prop :=
  exists sel, Cabinet.panel_class_of (Cabinet.panel_type c) = Ok sel.

Definition thick_single : Fixture :=
  Single {| SingleCabinet.cab := example_cabinet (1 # 4, 1, 1) (1 # 2);
            SingleCabinet.orientation := "right" |}.

Definition flush_housing : Fixture :=
  Housing {| HousingCabinet.cab := example_cabinet (1, 1, 1) 0.03;
             HousingCabinet.padding := ((0, 0), (0, 0), (0, 0));
             HousingCabinet.interior_obj_size := (1, 1, 1) |}.

(** The panel styles and the class each one selects, as the
    specification lists them; [None] stands for an omitted style. *)
Definition style_table : list (option string * PanelClass) :=
  [ (None, SlabCabinetPanel);
    (Some "slab", SlabCabinetPanel);
    (Some "shaker", ShakerCabinetPanel);
    (Some "raised", RaisedCabinetPanel);
    (Some "divided_window", DividedWindowCabinetPanel);
    (Some "full_window", FullWindowedCabinetPanel) ].

(** No character of the string is an underscore. *)
Fixpoint underscore_free (s : string) : Prop :=
  match s with
  | EmptyString => True
  | String c s' => c <> "_"%char /\ underscore_free s'
  end.

(** One turn of the outer loop of [get_reset_regions]: the four regions
    of shelf [i] at height [z_pos] are entered into [regions]. *)
Definition add_shelf_regions (self : OpenCabinet.t) (regions : gmap string Region)
    (shelf : nat * Q) : gmap string Region :=
  let '(i, z_pos) := shelf in
  foldl (fun regions '(j, section) =>
           <[OpenCabinet.region_key (Z.of_nat i) section
             := OpenCabinet.region_at self z_pos j]> regions)
        regions (enumerate SHELF_SECTIONS).

(** The pair names a region: the index is one of the shelves and the
    section is one of [SHELF_SECTIONS]. *)
Definition pair_present (self : OpenCabinet.t) (i : Z) (s : string) : Prop :=
  (0 <= i < Z.of_nat (OpenCabinet.num_shelves self))%Z /\ In s SHELF_SECTIONS.

Definition no_shelves : OpenCabinet.t :=
  {| OpenCabinet.cab := example_cabinet (1, 1 # 2, 1) (1 # 4);
     OpenCabinet.num_shelves := 0 |}.

Definition no_kwargs : OpenCabinet.Kwargs :=
  {| OpenCabinet.kw_sample_region_kwargs := None;
     OpenCabinet.kw_section := None |}.

(** The request names its shelf index where [sample_reset_region] reads
    it: in [sample_region_kwargs], or as the parameter [shelf_index] when
    no section is given beside it. *)
Definition index_read (shelf_index : option Z) (kwargs : OpenCabinet.Kwargs) : Prop :=
  OpenCabinet.kw_sample_region_kwargs kwargs = None ->
  OpenCabinet.kw_section kwargs <> None ->
  shelf_index = None \/ shelf_index = Some 0%Z.

(** The pair a request names: the entries of [sample_region_kwargs] when
    that is given, else the parameter [shelf_index] and the keyword
    [section]; a missing index is 0 and a missing section is section 1. *)
Definition named_pair (shelf_index : option Z) (kwargs : OpenCabinet.Kwargs)
    : Z * string :=
  match OpenCabinet.kw_sample_region_kwargs kwargs with
  | Some region_kwargs =>
      (default 0%Z (OpenCabinet.rk_shelf_index region_kwargs),
       default "section_1" (OpenCabinet.rk_section region_kwargs))
  | None =>
      (default 0%Z shelf_index, default "section_1" (OpenCabinet.kw_section kwargs))
  end.

(** The effect of a call on the world, whatever its outcome. *)
Definition touches_only (names : list string) (w w' : World) : Prop :=
  (forall j, ~ In j names -> qpos w' !! j = qpos w !! j)
  /\ (forall j, is_Some (qpos w' !! j) <-> is_Some (qpos w !! j))
  /\ np.stream (rng w') = np.stream (rng w)
  /\ (np.drawn (rng w) <= np.drawn (rng w') <= length names + np.drawn (rng w))%nat.

(** All three half extents of a wall are positive. *)
Definition positive_extents (size : Vec3) : Prop :=
  let '(a, b, c) := size in 0 < a /\ 0 < b /\ 0 < c.

(** A housing with no padding on the left: 0.1 on every other side of a
    unit cube. *)
Definition open_left_housing : HousingCabinet.t :=
  {| HousingCabinet.cab := example_cabinet (1, 1, 1) 0.03;
     HousingCabinet.padding := ((0, 1 # 10), (1 # 10, 1 # 10), (1 # 10, 1 # 10));
     HousingCabinet.interior_obj_size := (9 # 10, 8 # 10, 8 # 10) |}.

(** The six faces of an axis-aligned box. *)
Inductive Face : Type := XLow | XHigh | YLow | YHigh | ZLow | ZHigh.


(** The coordinate of a face of the box of half extents [size] centred at
    [pos]. *)
Definition box_face (f : Face) (pos size : Vec3) : Q :=
  match f with
  | XLow => (box_low pos size).1.1 | XHigh => (box_high pos size).1.1
  | YLow => (box_low pos size).1.2 | YHigh => (box_high pos size).1.2
  | ZLow => (box_low pos size).2 | ZHigh => (box_high pos size).2
  end.

(** The coordinate of a face of the exterior and of the interior box
    spanned by the bounding sites. *)
Definition ext_face (b : BoundingSites) (f : Face) : Q :=
  match f with
  | XLow => (ext_p0 b).1.1 | XHigh => (ext_px b).1.1
  | YLow => (ext_p0 b).1.2 | YHigh => (ext_py b).1.2
  | ZLow => (ext_p0 b).2 | ZHigh => (ext_pz b).2
  end.

Definition int_face (b : BoundingSites) (f : Face) : Q :=
  match f with
  | XLow => (int_p0 b).1.1 | XHigh => (int_px b).1.1
  | YLow => (int_p0 b).1.2 | YHigh => (int_py b).1.2
  | ZLow => (int_p0 b).2 | ZHigh => (int_pz b).2
  end.

(** The walls of the housing and the side of the fixture each one closes. *)
Definition outer_walls : list (string * Face) :=
  [("top", ZHigh); ("bottom", ZLow); ("back", YHigh); ("left", XLow); ("right", XHigh)].


(** The left and right end of the region for section [j] along the shelf,
    and of the section itself. *)
Definition region_left (r : Region) : Q := (region_offset r).1.1 - (region_size r).1 / 2.
Definition region_right (r : Region) : Q := (region_offset r).1.1 + (region_size r).1 / 2.

(** ** Basic facts *)

Lemma Qlt_bool_iff (a b : Q) : Qlt_bool a b = true <-> a < b.
Proof.
  unfold Qlt_bool. rewrite negb_true_iff.
  destruct (Qle_bool b a) eqn:E.
  - apply Qle_bool_iff in E. split; [discriminate | intros H; lra].
  - split; [intros _ | reflexivity].
    destruct (Qlt_le_dec a b) as [H | H]; [exact H |].
    apply Qle_bool_iff in H. congruence.
Qed.

Lemma door_range_ok_iff (a b : Q) :
  door_range_ok a b = true <-> 0 <= a /\ a <= b /\ b <= 1.
Proof.
  unfold door_range_ok. rewrite !andb_true_iff, !Qle_bool_iff.
  split; intros; intuition lra.
Qed.

Lemma set_joint_qpos_ok (name : string) (v v0 : Q) (w : World) :
  qpos w !! name = Some v0 ->
  set_joint_qpos name v w
  = (Ok tt, {| qpos := <[name := v]> (qpos w); rng := rng w;
               sim_joints := sim_joints w |}).
Proof. intros H. unfold set_joint_qpos. now rewrite H. Qed.

Lemma bind_ok {A B} (m : M A) (k : A -> M B) (w w' : World) (a : A) :
  m w = (Ok a, w') -> (m ≫= k) w = k a w'.
Proof. intros H. unfold mbind, M_bind. now rewrite H. Qed.

Lemma bind_raise {A B} (m : M A) (k : A -> M B) (w w' : World) (e : exn) :
  m w = (Raise e, w') -> (m ≫= k) w = (Raise e, w').
Proof. intros H. unfold mbind, M_bind. now rewrite H. Qed.

Lemma assert_true (w : World) : assert_ true w = (Ok tt, w).
Proof. reflexivity. Qed.

Lemma assert_false (w : World) : assert_ false w = (Raise AssertionError, w).
Proof. reflexivity. Qed.

Lemma pi_pos : 0 < np.pi.
Proof. reflexivity. Qed.

Lemma normalize_linear (c f : Q) :
  ~ c == 0 -> OU.normalize_joint_value (0 + (c - 0) * f) 0 c == f.
Proof. intros Hc. unfold OU.normalize_joint_value. field. lra. Qed.

(** Two suffixes of the same name are different joints. *)
Lemma joint_name_ne (name a b : string) : a <> b -> name +:+ a <> name +:+ b.
Proof. intros Hab H. apply Hab. exact (String.app_inj name a b H). Qed.

(** ** C10: the range assertion comes first *)

(** C10.  For every movable variant, [set_door_state min max] with a range
    that violates [0 <= min <= max <= 1] raises [AssertionError] and
    leaves the world (joint positions and generator) exactly as it was. *)
Theorem set_door_state_asserts_range (fx : Fixture) (min max : Q) (w : World) :
  movable fx = true ->
  ~ (0 <= min /\ min <= max /\ max <= 1) ->
  set_door_state fx min max w = (Raise AssertionError, w).
Proof.
  intros Hm Hbad.
  assert (Hr : door_range_ok min max = false).
  { destruct (door_range_ok min max) eqn:E; [| reflexivity].
    apply door_range_ok_iff in E. contradiction. }
  destruct fx as [s | s | s | s | s | s]; try discriminate Hm; cbn;
    unfold SingleCabinet.set_door_state, HingeCabinet.set_door_state,
      Drawer.set_door_state;
    apply bind_raise; rewrite Hr; apply assert_false.
Qed.

Lemma set_door_state_asserts_range_witness :
  set_door_state (Single (example_single "left")) (3 # 4) (1 # 4) example_world
  = (Raise AssertionError, example_world).
Proof.
  apply set_door_state_asserts_range.
  - reflexivity.
  - intros (_ & H & _). revert H. unfold Qle. simpl. lia.
Defined.

(** ** C1: fraction round trip *)

Lemma rng_uniform_run (low high : Q) (w : World) :
  rng_uniform low high w
  = (Ok (low + (high - low) * np.stream (rng w) (np.drawn (rng w))),
     {| qpos := qpos w;
        rng := {| np.stream := np.stream (rng w);
                  np.drawn := S (np.drawn (rng w)) |};
        sim_joints := sim_joints w |}).
Proof. reflexivity. Qed.

(** Unfolds one door-state method down to reads and writes of joints. *)
Ltac run_door_state :=
  unfold SingleCabinet.set_door_state, SingleCabinet.get_door_state,
    HingeCabinet.set_door_state, HingeCabinet.get_door_state,
    Drawer.set_door_state, Drawer.get_door_state;
  unfold mbind, M_bind, mret, M_ret, rng_uniform, np.uniform, np.random,
    set_joint_qpos, joint_name2id, data_qpos_at; cbn.

Section DoorStateRuns.

Variables (min max : Q) (w : World).
Hypothesis range_ok : door_range_ok min max = true.

Lemma single_set_run (self : SingleCabinet.t) (v0 : Q) :
  let hinge := Cabinet.name (SingleCabinet.cab self) +:+ "_doorhinge" in
  qpos w !! hinge = Some v0 ->
  SingleCabinet.set_door_state self min max w
  = (Ok tt,
     after_draws 1
       (<[hinge := SingleCabinet.sign self
                   * (0 + (np.pi / 2 - 0) * min
                      + (0 + (np.pi / 2 - 0) * max - (0 + (np.pi / 2 - 0) * min))
                        * draw 0 w)]> (qpos w)) w).
Proof.
  intros hinge Hv0. subst hinge. run_door_state.
  rewrite range_ok. cbn. now rewrite Hv0.
Qed.

Lemma hinge_set_run (self : HingeCabinet.t) (vr vl : Q) :
  let right := Cabinet.name (HingeCabinet.cab self) +:+ "_rightdoorhinge" in
  let left := Cabinet.name (HingeCabinet.cab self) +:+ "_leftdoorhinge" in
  qpos w !! right = Some vr ->
  qpos w !! left = Some vl ->
  HingeCabinet.set_door_state self min max w
  = (Ok tt,
     after_draws 2
       (<[left := - (0 + (np.pi / 2 - 0) * min
                     + (0 + (np.pi / 2 - 0) * max - (0 + (np.pi / 2 - 0) * min))
                       * draw 1 w)]>
          (<[right := 0 + (np.pi / 2 - 0) * min
                      + (0 + (np.pi / 2 - 0) * max - (0 + (np.pi / 2 - 0) * min))
                        * draw 0 w]> (qpos w))) w).
Proof.
  intros right left Hvr Hvl. subst right left. run_door_state.
  rewrite range_ok. cbn. rewrite Hvr. cbn.
  rewrite lookup_insert_ne by (apply joint_name_ne; discriminate).
  now rewrite Hvl.
Qed.

Lemma drawer_set_run (self : Drawer.t) (v0 : Q) :
  let slide := Cabinet.name (Drawer.cab self) +:+ "_slidejoint" in
  let joint_max := Drawer.joint_max self in
  qpos w !! slide = Some v0 ->
  Drawer.set_door_state self min max w
  = (Ok tt,
     after_draws 1
       (<[slide := -1 * (0 + (joint_max - 0) * min
                         + (0 + (joint_max - 0) * max - (0 + (joint_max - 0) * min))
                           * draw 0 w)]> (qpos w)) w).
Proof.
  intros slide joint_max Hv0. subst slide joint_max. run_door_state.
  rewrite range_ok. cbn. now rewrite Hv0.
Qed.

End DoorStateRuns.

(** *** Reading [sim.data.qpos] at a joint id *)

Lemma single_get_run (self : SingleCabinet.t) (w : World) (i : nat) (v : Q) :
  name2id (sim_joints w) (Cabinet.name (SingleCabinet.cab self) +:+ "_doorhinge")
  = Some i ->
  data_qpos w !! i = Some v ->
  SingleCabinet.get_door_state self w
  = (Ok [("door",
          OU.normalize_joint_value (v * SingleCabinet.sign self) 0 (np.pi / 2))], w).
Proof. intros Hi Hv. run_door_state. rewrite Hi. cbn. now rewrite Hv. Qed.

Lemma hinge_get_run (self : HingeCabinet.t) (w : World) (ir il : nat) (vr vl : Q) :
  name2id (sim_joints w) (Cabinet.name (HingeCabinet.cab self) +:+ "_rightdoorhinge")
  = Some ir ->
  data_qpos w !! ir = Some vr ->
  name2id (sim_joints w) (Cabinet.name (HingeCabinet.cab self) +:+ "_leftdoorhinge")
  = Some il ->
  data_qpos w !! il = Some vl ->
  HingeCabinet.get_door_state self w
  = (Ok [("left_door", OU.normalize_joint_value (- vl) 0 (np.pi / 2));
         ("right_door", OU.normalize_joint_value vr 0 (np.pi / 2))], w).
Proof.
  intros Hir Hvr Hil Hvl. run_door_state.
  rewrite Hir. cbn. rewrite Hvr. cbn. rewrite Hil. cbn. now rewrite Hvl.
Qed.

Lemma drawer_get_run (self : Drawer.t) (w : World) (i : nat) (v : Q) :
  name2id (sim_joints w) (Cabinet.name (Drawer.cab self) +:+ "_slidejoint") = Some i ->
  data_qpos w !! i = Some v ->
  Drawer.get_door_state self w
  = (Ok [("door",
          OU.normalize_joint_value (v * -1) 0 (Drawer.joint_max self))], w).
Proof. intros Hi Hv. run_door_state. rewrite Hi. cbn. now rewrite Hv. Qed.

Lemma name2id_lookup (joints : list MjJoint) (name : string) (i : nat) :
  name2id joints name = Some i ->
  exists j, joints !! i = Some j /\ jnt_name j = name.
Proof.
  unfold name2id.
  destruct (list_find _ joints) as [[i' j] |] eqn:E; [| discriminate].
  cbn. intros [= <-]. apply list_find_Some in E as (Hj & Hn & _). eauto.
Qed.

Lemma jnt_qpos_length (positions : gmap string Q) (j : MjJoint) :
  length (jnt_qpos positions j) = jnt_nq j.
Proof.
  destruct j as [n [[x y] z] [[[qw qx] qy] qz] | n [[[qw qx] qy] qz] | n | n];
    reflexivity.
Qed.

Lemma data_qpos_length (positions : gmap string Q) (joints : list MjJoint) :
  length (concat (jnt_qpos positions <$> joints)) = sum_list (jnt_nq <$> joints).
Proof.
  induction joints as [| j joints IH]; [reflexivity |].
  cbn. now rewrite length_app, jnt_qpos_length, IH.
Qed.

(** The entry at the address of a hinge or slide joint is the position
    kept under the joint's name. *)
Lemma data_qpos_at_address (positions : gmap string Q) (joints : list MjJoint)
    (i : nat) (j : MjJoint) :
  joints !! i = Some j ->
  jnt_scalar j = true ->
  concat (jnt_qpos positions <$> joints) !! jnt_qposadr joints i
  = Some (default 0 (positions !! jnt_name j)).
Proof.
  intros Hj Hs. unfold jnt_qposadr.
  set (adr := sum_list (jnt_nq <$> take i joints)).
  rewrite <- (take_drop_middle joints i j Hj).
  assert (Hlen : length (concat (jnt_qpos positions <$> take i joints)) = adr)
    by apply data_qpos_length.
  rewrite fmap_app, concat_app, lookup_app_r by lia.
  rewrite Hlen, Nat.sub_diag.
  destruct j; try discriminate Hs; reflexivity.
Qed.

Lemma jnt_qpos_insert_ne (positions : gmap string Q) (name : string) (v : Q)
    (j : MjJoint) :
  jnt_name j <> name ->
  jnt_qpos (<[name := v]> positions) j = jnt_qpos positions j.
Proof.
  intros Hne.
  destruct j as [n [[x y] z] [[[qw qx] qy] qz] | n [[[qw qx] qy] qz] | n | n];
    cbn in *; try reflexivity; now rewrite lookup_insert_ne by congruence.
Qed.

Lemma data_qpos_insert_ne (positions : gmap string Q) (name : string) (v : Q)
    (joints : list MjJoint) :
  Forall (fun j => jnt_name j <> name) joints ->
  concat (jnt_qpos (<[name := v]> positions) <$> joints)
  = concat (jnt_qpos positions <$> joints).
Proof.
  induction 1 as [| j joints Hj _ IH]; [reflexivity |].
  cbn. now rewrite jnt_qpos_insert_ne, IH.
Qed.

(** The position kept under a joint's name is the entry at the joint's
    address: in a model whose joints have pairwise different names,
    [set_joint_qpos] on a hinge or slide joint changes the entry of
    [sim.data.qpos] at the address of that joint and no other. *)
Lemma set_joint_qpos_writes_address (w : World) (name : string) (v v0 : Q)
    (i : nat) (j : MjJoint) :
  NoDup (jnt_name <$> sim_joints w) ->
  sim_joints w !! i = Some j ->
  jnt_name j = name ->
  jnt_scalar j = true ->
  qpos w !! name = Some v0 ->
  exists w',
    set_joint_qpos name v w = (Ok tt, w')
    /\ data_qpos w' = <[jnt_qposadr (sim_joints w) i := v]> (data_qpos w).
Proof.
  intros Hnd Hj Hn Hs Hv0. eexists. split; [exact (set_joint_qpos_ok name v v0 w Hv0) |].
  unfold data_qpos, jnt_qposadr. cbn [qpos sim_joints].
  set (adr := sum_list (jnt_nq <$> take i (sim_joints w))).
  assert (Hsplit := take_drop_middle (sim_joints w) i j Hj).
  rewrite <- Hsplit in Hnd. rewrite fmap_app, fmap_cons in Hnd.
  apply NoDup_app in Hnd as (_ & Hbefore & Hafter).
  apply NoDup_cons in Hafter as [Hafter _].
  assert (Hb : Forall (fun j' => jnt_name j' <> name) (take i (sim_joints w))).
  { apply Forall_forall. intros j' Hin Heq.
    apply (Hbefore (jnt_name j')).
    - apply list_elem_of_fmap. eauto.
    - rewrite Heq, <- Hn. left. }
  assert (Ha : Forall (fun j' => jnt_name j' <> name) (drop (S i) (sim_joints w))).
  { apply Forall_forall. intros j' Hin Heq. apply Hafter.
    rewrite Hn, <- Heq. apply list_elem_of_fmap. eauto. }
  rewrite <- Hsplit.
  rewrite !fmap_app, !fmap_cons, !concat_app. cbn [concat].
  rewrite (data_qpos_insert_ne _ _ _ _ Hb), (data_qpos_insert_ne _ _ _ _ Ha).
  assert (Hlen : length (concat (jnt_qpos (qpos w) <$> take i (sim_joints w))) = adr)
    by apply data_qpos_length.
  rewrite insert_app_r_alt by lia.
  rewrite Hlen, Nat.sub_diag.
  destruct j; try discriminate Hs; cbn in Hn; subst name; cbn;
    now rewrite lookup_insert_eq.
Qed.

Lemma example_joints_exist (fx : Fixture) :
  Cabinet.name (cabinet_of fx) = "cab" -> joints_exist fx example_world.
Proof.
  intros Hn. unfold joints_exist, joint_names. rewrite Hn.
  destruct fx; repeat constructor; eexists; vm_compute; reflexivity.
Defined.

Lemma example_joints_at_their_ids (fx : Fixture) :
  Cabinet.name (cabinet_of fx) = "cab" -> joints_at_their_ids fx example_world.
Proof.
  intros Hn. unfold joints_at_their_ids, joint_names. rewrite Hn.
  destruct fx; repeat constructor.
Defined.

(** C1.  The round trip fails where the address of a door joint differs
    from its id.  In a model that declares the free joint of an object
    before the hinge, [set_door_state 1 1] on a right-opening single-door
    cabinet writes [pi/2] at the address of the hinge, which is 7; the
    hinge has joint id 1, so [get_door_state] reads entry 1 of
    [sim.data.qpos], the y coordinate of the object, and reports the door
    open by 0 where the fraction set was 1. *)
Theorem door_state_round_trip_reads_joint_id :
  exists (w' : World) (q d : Q),
    set_door_state (Single (example_single "right")) 1 1 object_first_world
    = (Ok tt, w')
    /\ qpos w' !! "cab_doorhinge" = Some q
    /\ q == np.pi / 2
    /\ name2id (sim_joints w') "cab_doorhinge" = Some 1%nat
    /\ jnt_qposadr (sim_joints w') 1 = 7%nat
    /\ data_qpos w' !! 7%nat = Some q
    /\ data_qpos w' !! 1%nat = Some 0
    /\ get_door_state (Single (example_single "right")) w' = (Ok [("door", d)], w')
    /\ d == 0
    /\ ~ d == 1.
Proof.
  assert (Hr : door_range_ok 1 1 = true) by reflexivity.
  assert (Hv0 : qpos object_first_world !! "cab_doorhinge" = Some 0)
    by (vm_compute; reflexivity).
  pose proof (single_set_run 1 1 object_first_world Hr (example_single "right") 0 Hv0)
    as Hset.
  cbn zeta in Hset.
  eexists _, _, _. split; [exact Hset |].
  split; [cbn; apply lookup_insert_eq |].
  split; [vm_compute; reflexivity |].
  split; [vm_compute; reflexivity |].
  split; [vm_compute; reflexivity |].
  split; [vm_compute; reflexivity |].
  split; [vm_compute; reflexivity |].
  split.
  { apply (single_get_run (example_single "right") _ 1 0); vm_compute; reflexivity. }
  split; [vm_compute; reflexivity | vm_compute; discriminate].
Qed.

(** ** C2: orientation and the sign of the hinge angle *)

(** C2.  Setting a single-door cabinet fully open ([min = max = 1]) writes
    the hinge value [-(pi/2)] when the orientation is ["left"] and
    [pi/2] when it is ["right"]: opposite signs, the same magnitude.
    [get_door_state] multiplies the entry it reads by the same sign, [-1]
    for ["left"] and [1] for ["right"], before normalising it, so on
    reading the value written for its orientation it normalises the
    angle [pi/2] for both orientations. *)
Theorem single_door_orientation_sign (c : Cabinet.t) (w : World) (v0 : Q) :
  let hinge := Cabinet.name c +:+ "_doorhinge" in
  let left_cab := {| SingleCabinet.cab := c; SingleCabinet.orientation := "left" |} in
  let right_cab := {| SingleCabinet.cab := c; SingleCabinet.orientation := "right" |} in
  qpos w !! hinge = Some v0 ->
  exists (wl wr : World) (ql qr : Q),
    SingleCabinet.set_door_state left_cab 1 1 w = (Ok tt, wl)
    /\ SingleCabinet.set_door_state right_cab 1 1 w = (Ok tt, wr)
    /\ qpos wl !! hinge = Some ql
    /\ qpos wr !! hinge = Some qr
    /\ ql == - (np.pi / 2)
    /\ qr == np.pi / 2
    /\ ql == - qr
    /\ Qabs ql == Qabs qr
    /\ (forall (w' : World) (i : nat) (v : Q),
          name2id (sim_joints w') hinge = Some i ->
          data_qpos w' !! i = Some v ->
          SingleCabinet.get_door_state left_cab w'
          = (Ok [("door", OU.normalize_joint_value (v * -1) 0 (np.pi / 2))], w')
          /\ SingleCabinet.get_door_state right_cab w'
             = (Ok [("door", OU.normalize_joint_value (v * 1) 0 (np.pi / 2))], w'))
    /\ ql * -1 == np.pi / 2
    /\ qr * 1 == np.pi / 2.
Proof.
  intros hinge left_cab right_cab Hv0.
  assert (Hr : door_range_ok 1 1 = true) by reflexivity.
  pose proof (single_set_run 1 1 w Hr left_cab v0 Hv0) as Hl.
  pose proof (single_set_run 1 1 w Hr right_cab v0 Hv0) as Hrt.
  cbn zeta in Hl, Hrt.
  eexists _, _, _, _.
  split; [exact Hl |]. split; [exact Hrt |].
  split; [cbn; apply lookup_insert_eq |].
  split; [cbn; apply lookup_insert_eq |].
  set (X := 0 + (np.pi / 2 - 0) * 1
            + (0 + (np.pi / 2 - 0) * 1 - (0 + (np.pi / 2 - 0) * 1)) * draw 0 w).
  assert (HX : X == np.pi / 2) by (subst X; unfold np.pi; field).
  change (SingleCabinet.sign left_cab) with (-1).
  change (SingleCabinet.sign right_cab) with 1.
  split; [rewrite HX; reflexivity |]. split; [rewrite HX; reflexivity |].
  split; [rewrite HX; reflexivity |].
  split; [rewrite HX; reflexivity |].
  split.
  { intros w' i v Hi Hv. split.
    - exact (single_get_run left_cab w' i v Hi Hv).
    - exact (single_get_run right_cab w' i v Hi Hv). }
  split; rewrite HX; reflexivity.
Qed.

Lemma single_door_orientation_sign_witness :
  exists (wl wr : World) (ql qr : Q),
    SingleCabinet.set_door_state (example_single "left") 1 1 example_world = (Ok tt, wl)
    /\ SingleCabinet.set_door_state (example_single "right") 1 1 example_world = (Ok tt, wr)
    /\ qpos wl !! "cab_doorhinge" = Some ql
    /\ qpos wr !! "cab_doorhinge" = Some qr
    /\ ql == - (np.pi / 2)
    /\ qr == np.pi / 2
    /\ ql == - qr
    /\ Qabs ql == Qabs qr
    /\ (forall (w' : World) (i : nat) (v : Q),
          name2id (sim_joints w') "cab_doorhinge" = Some i ->
          data_qpos w' !! i = Some v ->
          SingleCabinet.get_door_state (example_single "left") w'
          = (Ok [("door", OU.normalize_joint_value (v * -1) 0 (np.pi / 2))], w')
          /\ SingleCabinet.get_door_state (example_single "right") w'
             = (Ok [("door", OU.normalize_joint_value (v * 1) 0 (np.pi / 2))], w'))
    /\ ql * -1 == np.pi / 2
    /\ qr * 1 == np.pi / 2.
Proof.
  apply (single_door_orientation_sign
           (example_cabinet (0.6, 0.4, 0.8) 0.03) example_world 0).
  vm_compute. reflexivity.
Defined.

(** ** C3: the drawer opens to 55% of its depth *)

Lemma sampled_fraction_bounds (n : nat) (min max : Q) (w : World) :
  np.well_formed (rng w) -> min <= max ->
  min <= sampled_fraction n min max w /\ sampled_fraction n min max w <= max.
Proof.
  intros Hwf Hle. unfold sampled_fraction, draw.
  destruct (Hwf (n + np.drawn (rng w))%nat) as [H0 H1].
  split; nra.
Qed.

(** The range given to the slide joint element is the full depth. *)
Lemma drawer_joint_range (self : Drawer.t) (g : Geometry) :
  Drawer._create_cab self = Ok g ->
  exists joint lo hi,
    dict_get "slidejoint" (joints g) = Some joint
    /\ joint_range joint = Some (lo, hi)
    /\ lo == - (Cabinet.size (Drawer.cab self)).1.2 /\ hi == 0.
Proof.
  unfold Drawer._create_cab.
  destruct (Cabinet.size (Drawer.cab self)) as [[sx sy] sz].
  destruct (Cabinet._add_door _ _ _ _ _ _ _ _ _); cbn; [| discriminate].
  intros [= <-]. cbn. eexists _, _, _. split; [reflexivity |].
  split; [reflexivity |].
  split; [cbn; field | reflexivity].
Qed.

(** C3 as stated fails: the range [_create_cab] declares for the slide
    joint of a drawer of depth 0.5 is [[-0.5, 0]], the full depth, not
    [[-(0.55 * 0.5), 0]]. *)
Lemma drawer_joint_range_is_full_depth :
  exists (g : Geometry) (joint : Joint) (lo hi : Q),
    Drawer._create_cab example_drawer = Ok g
    /\ dict_get "slidejoint" (joints g) = Some joint
    /\ joint_range joint = Some (lo, hi)
    /\ lo == - 0.5
    /\ hi == 0
    /\ ~ lo == - (0.55 * 0.5).
Proof.
  eexists _, _, _, _. split; [vm_compute; reflexivity |].
  split; [vm_compute; reflexivity |].
  split; [vm_compute; reflexivity |].
  split; [vm_compute; reflexivity |].
  split; [vm_compute; reflexivity | vm_compute; discriminate].
Qed.

(** C3, amended.  For a drawer of depth [d], [_create_cab] declares the
    slide joint with the full range [[-d, 0]]; the cap of 55% is the cap
    of the open-ness mapping.  [set_door_state min max] writes the slide
    value [- f * 0.55 * d], where [f] is the fraction sampled between
    [min] and [max]; with [min = max = 1] this is [-(0.55 * d)], strictly
    short of the full depth [d], and no sampled value exceeds that cap.
    [get_door_state] normalises the negated entry it reads over the same
    range [0 .. d * 0.55]. *)
Theorem drawer_opens_to_55_percent (self : Drawer.t) (g : Geometry)
    (min max : Q) (w : World) (v0 : Q) :
  let slide := Cabinet.name (Drawer.cab self) +:+ "_slidejoint" in
  let d := (Cabinet.size (Drawer.cab self)).1.2 in
  let f := sampled_fraction 0 min max w in
  Drawer._create_cab self = Ok g ->
  0 <= min /\ min <= max /\ max <= 1 ->
  qpos w !! slide = Some v0 ->
  (exists (joint : Joint) (lo hi : Q),
     dict_get "slidejoint" (joints g) = Some joint
     /\ joint_range joint = Some (lo, hi)
     /\ lo == - d /\ hi == 0)
  /\ (exists (w' : World) (q : Q),
        Drawer.set_door_state self min max w = (Ok tt, w')
        /\ qpos w' !! slide = Some q
        /\ q == - f * 0.55 * d
        /\ (min == 1 -> q == - (0.55 * d))
        /\ (np.well_formed (rng w) -> 0 < d -> - d < - (0.55 * d) <= q /\ q <= 0))
  /\ (forall (w' : World) (i : nat) (v : Q),
        name2id (sim_joints w') slide = Some i ->
        data_qpos w' !! i = Some v ->
        Drawer.get_door_state self w'
        = (Ok [("door", OU.normalize_joint_value (v * -1) 0 (d * 0.55))], w')).
Proof.
  intros slide d f Hg Hrange Hv0.
  assert (Hr : door_range_ok min max = true) by (apply door_range_ok_iff; exact Hrange).
  pose proof (drawer_set_run min max w Hr self v0 Hv0) as Hset. cbn zeta in Hset.
  split; [exact (drawer_joint_range self g Hg) |].
  split.
  - eexists _, _. split; [exact Hset |].
    split; [cbn; apply lookup_insert_eq |].
    assert (Hq : -1 * (0 + (Drawer.joint_max self - 0) * min
                       + (0 + (Drawer.joint_max self - 0) * max
                          - (0 + (Drawer.joint_max self - 0) * min)) * draw 0 w)
                 == - f * 0.55 * d).
    { subst f d. unfold sampled_fraction, Drawer.joint_max.
      destruct (Cabinet.size (Drawer.cab self)) as [[sx sy] sz]. cbn. ring. }
    split; [exact Hq |]. split.
    + intros Hmin. rewrite Hq. subst f. unfold sampled_fraction.
      assert (max == 1) by lra. nra.
    + intros Hwf Hd. rewrite Hq.
      destruct (sampled_fraction_bounds 0 min max w Hwf) as [Hlo Hhi]; [lra |].
      fold f in Hlo, Hhi. nra.
  - intros w' i v Hi Hv. exact (drawer_get_run self w' i v Hi Hv).
Qed.

Lemma drawer_opens_to_55_percent_witness :
  exists g : Geometry,
    Drawer._create_cab example_drawer = Ok g
    /\ (exists (joint : Joint) (lo hi : Q),
          dict_get "slidejoint" (joints g) = Some joint
          /\ joint_range joint = Some (lo, hi)
          /\ lo == - 0.5 /\ hi == 0)
    /\ (exists (w' : World) (q : Q),
          Drawer.set_door_state example_drawer 1 1 example_world = (Ok tt, w')
          /\ qpos w' !! "cab_slidejoint" = Some q
          /\ q == - sampled_fraction 0 1 1 example_world * 0.55 * 0.5
          /\ (1 == 1 -> q == - (0.55 * 0.5))
          /\ (np.well_formed (rng example_world) -> 0 < 0.5 ->
              - 0.5 < - (0.55 * 0.5) <= q /\ q <= 0))
    /\ (forall (w' : World) (i : nat) (v : Q),
          name2id (sim_joints w') "cab_slidejoint" = Some i ->
          data_qpos w' !! i = Some v ->
          Drawer.get_door_state example_drawer w'
          = (Ok [("door", OU.normalize_joint_value (v * -1) 0 (0.5 * 0.55))], w')).
Proof.
  destruct (Drawer._create_cab example_drawer) as [g |] eqn:Hg;
    [| vm_compute in Hg; discriminate Hg].
  exists g. split; [reflexivity |].
  apply (drawer_opens_to_55_percent example_drawer g 1 1 example_world 0).
  - exact Hg.
  - repeat split; unfold Qle; simpl; lia.
  - vm_compute. reflexivity.
Defined.

(** ** C8: the two doors of the hinge cabinet *)

(** C8 as stated fails: with [min = 0], [max = 1] and a generator whose
    first two numbers are 0 and 1/2, the right hinge is set to 0 and the
    left hinge to [-(pi/4)].  Two numbers are drawn and the magnitudes
    differ. *)
Lemma hinge_doors_drawn_separately :
  exists (w' : World) (qr ql : Q),
    HingeCabinet.set_door_state example_hinge 0 1 example_world = (Ok tt, w')
    /\ qpos w' !! "cab_rightdoorhinge" = Some qr
    /\ qpos w' !! "cab_leftdoorhinge" = Some ql
    /\ qr == 0
    /\ ql == - (np.pi / 4)
    /\ ~ Qabs ql == Qabs qr
    /\ np.drawn (rng w') = 2%nat.
Proof.
  assert (Hr : door_range_ok 0 1 = true) by reflexivity.
  assert (Hvr : qpos example_world !! "cab_rightdoorhinge" = Some 0)
    by (vm_compute; reflexivity).
  assert (Hvl : qpos example_world !! "cab_leftdoorhinge" = Some 0)
    by (vm_compute; reflexivity).
  pose proof (hinge_set_run 0 1 example_world Hr example_hinge 0 0 Hvr Hvl) as Hset.
  cbn zeta in Hset.
  eexists _, _, _. split; [exact Hset |].
  split.
  { cbn. rewrite lookup_insert_ne by discriminate. apply lookup_insert_eq. }
  split; [cbn; apply lookup_insert_eq |].
  split; [vm_compute; reflexivity |].
  split; [vm_compute; reflexivity |].
  split; [vm_compute; discriminate | reflexivity].
Qed.

(** C8, amended.  [set_door_state min max] on a hinge cabinet draws two
    numbers from the generator, one per door.  The right hinge receives
    [pi/2] times the first sampled fraction, the left hinge the negation
    of [pi/2] times the second sampled fraction; both fractions lie in
    [[min, max]], so the right angle is non-negative and the left angle is
    non-positive.  The two angles mirror each other exactly when the two
    sampled fractions agree, as they do for [min = max].
    [get_door_state] reports the two doors separately and negates the
    entry it reads for the left door. *)
Theorem hinge_doors_mirrored (self : HingeCabinet.t) (min max : Q) (w : World) :
  let right := Cabinet.name (HingeCabinet.cab self) +:+ "_rightdoorhinge" in
  let left := Cabinet.name (HingeCabinet.cab self) +:+ "_leftdoorhinge" in
  let f_right := sampled_fraction 0 min max w in
  let f_left := sampled_fraction 1 min max w in
  0 <= min /\ min <= max /\ max <= 1 ->
  np.well_formed (rng w) ->
  joints_exist (Hinge self) w ->
  exists (w' : World) (qr ql : Q),
    HingeCabinet.set_door_state self min max w = (Ok tt, w')
    /\ np.drawn (rng w') = (2 + np.drawn (rng w))%nat
    /\ qpos w' !! right = Some qr
    /\ qpos w' !! left = Some ql
    /\ qr == np.pi / 2 * f_right
    /\ ql == - (np.pi / 2 * f_left)
    /\ min <= f_right /\ f_right <= max /\ min <= f_left /\ f_left <= max
    /\ 0 <= qr /\ ql <= 0
    /\ (f_left == f_right -> ql == - qr)
    /\ (min == max -> ql == - qr)
    /\ (forall (w'' : World) (ir il : nat) (vr vl : Q),
          name2id (sim_joints w'') right = Some ir ->
          data_qpos w'' !! ir = Some vr ->
          name2id (sim_joints w'') left = Some il ->
          data_qpos w'' !! il = Some vl ->
          HingeCabinet.get_door_state self w''
          = (Ok [("left_door", OU.normalize_joint_value (- vl) 0 (np.pi / 2));
                 ("right_door", OU.normalize_joint_value vr 0 (np.pi / 2))], w'')).
Proof.
  intros right left f_right f_left Hrange Hwf Hj.
  assert (Hr : door_range_ok min max = true) by (apply door_range_ok_iff; exact Hrange).
  apply Forall_cons_1 in Hj as [[vr Hvr] Hj].
  apply Forall_cons_1 in Hj as [[vl Hvl] _]. cbn in Hvr, Hvl.
  pose proof (hinge_set_run min max w Hr self vr vl Hvr Hvl) as Hset.
  cbn zeta in Hset.
  destruct (sampled_fraction_bounds 0 min max w Hwf) as [Hr0 Hr1]; [lra |].
  destruct (sampled_fraction_bounds 1 min max w Hwf) as [Hl0 Hl1]; [lra |].
  fold f_right in Hr0, Hr1. fold f_left in Hl0, Hl1.
  set (qr := 0 + (np.pi / 2 - 0) * min
             + (0 + (np.pi / 2 - 0) * max - (0 + (np.pi / 2 - 0) * min)) * draw 0 w)
    in Hset.
  set (ql := - (0 + (np.pi / 2 - 0) * min
                + (0 + (np.pi / 2 - 0) * max - (0 + (np.pi / 2 - 0) * min)) * draw 1 w))
    in Hset.
  assert (Hqr : qr == np.pi / 2 * f_right)
    by (subst qr f_right; unfold sampled_fraction, np.pi; field).
  assert (Hql : ql == - (np.pi / 2 * f_left))
    by (subst ql f_left; unfold sampled_fraction, np.pi; field).
  assert (Hpi : 0 < np.pi / 2) by reflexivity.
  assert (Hlookr : <[left := ql]> (<[right := qr]> (qpos w)) !! right = Some qr).
  { rewrite lookup_insert_ne
      by (intros E; symmetry in E; revert E; apply joint_name_ne; discriminate).
    apply lookup_insert_eq. }
  assert (Hlookl : <[left := ql]> (<[right := qr]> (qpos w)) !! left = Some ql)
    by apply lookup_insert_eq.
  exists (after_draws 2 (<[left := ql]> (<[right := qr]> (qpos w))) w), qr, ql.
  split; [exact Hset |]. split; [reflexivity |].
  split; [exact Hlookr |]. split; [exact Hlookl |].
  split; [exact Hqr |]. split; [exact Hql |].
  split; [exact Hr0 |]. split; [exact Hr1 |].
  split; [exact Hl0 |]. split; [exact Hl1 |].
  split; [rewrite Hqr; nra |]. split; [rewrite Hql; nra |].
  split; [intros E; rewrite Hql, Hqr, E; reflexivity |].
  split.
  { intros E. rewrite Hql, Hqr. subst f_left f_right. unfold sampled_fraction.
    rewrite E. ring. }
  intros w'' ir il vr' vl' Hir Hvr' Hil Hvl'.
  exact (hinge_get_run self w'' ir il vr' vl' Hir Hvr' Hil Hvl').
Qed.

Lemma hinge_doors_mirrored_witness :
  exists (w' : World) (qr ql : Q),
    HingeCabinet.set_door_state example_hinge (1 # 4) (3 # 4) example_world = (Ok tt, w')
    /\ np.drawn (rng w') = 2%nat
    /\ qpos w' !! "cab_rightdoorhinge" = Some qr
    /\ qpos w' !! "cab_leftdoorhinge" = Some ql
    /\ qr == np.pi / 2 * sampled_fraction 0 (1 # 4) (3 # 4) example_world
    /\ ql == - (np.pi / 2 * sampled_fraction 1 (1 # 4) (3 # 4) example_world)
    /\ (1 # 4) <= sampled_fraction 0 (1 # 4) (3 # 4) example_world
    /\ sampled_fraction 0 (1 # 4) (3 # 4) example_world <= (3 # 4)
    /\ (1 # 4) <= sampled_fraction 1 (1 # 4) (3 # 4) example_world
    /\ sampled_fraction 1 (1 # 4) (3 # 4) example_world <= (3 # 4)
    /\ 0 <= qr /\ ql <= 0
    /\ (sampled_fraction 1 (1 # 4) (3 # 4) example_world
        == sampled_fraction 0 (1 # 4) (3 # 4) example_world -> ql == - qr)
    /\ ((1 # 4) == (3 # 4) -> ql == - qr)
    /\ (forall (w'' : World) (ir il : nat) (vr vl : Q),
          name2id (sim_joints w'') "cab_rightdoorhinge" = Some ir ->
          data_qpos w'' !! ir = Some vr ->
          name2id (sim_joints w'') "cab_leftdoorhinge" = Some il ->
          data_qpos w'' !! il = Some vl ->
          HingeCabinet.get_door_state example_hinge w''
          = (Ok [("left_door", OU.normalize_joint_value (- vl) 0 (np.pi / 2));
                 ("right_door", OU.normalize_joint_value vr 0 (np.pi / 2))], w'')).
Proof.
  apply (hinge_doors_mirrored example_hinge (1 # 4) (3 # 4) example_world).
  - repeat split; unfold Qle; simpl; lia.
  - intros [| n]; split; unfold Qle, Qlt; simpl; lia.
  - apply example_joints_exist. reflexivity.
Defined.

(** ** C4: shelf heights of the open cabinet *)

Lemma inject_nat_nonzero (n : nat) :
  (0 < n)%nat -> ~ inject_Z (Z.of_nat n) == 0.
Proof. intros Hn. unfold Qeq. simpl. lia. Qed.

Lemma linspace_open_lookup (start stop : Q) (num i : nat) :
  (i < num)%nat ->
  np.linspace_open start stop num !! i
  = Some (inject_Z (Z.of_nat i) * ((stop - start) / inject_Z (Z.of_nat num)) + start).
Proof.
  intros Hi. unfold np.linspace_open.
  rewrite list_lookup_fmap, lookup_seq_lt by exact Hi. reflexivity.
Qed.

Lemma linspace_open_length (start stop : Q) (num : nat) :
  length (np.linspace_open start stop num) = num.
Proof. unfold np.linspace_open. now rewrite length_fmap, length_seq. Qed.

Lemma shelf_z_positions_length (self : OpenCabinet.t) :
  length (OpenCabinet.shelf_z_positions self) = OpenCabinet.num_shelves self.
Proof.
  unfold OpenCabinet.shelf_z_positions.
  destruct (Cabinet.size (OpenCabinet.cab self)) as [[x y] z].
  now rewrite length_fmap, linspace_open_length.
Qed.

Lemma shelf_z_positions_lookup (self : OpenCabinet.t) (i : nat) :
  (i < OpenCabinet.num_shelves self)%nat ->
  let h := (Cabinet.size (OpenCabinet.cab self)).2 in
  let t := Cabinet.thickness (OpenCabinet.cab self) in
  exists z_i,
    OpenCabinet.shelf_z_positions self !! i = Some z_i
    /\ z_i == - h / 2 + t / 2
              + inject_Z (Z.of_nat i)
                * ((h - t) / inject_Z (Z.of_nat (OpenCabinet.num_shelves self))).
Proof.
  intros Hi h t. subst h t. unfold OpenCabinet.shelf_z_positions.
  destruct (Cabinet.size (OpenCabinet.cab self)) as [[x y] z]. cbn [snd].
  rewrite list_lookup_fmap, linspace_open_lookup by exact Hi. cbn.
  eexists. split; [reflexivity |].
  field. apply inject_nat_nonzero. lia.
Qed.

(** C4 as stated fails in its last part: with height 1, thickness 1/4 and
    two shelves the shelves sit at -3/8 and 0, and the last one is 1/2
    below the top, not the half-thickness 1/8. *)
Lemma last_shelf_not_half_thickness_below_top :
  exists z0 z1,
    OpenCabinet.shelf_z_positions example_shelves = [z0; z1]
    /\ z0 == - (3 # 8) /\ z1 == 0
    /\ ~ z1 == 1 / 2 - (1 # 4) / 2.
Proof.
  eexists _, _. split; [reflexivity |].
  split; [reflexivity |]. split; [reflexivity |]. discriminate.
Qed.

(** C4, amended.  For open shelving with [N] shelves, height [h] and
    thickness [t] there are [N] shelf heights; shelf [i] sits at
    [t/2 + i * (h - t)/N] above the bottom face [-h/2], so the first shelf
    is half a thickness above the bottom and consecutive shelves are
    [(h - t)/N] apart.  The last shelf sits one spacing plus half a
    thickness below the top face [h/2]: each shelf has an open bay above
    it, [N] bays in all. *)
Theorem open_shelves_evenly_spaced (self : OpenCabinet.t) :
  let h := (Cabinet.size (OpenCabinet.cab self)).2 in
  let t := Cabinet.thickness (OpenCabinet.cab self) in
  let N := OpenCabinet.num_shelves self in
  let step := (h - t) / inject_Z (Z.of_nat N) in
  length (OpenCabinet.shelf_z_positions self) = N
  /\ (forall i, (i < N)%nat ->
      exists z_i, OpenCabinet.shelf_z_positions self !! i = Some z_i
                  /\ z_i == - h / 2 + t / 2 + inject_Z (Z.of_nat i) * step)
  /\ ((0 < N)%nat ->
      exists z_first, OpenCabinet.shelf_z_positions self !! 0%nat = Some z_first
                      /\ z_first == - h / 2 + t / 2)
  /\ (forall i, (S i < N)%nat ->
      exists z_i z_next,
        OpenCabinet.shelf_z_positions self !! i = Some z_i
        /\ OpenCabinet.shelf_z_positions self !! S i = Some z_next
        /\ z_next - z_i == step)
  /\ ((0 < N)%nat ->
      exists z_last, last (OpenCabinet.shelf_z_positions self) = Some z_last
                     /\ z_last == h / 2 - (t / 2 + step)).
Proof.
  intros h t N step.
  split; [apply shelf_z_positions_length |].
  split; [intros i Hi; apply (shelf_z_positions_lookup self i Hi) |].
  split.
  { intros HN. destruct (shelf_z_positions_lookup self 0 HN) as (z0 & H0 & E0).
    exists z0. split; [exact H0 |]. rewrite E0. cbn. fold h t. ring. }
  split.
  { intros i Hi.
    destruct (shelf_z_positions_lookup self i) as (zi & Hzi & Ei); [fold N; lia |].
    destruct (shelf_z_positions_lookup self (S i) Hi) as (zn & Hzn & En).
    exists zi, zn. split; [exact Hzi |]. split; [exact Hzn |].
    rewrite Ei, En. fold h t N step.
    rewrite Nat2Z.inj_succ, <- Z.add_1_r, inject_Z_plus. ring. }
  intros HN.
  destruct (shelf_z_positions_lookup self (N - 1)) as (zl & Hzl & El); [fold N; lia |].
  exists zl. split.
  { rewrite last_lookup, shelf_z_positions_length. fold N.
    replace (Nat.pred N) with (N - 1)%nat by lia. exact Hzl. }
  rewrite El. fold h t N step.
  replace (Z.of_nat (N - 1)) with (Z.of_nat N - 1)%Z by lia.
  unfold Zminus. rewrite inject_Z_plus. subst step.
  change (inject_Z (- (1))) with (- (1)).
  generalize (inject_nat_nonzero N HN). generalize (inject_Z (Z.of_nat N)).
  clearbody h t. intros n Hn. field. exact Hn.
Qed.

Lemma open_shelves_evenly_spaced_witness :
  exists z_last,
    last (OpenCabinet.shelf_z_positions example_shelves) = Some z_last
    /\ z_last == 1 / 2 - ((1 # 4) / 2 + (1 - (1 # 4)) / inject_Z (Z.of_nat 2)).
Proof.
  destruct (open_shelves_evenly_spaced example_shelves) as (_ & _ & _ & _ & H).
  apply H. vm_compute. lia.
Defined.

(** ** C5: size and padding of the housing cabinet *)

Lemma round_small_cases (i : Q) :
  (0.000001 < Qabs i /\ HousingCabinet.round_small i = i)
  \/ (Qabs i <= 0.000001 /\ HousingCabinet.round_small i = 0).
Proof.
  unfold HousingCabinet.round_small.
  destruct (Qlt_bool 0.000001 (Qabs i)) eqn:E.
  - left. split; [apply Qlt_bool_iff; exact E | reflexivity].
  - right. split; [| reflexivity].
    destruct (Qlt_le_dec 0.000001 (Qabs i)) as [H | H]; [| exact H].
    apply Qlt_bool_iff in H. congruence.
Qed.

Lemma round_small_error (i : Q) :
  Qabs (HousingCabinet.round_small i - i) <= 0.000001.
Proof.
  destruct (round_small_cases i) as [[_ ->] | [H ->]].
  - assert (E : i - i == 0) by ring. rewrite E. discriminate.
  - assert (E : 0 - i == - i) by ring. rewrite E. now rewrite Qabs_opp.
Qed.

Lemma derive_axis_equation (size_d : option Q) (padding_d : option Q * option Q)
    (s S q0 q1 : Q) :
  HousingCabinet.derive_axis size_d padding_d s = Ok (S, (q0, q1)) ->
  q0 + q1 + s == S.
Proof.
  unfold HousingCabinet.derive_axis, HousingCabinet.sum_padding.
  destruct size_d as [S0 |], padding_d as [[p0 |] [p1 |]]; cbn;
    try discriminate; try (intros [= <- <- <-]; field).
  destruct (Qeq_bool S0 (0 + p0 + p1 + s)) eqn:E; [| discriminate].
  intros [= <- <- <-]. apply Qeq_bool_eq in E. rewrite E. ring.
Qed.

Lemma resolve_axis_inv (d : nat) (size_d : option Q)
    (padding_d : option Q * option Q) (s S p0 p1 : Q) :
  HousingCabinet.resolve_axis d size_d padding_d s = Ok (S, (p0, p1)) ->
  exists q0 q1,
    HousingCabinet.derive_axis size_d padding_d s = Ok (S, (q0, q1))
    /\ p0 = HousingCabinet.round_small q0
    /\ p1 = HousingCabinet.round_small q1
    /\ 0 <= S /\ 0 <= p1 /\ (d <> 1%nat -> 0 <= p0).
Proof.
  unfold HousingCabinet.resolve_axis.
  destruct (HousingCabinet.derive_axis size_d padding_d s) as [[S' [q0 q1]] | e];
    cbn; [| discriminate].
  destruct (Qlt_bool S' 0) eqn:ES; [discriminate |].
  destruct (Qlt_bool (HousingCabinet.round_small q1) 0) eqn:E1; [discriminate |].
  cbn. intros H.
  assert (HS : 0 <= S').
  { destruct (Qlt_le_dec S' 0) as [L | L]; [| exact L].
    apply Qlt_bool_iff in L. congruence. }
  assert (H1 : 0 <= HousingCabinet.round_small q1).
  { destruct (Qlt_le_dec (HousingCabinet.round_small q1) 0) as [L | L]; [| exact L].
    apply Qlt_bool_iff in L. congruence. }
  destruct (Nat.eqb d 1) eqn:Ed; cbn in H.
  - injection H as <- <- <-. exists q0, q1. repeat split; auto.
    intros Hd. apply Nat.eqb_eq in Ed. contradiction.
  - destruct (Qlt_bool (HousingCabinet.round_small q0) 0) eqn:E0; [discriminate |].
    injection H as <- <- <-. exists q0, q1. repeat split; auto.
    intros _. destruct (Qlt_le_dec (HousingCabinet.round_small q0) 0) as [L | L];
      [| exact L].
    apply Qlt_bool_iff in L. congruence.
Qed.




(** ** C6: interior sites and exterior sites *)

Lemma strictly_between_iff (lo v hi : Q) :
  strictly_between lo v hi = true <-> lo < v /\ v < hi.
Proof.
  unfold strictly_between. now rewrite andb_true_iff, !Qlt_bool_iff.
Qed.

Lemma add_door_supported (c : Cabinet.t) (w h th : Q) (pos : Vec3)
    (parent : list Door) (hh hv dn : string) :
  style_supported c -> exists ds, Cabinet._add_door c w h th pos parent hh hv dn = Ok ds.
Proof.
  intros [sel Hsel]. unfold Cabinet._add_door. rewrite Hsel. cbn.
  destruct sel; eexists; reflexivity.
Qed.

(** Peels the door construction off a [_create_cab]. *)
Ltac create_cab_sites :=
  match goal with
  | |- context [Cabinet._add_door ?c ?w ?h ?th ?p ?b ?hh ?hv ?dn] =>
      destruct (Cabinet._add_door c w h th p b hh hv dn); cbn; try discriminate
  end.

Ltac sites_arith :=
  unfold interior_strictly_inside, strictly_inside; cbn in *;
  rewrite ?andb_true_iff, ?strictly_between_iff;
  unfold Qdiv in *; change (/ 2) with (1 # 2) in *; repeat split; lra.

(** C6 as stated fails.  A single-door cabinet of width 1/4 with walls of
    thickness 1/2 is a valid specification, yet its interior corner
    [int_px] has x-coordinate -3/8, outside the exterior range
    [-1/8 .. 1/8]; and a housing cabinet with zero padding has interior
    sites that coincide with the exterior ones instead of lying strictly
    between them. *)
Lemma interior_not_strictly_inside :
  (valid_spec thick_single
   /\ exists g b, _create_cab thick_single = Ok g /\ sites g = Some b
                  /\ (int_px b).1.1 == - (3 # 8) /\ (ext_p0 b).1.1 == - (1 # 8)
                  /\ interior_strictly_inside b = false)
  /\ (valid_spec flush_housing
      /\ exists g b, _create_cab flush_housing = Ok g /\ sites g = Some b
                     /\ int_p0 b = ext_p0 b
                     /\ interior_strictly_inside b = false).
Proof.
  split; (split; [vm_compute; repeat split; discriminate |]).
  - eexists _, _. split; [reflexivity |]. split; [reflexivity |].
    repeat split; vm_compute; reflexivity.
  - eexists _, _. split; [reflexivity |]. split; [reflexivity |].
    repeat split; vm_compute; reflexivity.
Qed.

(** C6, amended.  For the single-door, hinge, open, drawer and housing
    variants every coordinate of the interior sites lies strictly between
    the corresponding exterior coordinates as soon as the walls leave room
    for an interior: the thickness is positive and smaller than every size
    component (for the drawer, twice the thickness plus the clearance
    0.001 is smaller than width and height and twice the thickness smaller
    than the depth; for the housing, every padding is positive and smaller
    than the size on its axis).  Such a fixture with a supported panel
    style is built and has sites; the panel-only variant sets none. *)
Theorem interior_inside_exterior (fx : Fixture) :
  roomy fx ->
  (forall g b, _create_cab fx = Ok g -> sites g = Some b ->
               interior_strictly_inside b = true)
  /\ (style_supported (cabinet_of fx) ->
      exists g, _create_cab fx = Ok g
                /\ (sites g = None <-> exists s, fx = Panel s)).
Proof.
  intros Hroomy. unfold roomy in Hroomy. split.
  - intros g b Hg Hb. revert Hg.
    destruct fx as [s | s | s | s | s | s]; cbn in *;
      unfold SingleCabinet._create_cab, HingeCabinet._create_cab,
        OpenCabinet._create_cab, Drawer._create_cab, PanelCabinet._create_cab,
        HousingCabinet._create_cab.
    + destruct (Cabinet.size (SingleCabinet.cab s)) as [[sx sy] sz].
      create_cab_sites. intros [= <-]. cbn in Hb. injection Hb as <-.
      sites_arith.
    + destruct (Cabinet.size (HingeCabinet.cab s)) as [[sx sy] sz].
      repeat create_cab_sites.
      intros [= <-]. cbn in Hb. injection Hb as <-. sites_arith.
    + destruct (Cabinet.size (OpenCabinet.cab s)) as [[sx sy] sz].
      cbn. intros [= <-]. cbn in Hb. injection Hb as <-. sites_arith.
    + destruct (Cabinet.size (Drawer.cab s)) as [[sx sy] sz].
      create_cab_sites. intros [= <-]. cbn in Hb. injection Hb as <-.
      sites_arith.
    + destruct (Cabinet.size (PanelCabinet.cab s)) as [[sx sy] sz].
      destruct (PanelCabinet.solid_body s);
        create_cab_sites; intros [= <-]; discriminate Hb.
    + destruct (Cabinet.size (HousingCabinet.cab s)) as [[sx sy] sz].
      destruct (HousingCabinet.padding s) as [[[a0 a1] [b0 b1]] [c0 c1]].
      cbn. intros [= <-]. cbn in Hb. injection Hb as <-. sites_arith.
  - intros Hstyle.
    destruct fx as [s | s | s | s | s | s]; cbn in *;
      unfold SingleCabinet._create_cab, HingeCabinet._create_cab,
        OpenCabinet._create_cab, Drawer._create_cab, PanelCabinet._create_cab,
        HousingCabinet._create_cab.
    + destruct (Cabinet.size (SingleCabinet.cab s)) as [[sx sy] sz].
      match goal with
      | |- context [Cabinet._add_door ?c ?w ?h ?th ?p ?b ?hh ?hv ?dn] =>
          destruct (add_door_supported c w h th p b hh hv dn Hstyle) as [ds ->]
      end.
      eexists. split; [reflexivity |]. cbn. split; [discriminate |].
      intros [? ?]; discriminate.
    + destruct (Cabinet.size (HingeCabinet.cab s)) as [[sx sy] sz].
      repeat match goal with
      | |- context [Cabinet._add_door ?c ?w ?h ?th ?p ?b ?hh ?hv ?dn] =>
          destruct (add_door_supported c w h th p b hh hv dn Hstyle) as [? ->]; cbn
      end.
      eexists. split; [reflexivity |]. cbn. split; [discriminate |].
      intros [? ?]; discriminate.
    + destruct (Cabinet.size (OpenCabinet.cab s)) as [[sx sy] sz].
      eexists. split; [reflexivity |]. cbn. split; [discriminate |].
      intros [? ?]; discriminate.
    + destruct (Cabinet.size (Drawer.cab s)) as [[sx sy] sz].
      match goal with
      | |- context [Cabinet._add_door ?c ?w ?h ?th ?p ?b ?hh ?hv ?dn] =>
          destruct (add_door_supported c w h th p b hh hv dn Hstyle) as [ds ->]
      end.
      eexists. split; [reflexivity |]. cbn. split; [discriminate |].
      intros [? ?]; discriminate.
    + destruct (Cabinet.size (PanelCabinet.cab s)) as [[sx sy] sz].
      destruct (PanelCabinet.solid_body s);
        match goal with
        | |- context [Cabinet._add_door ?c ?w ?h ?th ?p ?b ?hh ?hv ?dn] =>
            destruct (add_door_supported c w h th p b hh hv dn Hstyle) as [ds ->]
        end;
        (eexists; split; [reflexivity |]; cbn; split; [eauto | reflexivity]).
    + destruct (Cabinet.size (HousingCabinet.cab s)) as [[sx sy] sz].
      destruct (HousingCabinet.padding s) as [[[a0 a1] [b0 b1]] [c0 c1]].
      eexists. split; [reflexivity |]. cbn. split; [discriminate |].
      intros [? ?]; discriminate.
Qed.

Lemma interior_inside_exterior_witness :
  (forall g b, _create_cab (DrawerFixture example_drawer) = Ok g ->
               sites g = Some b -> interior_strictly_inside b = true)
  /\ (style_supported (cabinet_of (DrawerFixture example_drawer)) ->
      exists g, _create_cab (DrawerFixture example_drawer) = Ok g
                /\ (sites g = None <-> exists s, DrawerFixture example_drawer = Panel s)).
Proof.
  apply (interior_inside_exterior (DrawerFixture example_drawer)).
  vm_compute. repeat split.
Defined.

(** ** C7: panel styles *)

Lemma panel_class_of_spec (panel_type : option string) :
  (forall c, In (panel_type, c) style_table ->
             Cabinet.panel_class_of panel_type = Ok (Some c))
  /\ (panel_type = Some "no_panel" -> Cabinet.panel_class_of panel_type = Ok None)
  /\ ((forall c, ~ In (panel_type, c) style_table) ->
      panel_type <> Some "no_panel" ->
      Cabinet.panel_class_of panel_type = Raise NotImplementedError).
Proof.
  split; [| split].
  - intros c Hin. cbn in Hin.
    repeat (destruct Hin as [[= <- <-] | Hin]; [reflexivity |]).
    contradiction.
  - intros ->. reflexivity.
  - intros Hnot Hnp. destruct panel_type as [s |].
    + unfold Cabinet.panel_class_of.
      repeat match goal with
      | |- context [String.eqb s ?k] =>
          destruct (String.eqb_spec s k) as [-> | _];
          [exfalso; first [ now apply Hnp
                          | eapply Hnot; cbn; eauto 10 ] |]
      end.
      reflexivity.
    + exfalso. apply (Hnot SlabCabinetPanel). cbn. auto.
Qed.

(** A door-bearing variant with an unsupported style is not built. *)
Lemma unsupported_style_fails_build (fx : Fixture) (e : exn) :
  Cabinet.panel_class_of (Cabinet.panel_type (cabinet_of fx)) = Raise e ->
  match fx with
  | Open _ | Housing _ => True
  | _ => _create_cab fx = Raise e
  end.
Proof.
  intros He.
  destruct fx as [s | s | s | s | s | s]; cbn in *; try exact I;
    unfold SingleCabinet._create_cab, HingeCabinet._create_cab,
      Drawer._create_cab, PanelCabinet._create_cab, Cabinet._add_door;
    rewrite He; cbn.
  - now destruct (Cabinet.size (SingleCabinet.cab s)) as [[sx sy] sz].
  - now destruct (Cabinet.size (HingeCabinet.cab s)) as [[sx sy] sz].
  - now destruct (Cabinet.size (Drawer.cab s)) as [[sx sy] sz].
  - destruct (Cabinet.size (PanelCabinet.cab s)) as [[sx sy] sz].
    now destruct (PanelCabinet.solid_body s).
Qed.

(** C7.  [_add_door] selects exactly one of the five panel classes for
    each supported style (slab, also chosen when no style is given,
    shaker, raised, divided window, full window) and appends one door of
    that class, sized with the door gap, to the parent body; for the
    no-panel style it returns with the parent body unchanged; for every
    other style it raises [NotImplementedError] and nothing is appended. *)
Theorem add_door_dispatch (self : Cabinet.t) (w h th : Q) (pos : Vec3)
    (parent_body : list Door) (handle_hpos handle_vpos door_name : string) :
  let outcome :=
    Cabinet._add_door self w h th pos parent_body handle_hpos handle_vpos door_name in
  (forall c, In (Cabinet.panel_type self, c) style_table ->
      (forall c', In (Cabinet.panel_type self, c') style_table -> c' = c)
      /\ exists door,
           outcome = Ok (parent_body ++ [door])
           /\ door_class door = c
           /\ door_size door
              = (w - Cabinet.door_gap self, th, h - Cabinet.door_gap self)
           /\ door_pos door = pos)
  /\ (Cabinet.panel_type self = Some "no_panel" -> outcome = Ok parent_body)
  /\ ((forall c, ~ In (Cabinet.panel_type self, c) style_table) ->
      Cabinet.panel_type self <> Some "no_panel" ->
      outcome = Raise NotImplementedError).
Proof.
  intros outcome. subst outcome. unfold Cabinet._add_door.
  destruct (panel_class_of_spec (Cabinet.panel_type self)) as (H1 & H2 & H3).
  split; [| split].
  - intros c Hin. split.
    + intros c' Hin'. apply H1 in Hin. apply H1 in Hin'. congruence.
    + rewrite (H1 c Hin). cbn. eexists. split; [reflexivity |]. cbn. auto.
  - intros Hnp. rewrite (H2 Hnp). reflexivity.
  - intros Hnot Hnp. rewrite (H3 Hnot Hnp). reflexivity.
Qed.

Lemma add_door_dispatch_witness :
  exists door,
    Cabinet._add_door (example_cabinet (0.6, 0.4, 0.8) 0.03) 0.6 0.8 0.03
      (0, 0, 0) [] "left" "bottom" "door"
    = Ok ([] ++ [door])
    /\ door_class door = RaisedCabinetPanel
    /\ door_size door = (0.6 - 0.003, 0.03, 0.8 - 0.003)
    /\ door_pos door = (0, 0, 0).
Proof.
  destruct (add_door_dispatch (example_cabinet (0.6, 0.4, 0.8) 0.03) 0.6 0.8 0.03
              (0, 0, 0) [] "left" "bottom" "door") as (H & _ & _).
  apply (H RaisedCabinetPanel). cbn. auto 10.
Defined.

(** ** C9: reset regions of the open cabinet *)

Lemma string_of_uint_underscore_free (d : Decimal.uint) :
  underscore_free (NilEmpty.string_of_uint d).
Proof. induction d; cbn; auto; split; auto; discriminate. Qed.

Lemma str_int_underscore_free (i : Z) : underscore_free (str_int i).
Proof.
  unfold str_int. destruct (Z.to_int i) as [d | d]; cbn.
  - apply string_of_uint_underscore_free.
  - split; [discriminate | apply string_of_uint_underscore_free].
Qed.

Lemma str_int_inj (i j : Z) : str_int i = str_int j -> i = j.
Proof.
  unfold str_int. intros H.
  assert (E : Z.to_int i = Z.to_int j).
  { apply (f_equal NilEmpty.int_of_string) in H.
    rewrite !NilEmpty.isi in H. congruence. }
  apply (f_equal Z.of_int) in E. now rewrite !DecimalZ.of_to in E.
Qed.

(** A string without underscores followed by an underscore determines
    where the rest begins. *)
Lemma split_at_underscore (a b s t : string) :
  underscore_free a -> underscore_free b ->
  a +:+ String "_" s = b +:+ String "_" t -> a = b /\ s = t.
Proof.
  revert b. induction a as [| c a IH]; intros [| c' b] Ha Hb H; cbn in *.
  - injection H as ->. auto.
  - injection H as <- _. destruct Hb as [Hb _]. contradiction.
  - injection H as -> _. destruct Ha as [Ha _]. contradiction.
  - injection H as -> H. destruct Ha as [_ Ha], Hb as [_ Hb].
    destruct (IH b Ha Hb H) as [-> ->]. auto.
Qed.

Lemma region_key_inj (i j : Z) (s t : string) :
  OpenCabinet.region_key i s = OpenCabinet.region_key j t -> i = j /\ s = t.
Proof.
  unfold OpenCabinet.region_key. intros H.
  apply (String.app_inj "shelf_") in H.
  apply split_at_underscore in H; try apply str_int_underscore_free.
  destruct H as [H ->]. split; [apply str_int_inj; exact H | reflexivity].
Qed.

Lemma get_reset_regions_unfold (self : OpenCabinet.t) :
  OpenCabinet.get_reset_regions self
  = foldl (add_shelf_regions self) ∅
      (enumerate (OpenCabinet.shelf_z_positions self)).
Proof.
  unfold OpenCabinet.get_reset_regions.
  generalize (enumerate (OpenCabinet.shelf_z_positions self)).
  generalize (∅ : gmap string Region).
  intros m l. revert m. induction l as [| [i z] l IH]; intros m; cbn.
  - reflexivity.
  - apply IH.
Qed.

Lemma add_shelf_lookup_other (self : OpenCabinet.t) (regions : gmap string Region)
    (i : nat) (z_pos : Q) (k : string) :
  (forall s, In s SHELF_SECTIONS -> k <> OpenCabinet.region_key (Z.of_nat i) s) ->
  add_shelf_regions self regions (i, z_pos) !! k = regions !! k.
Proof.
  intros Hk. cbn.
  rewrite !lookup_insert_ne
    by (intros E; eapply Hk; [| symmetry; exact E]; cbn; auto).
  reflexivity.
Qed.

Lemma add_shelf_lookup_own (self : OpenCabinet.t) (regions : gmap string Region)
    (i : nat) (z_pos : Q) (j : nat) (s : string) :
  SHELF_SECTIONS !! j = Some s ->
  add_shelf_regions self regions (i, z_pos)
    !! OpenCabinet.region_key (Z.of_nat i) s
  = Some (OpenCabinet.region_at self z_pos j).
Proof.
  intros Hj. cbn.
  do 4 (destruct j as [| j];
        [injection Hj as <-;
         rewrite ?lookup_insert_ne
           by (intros E; apply region_key_inj in E as [_ E]; discriminate E);
         apply lookup_insert_eq |]; cbn in Hj).
  discriminate Hj.
Qed.

Lemma regions_lookup_other (self : OpenCabinet.t) (zs : list Q) (n : nat)
    (regions : gmap string Region) (k : string) :
  (forall i s, (n <= i < n + length zs)%nat -> In s SHELF_SECTIONS ->
               k <> OpenCabinet.region_key (Z.of_nat i) s) ->
  foldl (add_shelf_regions self) regions (enumerate_from n zs) !! k = regions !! k.
Proof.
  revert n regions. induction zs as [| z zs IH]; intros n regions Hk.
  - reflexivity.
  - cbn [enumerate_from foldl]. rewrite IH.
    + apply add_shelf_lookup_other. intros s Hs. apply Hk; [cbn; lia | exact Hs].
    + intros i s Hi Hs. apply Hk; [cbn; lia | exact Hs].
Qed.

Lemma regions_lookup_own (self : OpenCabinet.t) (zs : list Q) (n : nat)
    (regions : gmap string Region) (i : nat) (z_pos : Q) (j : nat) (s : string) :
  zs !! i = Some z_pos ->
  SHELF_SECTIONS !! j = Some s ->
  foldl (add_shelf_regions self) regions (enumerate_from n zs)
    !! OpenCabinet.region_key (Z.of_nat (n + i)) s
  = Some (OpenCabinet.region_at self z_pos j).
Proof.
  revert n regions i. induction zs as [| z zs IH]; intros n regions i Hi Hj.
  - discriminate Hi.
  - cbn [enumerate_from foldl]. destruct i as [| i].
    + injection Hi as ->. rewrite Nat.add_0_r.
      rewrite regions_lookup_other.
      * apply add_shelf_lookup_own. exact Hj.
      * intros i' s' Hi' _ E. apply region_key_inj in E as [E _]. lia.
    + replace (n + S i)%nat with (S n + i)%nat by lia.
      apply IH; assumption.
Qed.

Lemma section_index (s : string) :
  In s SHELF_SECTIONS -> exists j, SHELF_SECTIONS !! j = Some s.
Proof.
  cbn. intros [<- | [<- | [<- | [<- | []]]]];
    [exists 0%nat | exists 1%nat | exists 2%nat | exists 3%nat]; reflexivity.
Qed.

Lemma section_index_unique (j j' : nat) (s : string) :
  SHELF_SECTIONS !! j = Some s -> SHELF_SECTIONS !! j' = Some s -> j = j'.
Proof.
  intros Hj Hj'. apply (NoDup_lookup SHELF_SECTIONS j j' s); try assumption.
  unfold SHELF_SECTIONS.
  repeat (apply NoDup_cons; split;
          [rewrite list_elem_of_In; cbn; intuition discriminate |]).
  apply NoDup_nil_2.
Qed.

Lemma reset_regions_lookup (self : OpenCabinet.t) (i : Z) (s : string) :
  (pair_present self i s ->
   exists z_pos j,
     OpenCabinet.shelf_z_positions self !! Z.to_nat i = Some z_pos
     /\ SHELF_SECTIONS !! j = Some s
     /\ OpenCabinet.get_reset_regions self !! OpenCabinet.region_key i s
        = Some (OpenCabinet.region_at self z_pos j))
  /\ (~ pair_present self i s ->
      OpenCabinet.get_reset_regions self !! OpenCabinet.region_key i s = None).
Proof.
  rewrite get_reset_regions_unfold. unfold enumerate. split.
  - intros [Hi Hs].
    destruct (section_index s Hs) as [j Hj].
    destruct (lookup_lt_is_Some_2 (OpenCabinet.shelf_z_positions self) (Z.to_nat i))
      as [z_pos Hz]; [rewrite shelf_z_positions_length; lia |].
    exists z_pos, j. split; [exact Hz |]. split; [exact Hj |].
    rewrite <- (Z2Nat.id i) at 1 by lia.
    apply (regions_lookup_own self _ 0 ∅ (Z.to_nat i) z_pos j s Hz Hj).
  - intros Habsent. rewrite regions_lookup_other; [apply lookup_empty |].
    intros n s' Hn Hs' E. apply region_key_inj in E as [-> ->].
    apply Habsent. split; [| exact Hs'].
    rewrite shelf_z_positions_length in Hn. lia.
Qed.

Lemma requested_named_pair (shelf_index : option Z) (kwargs : OpenCabinet.Kwargs) :
  index_read shelf_index kwargs ->
  OpenCabinet.requested shelf_index kwargs = named_pair shelf_index kwargs.
Proof.
  unfold index_read, OpenCabinet.requested, named_pair.
  destruct (OpenCabinet.kw_sample_region_kwargs kwargs) as [rk |]; [reflexivity |].
  destruct (OpenCabinet.kw_section kwargs) as [sec |].
  - intros H. destruct H as [-> | ->]; try reflexivity; discriminate.
  - intros _. destruct shelf_index; reflexivity.
Qed.

(** C9 as stated fails for an open cabinet without shelves: the region
    dictionary is empty, the pair is not present, and the fallback lookup
    of shelf 0, section 1 raises [KeyError]. *)
Lemma no_shelves_no_default_region :
  OpenCabinet.get_reset_regions no_shelves = ∅
  /\ ~ pair_present no_shelves 0 "section_1"
  /\ OpenCabinet.sample_reset_region no_shelves (Some 0%Z) no_kwargs
     = Raise KeyError.
Proof.
  split; [reflexivity |]. split; [| reflexivity].
  intros [[_ H] _]. cbn in H. lia.
Qed.

(** With a section given directly, the shelf index of the call is not
    read: the request for shelf 1, section 2 is answered with the region
    of shelf 0, section 2. *)
Example direct_section_drops_shelf_index :
  exists z0 z1,
    OpenCabinet.shelf_z_positions example_shelves = [z0; z1]
    /\ OpenCabinet.sample_reset_region example_shelves (Some 1%Z)
         {| OpenCabinet.kw_sample_region_kwargs := None;
            OpenCabinet.kw_section := Some "section_2" |}
       = Ok (OpenCabinet.region_at example_shelves z0 1)
    /\ OpenCabinet.region_at example_shelves z0 1
       <> OpenCabinet.region_at example_shelves z1 1.
Proof.
  eexists _, _. split; [reflexivity |]. split.
  - unfold OpenCabinet.sample_reset_region. cbn [OpenCabinet.requested
      OpenCabinet.kw_sample_region_kwargs OpenCabinet.kw_section].
    destruct (reset_regions_lookup example_shelves 0 "section_2") as [H _].
    destruct H as (z & j & Hz & Hj & ->).
    + split; [cbn; lia | cbn; auto].
    + injection Hz as <-.
      rewrite (section_index_unique j 1 "section_2" Hj eq_refl). reflexivity.
  - vm_compute. discriminate.
Qed.

(** C9, amended.  For an open cabinet with at least one shelf and a
    request whose shelf index is read (given in [sample_region_kwargs], or
    as [shelf_index] without a separate section), [sample_reset_region]
    never raises: a pair of a shelf index below the number of shelves and
    a section of [SHELF_SECTIONS] is answered with the region of that
    shelf and section, and every other pair with the region of shelf 0,
    section 1. *)
Theorem sample_reset_region_fallback (self : OpenCabinet.t)
    (shelf_index : option Z) (kwargs : OpenCabinet.Kwargs) :
  (0 < OpenCabinet.num_shelves self)%nat ->
  index_read shelf_index kwargs ->
  let i := (named_pair shelf_index kwargs).1 in
  let s := (named_pair shelf_index kwargs).2 in
  exists z0,
    OpenCabinet.shelf_z_positions self !! 0%nat = Some z0
    /\ (pair_present self i s ->
        exists z_pos j,
          OpenCabinet.shelf_z_positions self !! Z.to_nat i = Some z_pos
          /\ SHELF_SECTIONS !! j = Some s
          /\ OpenCabinet.sample_reset_region self shelf_index kwargs
             = Ok (OpenCabinet.region_at self z_pos j))
    /\ (~ pair_present self i s ->
        OpenCabinet.sample_reset_region self shelf_index kwargs
        = Ok (OpenCabinet.region_at self z0 0)).
Proof.
  intros HN Hread i s.
  destruct (reset_regions_lookup self 0 "section_1") as [Hdef _].
  destruct Hdef as (z0 & j0 & Hz0 & Hj0 & Hdef).
  { split; [lia | cbn; auto]. }
  rewrite (section_index_unique j0 0 "section_1" Hj0 eq_refl) in Hdef.
  exists z0. split; [exact Hz0 |].
  unfold OpenCabinet.sample_reset_region.
  rewrite (requested_named_pair _ _ Hread).
  destruct (named_pair shelf_index kwargs) as [i' s'] eqn:Ereq.
  subst i s. cbn [fst snd].
  destruct (reset_regions_lookup self i' s') as [Hin Hout]. split.
  - intros Hp. destruct (Hin Hp) as (z_pos & j & Hz & Hj & Hlook).
    exists z_pos, j. rewrite Hlook. auto.
  - intros Hp. rewrite (Hout Hp).
    change "shelf_0_section_1" with (OpenCabinet.region_key 0 "section_1").
    rewrite Hdef. reflexivity.
Qed.

Lemma sample_reset_region_fallback_witness :
  exists z0,
    OpenCabinet.shelf_z_positions example_shelves !! 0%nat = Some z0
    /\ (pair_present example_shelves 7 "section_1" ->
        exists z_pos j,
          OpenCabinet.shelf_z_positions example_shelves !! Z.to_nat 7 = Some z_pos
          /\ SHELF_SECTIONS !! j = Some "section_1"
          /\ OpenCabinet.sample_reset_region example_shelves (Some 7%Z) no_kwargs
             = Ok (OpenCabinet.region_at example_shelves z_pos j))
    /\ (~ pair_present example_shelves 7 "section_1" ->
        OpenCabinet.sample_reset_region example_shelves (Some 7%Z) no_kwargs
        = Ok (OpenCabinet.region_at example_shelves z0 0)).
Proof.
  apply (sample_reset_region_fallback example_shelves (Some 7%Z) no_kwargs).
  - vm_compute. lia.
  - intros _ H. exfalso. apply H. reflexivity.
Defined.

(** ** Door state: what a call touches *)

Lemma set_joint_qpos_frame (name : string) (v : Q) (w : World) :
  let w' := (set_joint_qpos name v w).2 in
  (forall j, j <> name -> qpos w' !! j = qpos w !! j)
  /\ (forall j, is_Some (qpos w' !! j) <-> is_Some (qpos w !! j))
  /\ rng w' = rng w.
Proof.
  unfold set_joint_qpos. destruct (qpos w !! name) as [v0 |] eqn:E; cbn.
  - split; [| split; [| reflexivity]].
    + intros j Hj. apply lookup_insert_ne. congruence.
    + intros j. destruct (decide (name = j)) as [<- | Hne].
      * rewrite lookup_insert_eq, E. split; eauto.
      * now rewrite lookup_insert_ne.
  - repeat split; auto.
Qed.

Lemma touches_only_refl (names : list string) (w : World) : touches_only names w w.
Proof. repeat split; auto; lia. Qed.

Lemma is_Some_insert_existing (m : gmap string Q) (name j : string) (v : Q) :
  is_Some (m !! name) -> (is_Some (<[name := v]> m !! j) <-> is_Some (m !! j)).
Proof.
  intros Hn. destruct (decide (name = j)) as [<- | Hne].
  - rewrite lookup_insert_eq. split; eauto.
  - now rewrite lookup_insert_ne.
Qed.

Ltac frame_goal :=
  unfold touches_only; cbn;
  split; [| split; [| split]];
  [ intros j Hj;
    rewrite ?lookup_insert_ne by (intros Heq; apply Hj; auto);
    reflexivity
  | intros j;
    rewrite ?is_Some_insert_existing
      by (rewrite ?lookup_insert_ne by (apply joint_name_ne; discriminate); eauto);
    reflexivity
  | reflexivity
  | lia ].

Lemma set_door_state_touches (fx : Fixture) (min max : Q) (w : World) :
  touches_only (joint_names fx) w (set_door_state fx min max w).2.
Proof.
  destruct fx as [s | s | s | s | s | s]; cbn [set_door_state joint_names];
    try apply touches_only_refl;
    run_door_state;
    (destruct (door_range_ok min max); cbn; [| apply touches_only_refl]).
  - destruct (qpos w !! _) eqn:E; frame_goal.
  - destruct (qpos w !! (_ +:+ "_rightdoorhinge")) eqn:Er; cbn; [| frame_goal].
    rewrite lookup_insert_ne by (apply joint_name_ne; discriminate).
    destruct (qpos w !! (_ +:+ "_leftdoorhinge")) eqn:El; cbn; frame_goal.
  - destruct (qpos w !! _) eqn:E; frame_goal.
Qed.

(** X1.  Whatever its arguments and whatever its outcome,
    [set_door_state] leaves the position of every joint other than the
    fixture's own untouched, neither adds nor removes a joint, and draws
    at most one number per joint of the fixture from the generator; for
    the variants without a moving part it changes nothing at all. *)
Theorem set_door_state_frame (fx : Fixture) (min max : Q) (w : World) :
  touches_only (joint_names fx) w (set_door_state fx min max w).2
  /\ (movable fx = false -> set_door_state fx min max w = (Ok tt, w)).
Proof.
  split.
  - apply set_door_state_touches.
  - destruct fx; cbn; intros; try discriminate; reflexivity.
Qed.

Lemma set_door_state_frame_witness :
  set_door_state (Open example_shelves) 0.3 0.1 example_world = (Ok tt, example_world).
Proof.
  apply (set_door_state_frame (Open example_shelves) 0.3 0.1 example_world).
  reflexivity.
Defined.

(** ** Door state: reading back *)

Lemma get_door_state_same_world (fx : Fixture) (w : World) :
  (get_door_state fx w).2 = w.
Proof.
  destruct fx as [s | s | s | s | s | s]; cbn [get_door_state];
    try reflexivity; run_door_state.
  - destruct (name2id _ _) as [i |]; cbn; [| reflexivity].
    now destruct (data_qpos w !! i).
  - destruct (name2id _ (_ +:+ "_rightdoorhinge")) as [ir |]; cbn; [| reflexivity].
    destruct (data_qpos w !! ir); cbn; [| reflexivity].
    destruct (name2id _ (_ +:+ "_leftdoorhinge")) as [il |]; cbn; [| reflexivity].
    now destruct (data_qpos w !! il).
  - destruct (name2id _ _) as [i |]; cbn; [| reflexivity].
    now destruct (data_qpos w !! i).
Qed.

(** The subscript by the id of [name], as [get_door_state] evaluates it. *)
Lemma read_by_id_agree (name : string) (w1 w2 : World) :
  name2id (sim_joints w1) name = name2id (sim_joints w2) name ->
  (forall i, name2id (sim_joints w1) name = Some i ->
     data_qpos w1 !! i = data_qpos w2 !! i) ->
  ((joint_name2id name ≫= data_qpos_at) w1).1
  = ((joint_name2id name ≫= data_qpos_at) w2).1.
Proof.
  intros Hid Hentry. unfold mbind, M_bind, joint_name2id, data_qpos_at.
  rewrite <- Hid.
  destruct (name2id (sim_joints w1) name) as [i |] eqn:Ei; [| reflexivity].
  rewrite <- (Hentry i eq_refl). now destruct (data_qpos w1 !! i).
Qed.

Lemma get_door_state_agree (fx : Fixture) (w1 w2 : World) :
  same_entries_at_ids fx w1 w2 ->
  (get_door_state fx w1).1 = (get_door_state fx w2).1.
Proof.
  unfold same_entries_at_ids.
  destruct fx as [s | s | s | s | s | s]; cbn [get_door_state joint_names];
    try reflexivity; intros H; run_door_state.
  - destruct (H _ (or_introl eq_refl)) as [H1 H1']. cbn in H1, H1'.
    rewrite <- H1.
    destruct (name2id (sim_joints w1) _) as [i |]; cbn; [| reflexivity].
    rewrite <- (H1' i eq_refl). now destruct (data_qpos w1 !! i).
  - destruct (H _ (or_introl eq_refl)) as [H1 H1'].
    destruct (H _ (or_intror (or_introl eq_refl))) as [H2 H2'].
    cbn in H1, H1', H2, H2'.
    rewrite <- H1.
    destruct (name2id (sim_joints w1) (_ +:+ "_rightdoorhinge")) as [ir |];
      cbn; [| reflexivity].
    rewrite <- (H1' ir eq_refl).
    destruct (data_qpos w1 !! ir); cbn; [| reflexivity].
    rewrite <- H2.
    destruct (name2id (sim_joints w1) (_ +:+ "_leftdoorhinge")) as [il |];
      cbn; [| reflexivity].
    rewrite <- (H2' il eq_refl). now destruct (data_qpos w1 !! il).
  - destruct (H _ (or_introl eq_refl)) as [H1 H1']. cbn in H1, H1'.
    rewrite <- H1.
    destruct (name2id (sim_joints w1) _) as [i |]; cbn; [| reflexivity].
    rewrite <- (H1' i eq_refl). now destruct (data_qpos w1 !! i).
Qed.

(** Where the address of a joint is its id, entry [id] is the position
    kept under the joint's name (0 for a joint never given one). *)
Lemma entry_at_own_id (w : World) (name : string) :
  address_is_id w name = true ->
  exists i, name2id (sim_joints w) name = Some i
    /\ data_qpos w !! i = Some (default 0 (qpos w !! name)).
Proof.
  unfold address_is_id. intros Ha.
  destruct (name2id (sim_joints w) name) as [i |] eqn:Ei; [| discriminate].
  destruct (name2id_lookup _ _ _ Ei) as (j & Hj & Hn).
  rewrite Hj in Ha. apply andb_true_iff in Ha as [Hs Hadr].
  apply Nat.eqb_eq in Hadr.
  exists i. split; [reflexivity |].
  pose proof (data_qpos_at_address (qpos w) (sim_joints w) i j Hj Hs) as H.
  rewrite Hadr, Hn in H. exact H.
Qed.

Lemma address_is_id_same_model (w1 w2 : World) (name : string) :
  sim_joints w1 = sim_joints w2 -> address_is_id w1 name = address_is_id w2 name.
Proof. unfold address_is_id. now intros ->. Qed.

Lemma get_door_state_agree_own (fx : Fixture) (w1 w2 : World) :
  joints_at_their_ids fx w1 ->
  joints_at_their_ids fx w2 ->
  same_joints fx w1 w2 ->
  (get_door_state fx w1).1 = (get_door_state fx w2).1.
Proof.
  unfold joints_at_their_ids, same_joints.
  destruct fx as [s | s | s | s | s | s]; cbn [get_door_state joint_names];
    try reflexivity; intros A1 A2 H.
  - apply Forall_cons_1 in A1 as [A1 _]. apply Forall_cons_1 in A2 as [A2 _].
    destruct (entry_at_own_id _ _ A1) as (i1 & Hi1 & Hv1).
    destruct (entry_at_own_id _ _ A2) as (i2 & Hi2 & Hv2).
    rewrite (single_get_run s w1 i1 _ Hi1 Hv1), (single_get_run s w2 i2 _ Hi2 Hv2).
    cbn [fst]. now rewrite (H _ (or_introl eq_refl)).
  - apply Forall_cons_1 in A1 as [A1r A1]. apply Forall_cons_1 in A1 as [A1l _].
    apply Forall_cons_1 in A2 as [A2r A2]. apply Forall_cons_1 in A2 as [A2l _].
    destruct (entry_at_own_id _ _ A1r) as (ir1 & Hir1 & Hvr1).
    destruct (entry_at_own_id _ _ A1l) as (il1 & Hil1 & Hvl1).
    destruct (entry_at_own_id _ _ A2r) as (ir2 & Hir2 & Hvr2).
    destruct (entry_at_own_id _ _ A2l) as (il2 & Hil2 & Hvl2).
    rewrite (hinge_get_run s w1 ir1 il1 _ _ Hir1 Hvr1 Hil1 Hvl1).
    rewrite (hinge_get_run s w2 ir2 il2 _ _ Hir2 Hvr2 Hil2 Hvl2).
    cbn [fst]. rewrite (H _ (or_introl eq_refl)).
    now rewrite (H _ (or_intror (or_introl eq_refl))).
  - apply Forall_cons_1 in A1 as [A1 _]. apply Forall_cons_1 in A2 as [A2 _].
    destruct (entry_at_own_id _ _ A1) as (i1 & Hi1 & Hv1).
    destruct (entry_at_own_id _ _ A2) as (i2 & Hi2 & Hv2).
    rewrite (drawer_get_run s w1 i1 _ Hi1 Hv1), (drawer_get_run s w2 i2 _ Hi2 Hv2).
    cbn [fst]. now rewrite (H _ (or_introl eq_refl)).
Qed.

(** X2.  [get_door_state] never changes the world, and its result depends
    on nothing but the entries of [sim.data.qpos] at the ids of the
    fixture's joints; where the address of each of these joints is its id,
    these are the positions of the fixture's own joints. *)
Theorem get_door_state_reads_own_joints (fx : Fixture) (w1 w2 : World) :
  (get_door_state fx w1).2 = w1
  /\ (same_entries_at_ids fx w1 w2 ->
      (get_door_state fx w1).1 = (get_door_state fx w2).1)
  /\ (joints_at_their_ids fx w1 -> joints_at_their_ids fx w2 ->
      same_joints fx w1 w2 ->
      (get_door_state fx w1).1 = (get_door_state fx w2).1).
Proof.
  split; [| split].
  - apply get_door_state_same_world.
  - apply get_door_state_agree.
  - apply get_door_state_agree_own.
Qed.

Lemma get_door_state_reads_own_joints_witness :
  let moved :=
    {| qpos := <["cab_slidejoint" := 1]> (qpos example_world);
       rng := rng example_world;
       sim_joints := sim_joints example_world |} in
  (same_entries_at_ids (Single (example_single "left")) example_world moved
   /\ (get_door_state (Single (example_single "left")) example_world).1
      = (get_door_state (Single (example_single "left")) moved).1)
  /\ (joints_at_their_ids (Hinge example_hinge) example_world
      /\ joints_at_their_ids (Hinge example_hinge) moved
      /\ same_joints (Hinge example_hinge) example_world moved
      /\ (get_door_state (Hinge example_hinge) example_world).1
         = (get_door_state (Hinge example_hinge) moved).1).
Proof.
  intros moved.
  assert (He : same_entries_at_ids (Single (example_single "left")) example_world moved).
  { intros j [<- | []]. split; [reflexivity |].
    intros i Hi. vm_compute in Hi. injection Hi as <-. vm_compute. reflexivity. }
  assert (Ha1 : joints_at_their_ids (Hinge example_hinge) example_world)
    by (apply example_joints_at_their_ids; reflexivity).
  assert (Ha2 : joints_at_their_ids (Hinge example_hinge) moved)
    by (repeat constructor).
  assert (Hs : same_joints (Hinge example_hinge) example_world moved).
  { intros j [<- | [<- | []]]; vm_compute; reflexivity. }
  split; [split; [exact He |] | split; [exact Ha1 | split; [exact Ha2 | split; [exact Hs |]]]].
  - exact (proj1 (proj2 (get_door_state_reads_own_joints
                           (Single (example_single "left")) example_world moved)) He).
  - exact (proj2 (proj2 (get_door_state_reads_own_joints
                           (Hinge example_hinge) example_world moved)) Ha1 Ha2 Hs).
Defined.

Lemma single_fraction (sign c f : Q) :
  sign = -1 \/ sign = 1 -> ~ c == 0 ->
  OU.normalize_joint_value (sign * (c * f) * sign) 0 c == f.
Proof.
  intros [-> | ->] Hc; unfold OU.normalize_joint_value; field; exact Hc.
Qed.

Lemma single_sign_cases (self : SingleCabinet.t) :
  SingleCabinet.sign self = -1 \/ SingleCabinet.sign self = 1.
Proof. unfold SingleCabinet.sign. destruct (String.eqb _ _); auto. Qed.

(** After a write, the entry at the id of an aligned joint is the value
    written. *)
Lemma entry_after_write (w : World) (n : nat) (q : gmap string Q)
    (name : string) (v : Q) :
  address_is_id w name = true ->
  q !! name = Some v ->
  exists i, name2id (sim_joints (after_draws n q w)) name = Some i
    /\ data_qpos (after_draws n q w) !! i = Some v.
Proof.
  intros Ha Hv.
  assert (Ha' : address_is_id (after_draws n q w) name = true)
    by (rewrite <- Ha; apply address_is_id_same_model; reflexivity).
  destruct (entry_at_own_id _ _ Ha') as (i & Hi & He).
  exists i. split; [exact Hi |].
  rewrite He. cbn [after_draws qpos]. now rewrite Hv.
Qed.

Lemma set_then_get_within (fx : Fixture) (min max : Q) (w : World) :
  movable fx = true ->
  positive_size (cabinet_of fx) ->
  0 <= min /\ min <= max /\ max <= 1 ->
  np.well_formed (rng w) ->
  joints_exist fx w ->
  joints_at_their_ids fx w ->
  exists (w' : World) (state : list (string * Q)),
    set_door_state fx min max w = (Ok tt, w')
    /\ get_door_state fx w' = (Ok state, w')
    /\ length state = length (joint_names fx)
    /\ fractions_within min max state.
Proof.
  intros Hm Hpos Hrange Hwf Hj Hal.
  assert (Hr : door_range_ok min max = true) by (apply door_range_ok_iff; exact Hrange).
  destruct (sampled_fraction_bounds 0 min max w Hwf) as [H0a H0b]; [lra |].
  destruct (sampled_fraction_bounds 1 min max w Hwf) as [H1a H1b]; [lra |].
  unfold sampled_fraction in *. unfold joints_at_their_ids in Hal.
  destruct fx as [s | s | s | s | s | s]; try discriminate Hm;
    cbn [set_door_state get_door_state joint_names cabinet_of] in *.
  - apply Forall_cons_1 in Hj as [[v0 Hv0] _]. cbn in Hv0.
    apply Forall_cons_1 in Hal as [Hal _].
    eexists _, _. split; [exact (single_set_run min max w Hr s v0 Hv0) |].
    split.
    { match goal with |- context [after_draws 1 ?q w] => set (q1 := q) end.
      edestruct (entry_after_write w 1 q1) as (i & Hi & He);
        [exact Hal | subst q1; apply lookup_insert_eq |].
      exact (single_get_run s _ i _ Hi He). }
    split; [reflexivity |].
    constructor; [| constructor]. cbn [snd].
    assert (E : OU.normalize_joint_value
                  (SingleCabinet.sign s
                   * (0 + (np.pi / 2 - 0) * min
                      + (0 + (np.pi / 2 - 0) * max - (0 + (np.pi / 2 - 0) * min))
                        * draw 0 w) * SingleCabinet.sign s) 0 (np.pi / 2)
                == min + (max - min) * draw 0 w).
    { destruct (single_sign_cases s) as [-> | ->];
        unfold OU.normalize_joint_value, np.pi; field. }
    rewrite E. split; assumption.
  - apply Forall_cons_1 in Hj as [[vr Hvr] Hj].
    apply Forall_cons_1 in Hj as [[vl Hvl] _]. cbn in Hvr, Hvl.
    apply Forall_cons_1 in Hal as [Halr Hal].
    apply Forall_cons_1 in Hal as [Hall _].
    eexists _, _. split; [exact (hinge_set_run min max w Hr s vr vl Hvr Hvl) |].
    split.
    { match goal with |- context [after_draws 2 ?q w] => set (q2 := q) end.
      edestruct (entry_after_write w 2 q2) as (ir & Hir & Her); [exact Halr | |].
      { subst q2. rewrite lookup_insert_ne by (apply joint_name_ne; discriminate).
        apply lookup_insert_eq. }
      edestruct (entry_after_write w 2 q2) as (il & Hil & Hel);
        [exact Hall | subst q2; apply lookup_insert_eq |].
      exact (hinge_get_run s _ ir il _ _ Hir Her Hil Hel). }
    split; [reflexivity |].
    constructor; [| constructor; [| constructor]]; cbn [snd].
    + assert (E : OU.normalize_joint_value
                    (- - (0 + (np.pi / 2 - 0) * min
                          + (0 + (np.pi / 2 - 0) * max - (0 + (np.pi / 2 - 0) * min))
                            * draw 1 w)) 0 (np.pi / 2)
                  == min + (max - min) * draw 1 w)
        by (unfold OU.normalize_joint_value, np.pi; field).
      rewrite E. split; assumption.
    + assert (E : OU.normalize_joint_value
                    (0 + (np.pi / 2 - 0) * min
                     + (0 + (np.pi / 2 - 0) * max - (0 + (np.pi / 2 - 0) * min))
                       * draw 0 w) 0 (np.pi / 2)
                  == min + (max - min) * draw 0 w)
        by (unfold OU.normalize_joint_value, np.pi; field).
      rewrite E. split; assumption.
  - apply Forall_cons_1 in Hj as [[v0 Hv0] _]. cbn in Hv0.
    apply Forall_cons_1 in Hal as [Hal _].
    eexists _, _. split; [exact (drawer_set_run min max w Hr s v0 Hv0) |].
    split.
    { match goal with |- context [after_draws 1 ?q w] => set (q1 := q) end.
      edestruct (entry_after_write w 1 q1) as (i & Hi & He);
        [exact Hal | subst q1; apply lookup_insert_eq |].
      exact (drawer_get_run s _ i _ Hi He). }
    split; [reflexivity |].
    constructor; [| constructor]. cbn [snd].
    assert (E : OU.normalize_joint_value
                  (-1 * (0 + (Drawer.joint_max s - 0) * min
                         + (0 + (Drawer.joint_max s - 0) * max
                            - (0 + (Drawer.joint_max s - 0) * min)) * draw 0 w) * -1)
                  0 (Drawer.joint_max s)
                == min + (max - min) * draw 0 w).
    { unfold OU.normalize_joint_value, Drawer.joint_max.
      unfold positive_size in Hpos.
      destruct (Cabinet.size (Drawer.cab s)) as [[sx sy] sz]. cbn.
      field. lra. }
    rewrite E. split; assumption.
Qed.

(** X3.  For every movable variant of a specification with positive
    sizes, a range [0 <= min <= max <= 1], a generator that yields numbers
    of [[0, 1)] and a model that has the fixture's joints, each at an
    address equal to its id, [set_door_state min max] succeeds and a
    following [get_door_state] reports one fraction per door, each between
    [min] and [max]. *)
Theorem door_state_within_range (fx : Fixture) (min max : Q) (w : World) :
  movable fx = true ->
  positive_size (cabinet_of fx) ->
  0 <= min /\ min <= max /\ max <= 1 ->
  np.well_formed (rng w) ->
  joints_exist fx w ->
  joints_at_their_ids fx w ->
  exists (w' : World) (state : list (string * Q)),
    set_door_state fx min max w = (Ok tt, w')
    /\ get_door_state fx w' = (Ok state, w')
    /\ length state = length (joint_names fx)
    /\ fractions_within min max state.
Proof.
  intros Hm Hpos Hrange Hwf Hj Hal.
  destruct (set_then_get_within fx min max w Hm Hpos Hrange Hwf Hj Hal)
    as (w' & state & Hset & Hget & Hlen & Hin).
  exists w', state. repeat split; assumption.
Qed.

Lemma example_rng_well_formed : np.well_formed (rng example_world).
Proof. intros [| n]; split; unfold Qle, Qlt; simpl; lia. Defined.

Lemma door_state_within_range_witness :
  exists (w' : World) (state : list (string * Q)),
    set_door_state (Single (example_single "right")) 0.9 1.0 example_world = (Ok tt, w')
    /\ get_door_state (Single (example_single "right")) w' = (Ok state, w')
    /\ length state = 1%nat
    /\ fractions_within 0.9 1.0 state.
Proof.
  apply (door_state_within_range (Single (example_single "right")) 0.9 1.0 example_world).
  - reflexivity.
  - vm_compute. repeat split.
  - repeat split; unfold Qle; simpl; lia.
  - apply example_rng_well_formed.
  - apply example_joints_exist. reflexivity.
  - apply example_joints_at_their_ids. reflexivity.
Defined.

(** ** The environment's door update *)







(** ** Joint ranges *)

Lemma set_door_state_ok_range (fx : Fixture) (min max : Q) (w w' : World) :
  movable fx = true ->
  set_door_state fx min max w = (Ok tt, w') ->
  0 <= min /\ min <= max /\ max <= 1.
Proof.
  intros Hm Hset. apply door_range_ok_iff.
  destruct (door_range_ok min max) eqn:E; [reflexivity |].
  assert (Hbad : ~ (0 <= min /\ min <= max /\ max <= 1)).
  { intros H. apply door_range_ok_iff in H. congruence. }
  revert Hset.
  destruct fx as [s | s | s | s | s | s]; try discriminate Hm; cbn;
    unfold SingleCabinet.set_door_state, HingeCabinet.set_door_state,
      Drawer.set_door_state;
    erewrite bind_raise by (rewrite E; apply assert_false); discriminate.
Qed.

(** X5.  A joint value written by a successful [set_door_state] lies
    within the range [_create_cab] gave that joint: between -3 and 0 for
    the hinge of a left-opening single-door cabinet, and between minus the
    depth and 0 for the slide joint of a drawer of non-negative depth. *)
Theorem written_value_within_joint_range (fx : Fixture) (g : Geometry)
    (min max : Q) (w w' : World) :
  _create_cab fx = Ok g ->
  0 <= (Cabinet.size (cabinet_of fx)).1.2 ->
  np.well_formed (rng w) ->
  set_door_state fx min max w = (Ok tt, w') ->
  forall role joint lo hi q,
    In (role, joint) (joints g) ->
    joint_range joint = Some (lo, hi) ->
    qpos w' !! (Cabinet.name (cabinet_of fx) +:+ "_" +:+ role) = Some q ->
    lo <= q /\ q <= hi.
Proof.
  intros Hg Hd Hwf Hset role joint lo hi q Hin Hrange Hq.
  assert (Hmov : movable fx = true).
  { destruct fx; try reflexivity; revert Hg; cbn;
      [unfold OpenCabinet._create_cab | unfold PanelCabinet._create_cab
      | unfold HousingCabinet._create_cab];
      repeat match goal with
             | |- context [let '(_, _) := ?x in _] => destruct x
             | |- context [if ?b then _ else _] => destruct b
             | |- context [Cabinet._add_door ?c ?a1 ?a2 ?a3 ?p ?b ?hh ?hv ?dn] =>
                 destruct (Cabinet._add_door c a1 a2 a3 p b hh hv dn); cbn
             end;
      try discriminate; intros [= <-]; destruct Hin. }
  pose proof (set_door_state_ok_range fx min max w w' Hmov Hset) as Hr.
  assert (Hrb : door_range_ok min max = true) by (apply door_range_ok_iff; exact Hr).
  destruct (sampled_fraction_bounds 0 min max w Hwf) as [Hf0 Hf1]; [lra |].
  unfold sampled_fraction, draw in Hf0, Hf1. cbn [Nat.add] in Hf0, Hf1.
  set (f := min + (max - min) * np.stream (rng w) (np.drawn (rng w))) in *.
  destruct fx as [s | s | s | s | s | s]; try discriminate Hmov;
    cbn [_create_cab set_door_state cabinet_of] in *.
  - revert Hg. unfold SingleCabinet._create_cab.
    destruct (Cabinet.size (SingleCabinet.cab s)) as [[sx sy] sz].
    destruct (Cabinet._add_door _ _ _ _ _ _ _ _ _); cbn; [| discriminate].
    intros [= <-]. cbn in Hin. destruct Hin as [[= <- <-] | []].
    destruct (String.eqb (SingleCabinet.orientation s) "left") eqn:Eo;
      cbn in Hrange; [| discriminate].
    injection Hrange as <- <-.
    revert Hset. run_door_state. rewrite Hrb. cbn.
    destruct (qpos w !! _) eqn:E; [| discriminate].
    intros [= <-]. cbn in Hq. rewrite lookup_insert_eq in Hq. injection Hq as <-.
    unfold SingleCabinet.sign. rewrite Eo.
    assert (Hpi : 0 < np.pi / 2 /\ np.pi / 2 < 3) by (split; reflexivity).
    set (c := np.pi / 2) in *. clearbody c.
    assert (Ev : -1 * (0 + (c - 0) * min
                       + (0 + (c - 0) * max - (0 + (c - 0) * min))
                         * np.stream (rng w) (np.drawn (rng w)))
                 == - (c * f)) by (subst f; ring).
    rewrite Ev. clearbody f. split; nra.
  - revert Hg. unfold HingeCabinet._create_cab.
    destruct (Cabinet.size (HingeCabinet.cab s)) as [[sx sy] sz].
    repeat create_cab_sites.
    intros [= <-]. cbn in Hin.
    destruct Hin as [[= <- <-] | [[= <- <-] | []]]; discriminate Hrange.
  - revert Hg Hset. unfold Drawer._create_cab.
    run_door_state. rewrite Hrb. cbn. unfold Drawer.joint_max.
    destruct (Cabinet.size (Drawer.cab s)) as [[sx sy] sz].
    destruct (Cabinet._add_door _ _ _ _ _ _ _ _ _); cbn; [| discriminate].
    intros [= <-]. cbn in Hin. destruct Hin as [[= <- <-] | []].
    cbn in Hrange. injection Hrange as <- <-.
    destruct (qpos w !! _) eqn:E; [| discriminate].
    intros [= <-]. cbn in Hq. rewrite lookup_insert_eq in Hq. injection Hq as <-.
    cbn in Hd.
    assert (Ev : -1 * (0 + (sy * 0.55 - 0) * min
                       + (0 + (sy * 0.55 - 0) * max - (0 + (sy * 0.55 - 0) * min))
                         * np.stream (rng w) (np.drawn (rng w)))
                 == - (0.55 * sy * f)) by (subst f; ring).
    rewrite Ev. clearbody f.
    assert (Elo : - (sy / 2) * 2 == - sy) by field.
    rewrite Elo. split; nra.
Qed.

Lemma written_value_within_joint_range_witness :
  exists q,
    qpos (set_door_state (Single (example_single "left")) 1 1 example_world).2
      !! "cab_doorhinge" = Some q
    /\ - 3.00 <= q /\ q <= 0.
Proof.
  eexists. split.
  - vm_compute. reflexivity.
  - eapply (written_value_within_joint_range (Single (example_single "left")) _
              1 1 example_world
              (set_door_state (Single (example_single "left")) 1 1 example_world).2).
    + reflexivity.
    + vm_compute. discriminate.
    + apply example_rng_well_formed.
    + vm_compute. reflexivity.
    + cbn. left. reflexivity.
    + reflexivity.
    + vm_compute. reflexivity.
Defined.

(** ** Walls and bounding sites *)

Ltac decide_membership :=
  repeat match goal with
    | |- context [bool_decide ?P] =>
        let b := eval vm_compute in (bool_decide P) in
        change (bool_decide P) with b
    | H : context [bool_decide ?P] |- _ =>
        let b := eval vm_compute in (bool_decide P) in
        change (bool_decide P) with b in H
    end.

(** Runs a [_create_cab] of a variant with doors or shelves down to its
    dictionaries. *)
Ltac open_create_cab :=
  unfold SingleCabinet._create_cab, HingeCabinet._create_cab,
    OpenCabinet._create_cab, Drawer._create_cab, PanelCabinet._create_cab;
  repeat match goal with
    | |- context [Cabinet.size ?c] => destruct (Cabinet.size c) as [[? ?] ?]
    | |- context [PanelCabinet.solid_body ?s] => destruct (PanelCabinet.solid_body s)
    | |- context [Cabinet._add_door ?c ?w ?h ?th ?p ?b ?hh ?hv ?dn] =>
        destruct (Cabinet._add_door c w h th p b hh hv dn); cbn; try discriminate
    end;
  cbn.

Lemma Ok_inj {A} (a b : A) : Ok a = Ok b -> a = b.
Proof. now intros [= ->]. Qed.

Lemma dict_get_In {A} (k : string) (d : list (string * A)) (v : A) :
  dict_get k d = Some v -> In (k, v) d.
Proof.
  unfold dict_get. destruct (List.find _ d) as [[k' v'] |] eqn:E; [| discriminate].
  intros [= <-]. apply find_some in E as [Hin Hk]. cbn in Hk.
  apply String.eqb_eq in Hk. now subst.
Qed.

(** The dictionaries of the housing cabinet before and after walls are
    dropped: an entry that is kept is an entry of the full dictionary, and
    a size that is kept is positive. *)
Lemma housing_wall_kept (self : HousingCabinet.t) (g : Geometry)
    (name : string) (size pos : Vec3) :
  HousingCabinet._create_cab self = Ok g ->
  dict_get name (sizes g) = Some size ->
  dict_get name (positions g) = Some pos ->
  let '(sx, sy, sz) := Cabinet.size (HousingCabinet.cab self) in
  let '(x, y, z) := (sx / 2, sy / 2, sz / 2) in
  let '(pad0, pad1, pad2) := HousingCabinet.padding self in
  In (name, size)
    [ ("top", (x, y - pad1.2 / 2, pad2.2 / 2));
      ("bottom", (x, y - pad1.2 / 2, pad2.1 / 2));
      ("back", (x, pad1.2 / 2, z));
      ("left", (pad0.1 / 2, y - pad1.2 / 2, z - HousingCabinet.sum_padding pad2 / 2));
      ("right", (pad0.2 / 2, y - pad1.2 / 2, z - HousingCabinet.sum_padding pad2 / 2)) ]
  /\ In (name, pos)
       [ ("top", (0, - pad1.2 / 2, z - pad2.2 / 2));
         ("bottom", (0, - pad1.2 / 2, - z + pad2.1 / 2));
         ("back", (0, y - pad1.2 / 2, 0));
         ("left", (- x + pad0.1 / 2, - pad1.2 / 2, 0));
         ("right", (x - pad0.2 / 2, - pad1.2 / 2, 0)) ]
  /\ HousingCabinet.all_positive size = true.
Proof.
  unfold HousingCabinet._create_cab.
  destruct (Cabinet.size (HousingCabinet.cab self)) as [[sx sy] sz].
  destruct (HousingCabinet.padding self) as [[pad0 pad1] pad2].
  unfold mret, result_ret. intros Hg Hs Hp. apply Ok_inj in Hg. subst g.
  cbn [sizes positions] in Hs, Hp. apply dict_get_In in Hs, Hp.
  apply filter_In in Hs as [Hs Hpos]. apply filter_In in Hp as [Hp _].
  repeat split; assumption.
Qed.

Ltac wall_cases H :=
  cbn in H;
  repeat (let E := fresh "E" in
          destruct H as [E | H];
          [ first [ discriminate E | injection E as <- <- | injection E as <- ] |]);
  try (destruct H).

(** X6.  In every variant that has them, the five housing walls reach
    exactly to the exterior bounding sites: the top wall to the top face,
    the bottom wall to the bottom, the back wall to the back, and the two
    side walls to the sides.  (A wall the housing cabinet leaves out has no
    entry.) *)
Theorem walls_reach_exterior (fx : Fixture) (g : Geometry) (b : BoundingSites) :
  _create_cab fx = Ok g ->
  sites g = Some b ->
  forall name face size pos,
    In (name, face) outer_walls ->
    dict_get name (sizes g) = Some size ->
    dict_get name (positions g) = Some pos ->
    box_face face pos size == ext_face b face.
Proof.
  intros Hg Hb name face size pos Hin Hsize Hpos.
  destruct fx as [s | s | s | s | s | s]; cbn [_create_cab] in Hg.
  6: {
    pose proof (housing_wall_kept s g name size pos Hg Hsize Hpos) as Hkept.
    revert Hg Hkept. unfold HousingCabinet._create_cab.
    destruct (Cabinet.size (HousingCabinet.cab s)) as [[sx sy] sz].
    destruct (HousingCabinet.padding s) as [[[a0 a1] [b0 b1]] [c0 c1]].
    unfold mret, result_ret. intros Hg (Hs & Hp & _).
    apply Ok_inj in Hg. subst g. cbn [sites] in Hb. injection Hb as <-.
    wall_cases Hin; wall_cases Hs; wall_cases Hp;
      cbn; unfold HousingCabinet.sum_padding; cbn; ring. }
  all: revert Hg; open_create_cab;
    intros [= <-]; cbn in Hb; try discriminate Hb; injection Hb as <-;
    wall_cases Hin;
    cbn in Hsize, Hpos; try discriminate;
    injection Hsize as <-; injection Hpos as <-; cbn; ring.
Qed.

Lemma walls_reach_exterior_witness :
  box_face ZHigh (0, 0.03 / 2, 0.8 / 2 - 0.03 / 2) (0.6 / 2, 0.4 / 2 - 0.03 / 2, 0.03 / 2)
  == ext_face (box_sites (0.6 / 2) (0.4 / 2) (0.8 / 2) (0.03 / 2)) ZHigh.
Proof.
  assert (H : exists g,
             _create_cab (Single (example_single "right")) = Ok g
             /\ sites g = Some (box_sites (0.6 / 2) (0.4 / 2) (0.8 / 2) (0.03 / 2))
             /\ dict_get "top" (sizes g)
                = Some (0.6 / 2, 0.4 / 2 - 0.03 / 2, 0.03 / 2)
             /\ dict_get "top" (positions g)
                = Some (0, 0.03 / 2, 0.8 / 2 - 0.03 / 2)).
  { eexists. split; [reflexivity |]. repeat split; reflexivity. }
  destruct H as (g & Hg & Hb & Hs & Hp).
  apply (walls_reach_exterior (Single (example_single "right")) g _ Hg Hb
           "top" ZHigh _ _); [cbn; auto | exact Hs | exact Hp].
Defined.



(** ** Doors *)

(** X8.  Every door a single-door cabinet, a hinge cabinet or a drawer
    builds fills the front of the fixture: the door panel, of the full
    wall thickness, lies between the exterior front face and the interior
    front face, is centred in height, and is as high as the fixture less
    the door gap. *)
Theorem doors_fill_front (fx : Fixture) (g : Geometry) (b : BoundingSites) :
  _create_cab fx = Ok g ->
  sites g = Some b ->
  forall body ds d,
    In (body, ds) (doors g) -> In d ds ->
    (door_pos d).1.2 - (door_size d).1.2 / 2 == ext_face b YLow
    /\ (door_pos d).1.2 + (door_size d).1.2 / 2 == int_face b YLow
    /\ (door_size d).1.2 == Cabinet.thickness (cabinet_of fx)
    /\ (door_pos d).2 == 0
    /\ (door_size d).2
       == (Cabinet.size (cabinet_of fx)).2 - Cabinet.door_gap (cabinet_of fx).
Proof.
  intros Hg Hb body ds d Hin Hd. revert Hg.
  destruct fx as [s | s | s | s | s | s]; cbn [_create_cab cabinet_of];
    unfold SingleCabinet._create_cab, HingeCabinet._create_cab,
      OpenCabinet._create_cab, Drawer._create_cab, PanelCabinet._create_cab,
      HousingCabinet._create_cab, Cabinet._add_door;
    repeat match goal with
      | |- context [Cabinet.size ?c] => destruct (Cabinet.size c) as [[? ?] ?]
      | |- context [HousingCabinet.padding ?s] =>
          destruct (HousingCabinet.padding s) as [[[? ?] [? ?]] [? ?]]
      | |- context [PanelCabinet.solid_body ?s] => destruct (PanelCabinet.solid_body s)
      end;
    try (destruct (Cabinet.panel_class_of _) as [[c |] | e]; cbn; try discriminate);
    unfold mret, result_ret; intros Hg; apply Ok_inj in Hg; subst g;
    cbn [doors sites] in Hin, Hb; try discriminate Hb; injection Hb as <-;
    cbn in Hin;
    repeat (destruct Hin as [[= <- <-] | Hin]); try (destruct Hin);
    cbn in Hd;
    repeat (destruct Hd as [<- | Hd]); try (destruct Hd);
    cbn; repeat split; field.
Qed.

Lemma doors_fill_front_witness :
  exists d b,
    SingleCabinet._create_cab (example_single "right")
    = Ok {| sizes := box_sizes (0.6 / 2) (0.4 / 2) (0.8 / 2) (0.03 / 2);
            positions := box_positions (0.6 / 2) (0.4 / 2) (0.8 / 2) (0.03 / 2);
            bodies := [("hingedoor", (0, 0, 0))];
            joints := [("doorhinge",
                        {| joint_pos := (0.6 / 2 - 0.03 / 2, - (0.4 / 2), 0);
                           joint_range := None |})];
            doors := [("hingedoor", [d])];
            shelves := [];
            sites := Some b |}
    /\ (door_pos d).1.2 - (door_size d).1.2 / 2 == ext_face b YLow
    /\ (door_pos d).1.2 + (door_size d).1.2 / 2 == int_face b YLow
    /\ (door_size d).1.2 == 0.03
    /\ (door_pos d).2 == 0
    /\ (door_size d).2 == 0.8 - 0.003.
Proof.
  eexists _, _. split; [reflexivity |].
  eapply (doors_fill_front (Single (example_single "right")) _ _ eq_refl eq_refl
            "hingedoor" _ _).
  - left. reflexivity.
  - left. reflexivity.
Defined.

(** X9.  A hinge cabinet with a panel style that builds doors gets
    exactly two doors, one per door body.  Each is half the cabinet wide
    less the door gap; the left door ends half a gap left of the centre
    and the right door begins half a gap right of it, so the doors are one
    door gap apart and stay half a gap inside the cabinet's sides; and the
    handle of each door is on the side away from its hinge. *)
Theorem hinge_doors_meet_in_middle (self : HingeCabinet.t) (g : Geometry)
    (c : PanelClass) :
  HingeCabinet._create_cab self = Ok g ->
  Cabinet.panel_class_of (Cabinet.panel_type (HingeCabinet.cab self)) = Ok (Some c) ->
  let sx := (Cabinet.size (HingeCabinet.cab self)).1.1 in
  let dg := Cabinet.door_gap (HingeCabinet.cab self) in
  exists dl dr,
    doors g = [("hingeleftdoor", [dl]); ("hingerightdoor", [dr])]
    /\ (door_size dl).1.1 == sx / 2 - dg
    /\ (door_size dr).1.1 == sx / 2 - dg
    /\ (door_pos dl).1.1 + (door_size dl).1.1 / 2 == - (dg / 2)
    /\ (door_pos dr).1.1 - (door_size dr).1.1 / 2 == dg / 2
    /\ (door_pos dl).1.1 - (door_size dl).1.1 / 2 == - (sx / 2) + dg / 2
    /\ (door_pos dr).1.1 + (door_size dr).1.1 / 2 == sx / 2 - dg / 2
    /\ door_panel_config dl !! "handle_hpos" = Some "right"
    /\ door_panel_config dr !! "handle_hpos" = Some "left"
    /\ (exists jl jr,
          joints g = [("leftdoorhinge", jl); ("rightdoorhinge", jr)]
          /\ (joint_pos jl).1.1 == - (sx / 2) + Cabinet.thickness (HingeCabinet.cab self) / 2
          /\ (joint_pos jr).1.1 == sx / 2 - Cabinet.thickness (HingeCabinet.cab self) / 2).
Proof.
  intros Hg Hc sx dg. subst sx dg. revert Hg.
  unfold HingeCabinet._create_cab, Cabinet._add_door. rewrite Hc.
  destruct (Cabinet.size (HingeCabinet.cab self)) as [[sx sy] sz]. cbn.
  intros [= <-]. cbn.
  eexists _, _. split; [reflexivity |]. cbn.
  repeat (split; [try field |]).
  - rewrite lookup_insert_ne by discriminate. apply lookup_insert_eq.
  - rewrite lookup_insert_ne by discriminate. apply lookup_insert_eq.
  - eexists _, _. split; [reflexivity |]. cbn. split; field.
Qed.

Lemma hinge_doors_meet_in_middle_witness :
  exists g dl dr,
    HingeCabinet._create_cab example_hinge = Ok g
    /\ doors g = [("hingeleftdoor", [dl]); ("hingerightdoor", [dr])]
    /\ (door_pos dl).1.1 + (door_size dl).1.1 / 2 == - (0.003 / 2)
    /\ (door_pos dr).1.1 - (door_size dr).1.1 / 2 == 0.003 / 2.
Proof.
  destruct (HingeCabinet._create_cab example_hinge) as [g | e] eqn:Hg;
    [| discriminate Hg].
  destruct (hinge_doors_meet_in_middle example_hinge g RaisedCabinetPanel Hg eq_refl)
    as (dl & dr & Hd & _ & _ & Hl & Hr & _).
  exists g, dl, dr. repeat split; assumption.
Defined.

(** ** The housing cabinet and its interior object *)

Lemma Qlt_bool_false (a b : Q) : b <= a -> Qlt_bool a b = false.
Proof.
  intros H. destruct (Qlt_bool a b) eqn:E; [| reflexivity].
  apply Qlt_bool_iff in E. lra.
Qed.

Lemma resolve_axis_bounds (d : nat) (size_d : option Q)
    (padding_d : option Q * option Q) (s S p0 p1 : Q) :
  HousingCabinet.resolve_axis d size_d padding_d s = Ok (S, (p0, p1)) ->
  Qabs (p0 + p1 + s - S) <= 0.000002
  /\ 0 <= S /\ 0 <= p1 /\ (d <> 1%nat -> 0 <= p0).
Proof.
  intros H.
  destruct (resolve_axis_inv _ _ _ _ _ _ _ H) as (q0 & q1 & Hd & -> & -> & HS & H1 & H0).
  split; [| auto].
  pose proof (derive_axis_equation _ _ _ _ _ _ Hd) as E.
  pose proof (round_small_error q0) as E0.
  pose proof (round_small_error q1) as E1.
  set (r0 := HousingCabinet.round_small q0) in *.
  set (r1 := HousingCabinet.round_small q1) in *.
  assert (Esplit : r0 + r1 + s - S == (r0 - q0) + (r1 - q1)) by (rewrite <- E; ring).
  rewrite Esplit. eapply Qle_trans; [apply Qabs_triangle |].
  assert (Etol : 0.000002 == 0.000001 + 0.000001) by reflexivity.
  rewrite Etol. apply Qplus_le_compat; assumption.
Qed.

Lemma parse_size_padding_inv (interior_size : Vec3)
    (size : option (option Q * option Q * option Q))
    (padding : option (option (option Q * option Q)
                       * option (option Q * option Q)
                       * option (option Q * option Q)))
    (S : Vec3) (P : HousingCabinet.Padding) :
  HousingCabinet.parse_size_padding interior_size size padding = Ok (S, P) ->
  exists sz0 sz1 sz2 pd0 pd1 pd2,
    HousingCabinet.resolve_axis 0 sz0 pd0 interior_size.1.1 = Ok (S.1.1, P.1.1)
    /\ HousingCabinet.resolve_axis 1 sz1 pd1 interior_size.1.2 = Ok (S.1.2, P.1.2)
    /\ HousingCabinet.resolve_axis 2 sz2 pd2 interior_size.2 = Ok (S.2, P.2).
Proof.
  unfold HousingCabinet.parse_size_padding.
  destruct interior_size as [[i0 i1] i2].
  destruct size as [[[s0 s1] s2] |], padding as [[[q0 q1] q2] |];
    cbn -[HousingCabinet.resolve_axis]; try discriminate.
  all: match goal with
       | |- context [HousingCabinet.resolve_axis 0 ?a ?b ?c] =>
           destruct (HousingCabinet.resolve_axis 0 a b c) as [[S0 P0] |] eqn:E0;
           cbn -[HousingCabinet.resolve_axis]; [| discriminate]
       end;
       match goal with
       | |- context [HousingCabinet.resolve_axis 1 ?a ?b ?c] =>
           destruct (HousingCabinet.resolve_axis 1 a b c) as [[S1 P1] |] eqn:E1;
           cbn -[HousingCabinet.resolve_axis]; [| discriminate]
       end;
       match goal with
       | |- context [HousingCabinet.resolve_axis 2 ?a ?b ?c] =>
           destruct (HousingCabinet.resolve_axis 2 a b c) as [[S2 P2] |] eqn:E2;
           cbn -[HousingCabinet.resolve_axis]; [| discriminate]
       end;
       intros [= <- <-]; cbn; eauto 10.
Qed.

(** X10.  When [HousingCabinet.__init__] succeeds, every size component
    and every padding is non-negative, except that the front padding
    (the first padding of the depth axis) may be negative; and with
    neither a size nor a padding given it raises [ValueError]. *)
Theorem housing_init_signs (proto : Cabinet.t) (interior_size : Vec3)
    (size : option (option Q * option Q * option Q))
    (padding : option (option (option Q * option Q)
                       * option (option Q * option Q)
                       * option (option Q * option Q))) :
  (size = None -> padding = None ->
   HousingCabinet.__init__ proto interior_size size padding = Raise ValueError)
  /\ (forall self g,
      HousingCabinet.__init__ proto interior_size size padding = Ok (self, g) ->
      let '(sx, sy, sz) := Cabinet.size (HousingCabinet.cab self) in
      let '((a0, a1), (b0, b1), (c0, c1)) := HousingCabinet.padding self in
      (0 <= sx /\ 0 <= sy /\ 0 <= sz)
      /\ (0 <= a0 /\ 0 <= a1) /\ 0 <= b1 /\ (0 <= c0 /\ 0 <= c1)).
Proof.
  split.
  - intros -> ->. reflexivity.
  - intros self g. unfold HousingCabinet.__init__.
    destruct (HousingCabinet.parse_size_padding interior_size size padding)
      as [[S P] | e] eqn:Hparse; cbn; [| discriminate].
    destruct (parse_size_padding_inv _ _ _ _ _ Hparse)
      as (sz0 & sz1 & sz2 & pd0 & pd1 & pd2 & H0 & H1 & H2).
    destruct (HousingCabinet._create_cab _) as [g' |]; cbn; [| discriminate].
    intros [= <- <-]. cbn.
    destruct S as [[sx sy] sz], P as [[[a0 a1] [b0 b1]] [c0 c1]]. cbn in *.
    apply resolve_axis_bounds in H0 as (_ & ? & ? & ?).
    apply resolve_axis_bounds in H1 as (_ & ? & ? & _).
    apply resolve_axis_bounds in H2 as (_ & ? & ? & ?).
    repeat split; auto.
Qed.

Lemma housing_init_signs_witness :
  HousingCabinet.__init__ (example_cabinet (0, 0, 0) 0.03) (1, 1, 1) None None
  = Raise ValueError.
Proof.
  apply (housing_init_signs (example_cabinet (0, 0, 0) 0.03) (1, 1, 1) None None);
    reflexivity.
Defined.

(** X11.  A padding below -0.000001 is accepted on the front of the
    depth axis and nowhere else: with both paddings given, a non-negative
    second padding and a non-negative resulting size, the axis resolves
    on the depth axis, keeping the negative padding, and raises
    [ValueError] on the two other axes. *)
Theorem negative_padding_only_in_front (d : nat) (p0 p1 s : Q) :
  p0 < - 0.000001 -> 0 <= p1 -> 0 <= p0 + p1 + s ->
  HousingCabinet.resolve_axis d None (Some p0, Some p1) s
  = if Nat.eqb d 1
    then Ok (0 + p0 + p1 + s, (p0, HousingCabinet.round_small p1))
    else Raise ValueError.
Proof.
  intros Hp0 Hp1 Hsum. unfold HousingCabinet.resolve_axis. cbn.
  unfold HousingCabinet.sum_padding. cbn.
  assert (Hr0 : HousingCabinet.round_small p0 = p0).
  { destruct (round_small_cases p0) as [[_ E] | [Habs _]]; [exact E |].
    exfalso. rewrite Qabs_neg in Habs by lra. lra. }
  assert (Hr1 : 0 <= HousingCabinet.round_small p1).
  { destruct (round_small_cases p1) as [[_ ->] | [_ ->]]; [exact Hp1 | discriminate]. }
  rewrite Hr0.
  assert (ES : Qlt_bool (0 + p0 + p1 + s) 0 = false) by (apply Qlt_bool_false; lra).
  assert (E1 : Qlt_bool (HousingCabinet.round_small p1) 0 = false)
    by (apply Qlt_bool_false; exact Hr1).
  assert (E0 : Qlt_bool p0 0 = true) by (apply Qlt_bool_iff; lra).
  rewrite ES, E1, E0. cbn. now destruct (Nat.eqb d 1).
Qed.

Lemma negative_padding_only_in_front_witness :
  HousingCabinet.resolve_axis 1 None (Some (- (1 # 4)), Some (1 # 4)) 1
  = Ok (0 + - (1 # 4) + (1 # 4) + 1, (- (1 # 4), HousingCabinet.round_small (1 # 4))).
Proof.
  apply (negative_padding_only_in_front 1 (- (1 # 4)) (1 # 4) 1);
    unfold Qlt, Qle; simpl; lia.
Defined.

(** X12.  For a housing cabinet built by [__init__], the interior box
    spanned by the interior sites is as wide on each axis as the interior
    object, up to the 0.000002 that rounding small paddings may cost, and
    its centre, moved to the cabinet's position, is the origin
    [_place_interior_obj] gives the interior object. *)
Theorem housing_interior_fits_object (proto : Cabinet.t) (interior_size : Vec3)
    (size : option (option Q * option Q * option Q))
    (padding : option (option (option Q * option Q)
                       * option (option Q * option Q)
                       * option (option Q * option Q)))
    (self : HousingCabinet.t) (g : Geometry) (pos : Vec3) :
  HousingCabinet.__init__ proto interior_size size padding = Ok (self, g) ->
  exists b,
    sites g = Some b
    /\ Qabs (int_face b XHigh - int_face b XLow - interior_size.1.1) <= 0.000002
    /\ Qabs (int_face b YHigh - int_face b YLow - interior_size.1.2) <= 0.000002
    /\ Qabs (int_face b ZHigh - int_face b ZLow - interior_size.2) <= 0.000002
    /\ (let origin := HousingPlacement._place_interior_obj self pos in
        origin.1.1 == pos.1.1 + (int_face b XLow + int_face b XHigh) / 2
        /\ origin.1.2 == pos.1.2 + (int_face b YLow + int_face b YHigh) / 2
        /\ origin.2 == pos.2 + (int_face b ZLow + int_face b ZHigh) / 2).
Proof.
  unfold HousingCabinet.__init__.
  destruct (HousingCabinet.parse_size_padding interior_size size padding)
    as [[S P] | e] eqn:Hparse; [| discriminate].
  destruct (parse_size_padding_inv _ _ _ _ _ Hparse)
    as (sz0 & sz1 & sz2 & pd0 & pd1 & pd2 & H0 & H1 & H2).
  destruct S as [[sx sy] sz], P as [[[a0 a1] [b0 b1]] [c0 c1]].
  destruct interior_size as [[i0 i1] i2], pos as [[px py] pz].
  cbn [fst snd] in H0, H1, H2.
  apply resolve_axis_bounds in H0 as (T0 & _).
  apply resolve_axis_bounds in H1 as (T1 & _).
  apply resolve_axis_bounds in H2 as (T2 & _).
  unfold mbind, result_bind, mret, result_ret, HousingCabinet._create_cab,
    HousingPlacement._place_interior_obj.
  cbn [HousingCabinet.cab HousingCabinet.padding Cabinet.size].
  intros H. apply Ok_inj in H. injection H as <- <-.
  eexists. split; [reflexivity |].
  cbn [fst snd int_face int_p0 int_px int_py int_pz HousingCabinet.padding].
  assert (E0 : sx / 2 - a1 - (- (sx / 2) + a0) - i0 == - (a0 + a1 + i0 - sx)) by field.
  assert (E1 : sy / 2 - b1 - (- (sy / 2) + b0) - i1 == - (b0 + b1 + i1 - sy)) by field.
  assert (E2 : sz / 2 - c1 - (- (sz / 2) + c0) - i2 == - (c0 + c1 + i2 - sz)) by field.
  rewrite E0, E1, E2, !Qabs_opp.
  repeat split; try assumption; field.
Qed.

Lemma housing_interior_fits_object_witness :
  exists self g b,
    HousingCabinet.__init__ (example_cabinet (0, 0, 0) 0.03) (1 # 2, 1 # 2, 1 # 2)
      (Some (Some 1, Some 1, Some 1)) None = Ok (self, g)
    /\ sites g = Some b
    /\ Qabs (int_face b XHigh - int_face b XLow - (1 # 2)) <= 0.000002.
Proof.
  destruct (HousingCabinet.__init__ (example_cabinet (0, 0, 0) 0.03)
              (1 # 2, 1 # 2, 1 # 2) (Some (Some 1, Some 1, Some 1)) None)
    as [[self g] | e] eqn:Hinit; [| discriminate Hinit].
  destruct (housing_interior_fits_object _ _ _ _ self g (0, 0, 0) Hinit)
    as (b & Hb & Hx & _).
  exists self, g, b. repeat split; assumption.
Defined.

Lemma all_positive_iff (size : Vec3) :
  HousingCabinet.all_positive size = true <-> positive_extents size.
Proof.
  destruct size as [[a b] c]. unfold HousingCabinet.all_positive, positive_extents.
  rewrite !andb_true_iff, !Qlt_bool_iff. tauto.
Qed.

Lemma all_positive_not (size : Vec3) :
  HousingCabinet.all_positive size = false <-> ~ positive_extents size.
Proof.
  rewrite <- all_positive_iff. destruct (HousingCabinet.all_positive size);
    split; congruence.
Qed.

(** X13.  Of its five walls [HousingCabinet._create_cab] keeps exactly
    those whose three half extents are all positive: such a wall has its
    size and its position in the dictionaries, any other wall has neither.
    A position is kept for exactly the walls a size is kept for, in the
    same order, so that every wall the cabinet goes on to build has
    both. *)
Theorem housing_walls_sized_and_placed (self : HousingCabinet.t)
    (sx sy sz a0 a1 b0 b1 c0 c1 : Q) :
  Cabinet.size (HousingCabinet.cab self) = (sx, sy, sz) ->
  HousingCabinet.padding self = ((a0, a1), (b0, b1), (c0, c1)) ->
  exists g,
    HousingCabinet._create_cab self = Ok g
    /\ fst <$> positions g = fst <$> sizes g
    /\ Forall (fun wall => HousingCabinet.all_positive wall.2 = true) (sizes g)
    /\ (forall name, In name (fst <$> sizes g) -> In name (fst <$> outer_walls))
    /\ (forall (name : string) (size pos : Vec3),
          In (name, size, pos)
            [ ("top", (sx / 2, sy / 2 - b1 / 2, c1 / 2),
                      (0, - b1 / 2, sz / 2 - c1 / 2));
              ("bottom", (sx / 2, sy / 2 - b1 / 2, c0 / 2),
                         (0, - b1 / 2, - (sz / 2) + c0 / 2));
              ("back", (sx / 2, b1 / 2, sz / 2),
                       (0, sy / 2 - b1 / 2, 0));
              ("left", (a0 / 2, sy / 2 - b1 / 2,
                        sz / 2 - HousingCabinet.sum_padding (c0, c1) / 2),
                       (- (sx / 2) + a0 / 2, - b1 / 2, 0));
              ("right", (a1 / 2, sy / 2 - b1 / 2,
                         sz / 2 - HousingCabinet.sum_padding (c0, c1) / 2),
                        (sx / 2 - a1 / 2, - b1 / 2, 0)) ] ->
          (positive_extents size ->
           dict_get name (sizes g) = Some size
           /\ dict_get name (positions g) = Some pos)
          /\ (~ positive_extents size ->
              dict_get name (sizes g) = None
              /\ dict_get name (positions g) = None)).
Proof.
  intros Hsize Hpad. unfold HousingCabinet._create_cab. rewrite Hsize, Hpad.
  eexists. split; [reflexivity |].
  cbn [sizes positions List.filter fst snd].
  repeat match goal with
    | |- context [HousingCabinet.all_positive ?v] =>
        let E := fresh "E" in
        destruct (HousingCabinet.all_positive v) eqn:E
    end;
    cbn [List.filter List.map fst fmap list_fmap];
    decide_membership;
    cbn [List.filter List.map fst fmap list_fmap];
    (split; [reflexivity |]);
    (split; [repeat first [ apply List.Forall_nil
                          | apply List.Forall_cons; [cbn [snd]; assumption |] ] |]);
    (split; [cbn; tauto |]);
    intros name size pos Hin;
    repeat match goal with
      | H : HousingCabinet.all_positive _ = true |- _ => apply all_positive_iff in H
      | H : HousingCabinet.all_positive _ = false |- _ => apply all_positive_not in H
      end;
    cbn [In] in Hin;
    destruct Hin as [Hin | [Hin | [Hin | [Hin | [Hin | []]]]]];
    injection Hin as <- <- <-;
    (split; intros Hp; first [split; reflexivity | contradiction]).
Qed.

Lemma housing_walls_sized_and_placed_witness :
  exists g,
    HousingCabinet._create_cab open_left_housing = Ok g
    /\ (dict_get "right" (sizes g)
        = Some ((1 # 10) / 2, 1 / 2 - (1 # 10) / 2,
                1 / 2 - HousingCabinet.sum_padding (1 # 10, 1 # 10) / 2)
        /\ dict_get "right" (positions g)
           = Some (1 / 2 - (1 # 10) / 2, - (1 # 10) / 2, 0))
    /\ (dict_get "left" (sizes g) = None /\ dict_get "left" (positions g) = None).
Proof.
  destruct (housing_walls_sized_and_placed open_left_housing
              1 1 1 0 (1 # 10) (1 # 10) (1 # 10) (1 # 10) (1 # 10)
              eq_refl eq_refl) as (g & Hg & _ & _ & _ & Hwalls).
  exists g. split; [exact Hg |]. split.
  - apply (proj1 (Hwalls "right"
                    ((1 # 10) / 2, 1 / 2 - (1 # 10) / 2,
                     1 / 2 - HousingCabinet.sum_padding (1 # 10, 1 # 10) / 2)
                    (1 / 2 - (1 # 10) / 2, - (1 # 10) / 2, 0)
                    ltac:(do 4 right; left; reflexivity))).
    unfold positive_extents. repeat split; reflexivity.
  - apply (proj2 (Hwalls "left"
                    (0 / 2, 1 / 2 - (1 # 10) / 2,
                     1 / 2 - HousingCabinet.sum_padding (1 # 10, 1 # 10) / 2)
                    (- (1 / 2) + 0 / 2, - (1 # 10) / 2, 0)
                    ltac:(do 3 right; left; reflexivity))).
    unfold positive_extents. intros [H _]. revert H. vm_compute. discriminate.
Defined.

(** ** Reset regions *)

Lemma region_key_of_pair_dec (self : OpenCabinet.t) (k : string) :
  (exists i s, pair_present self i s /\ k = OpenCabinet.region_key i s)
  \/ ~ (exists i s, pair_present self i s /\ k = OpenCabinet.region_key i s).
Proof.
  destruct (OpenCabinet.get_reset_regions self !! k) as [r |] eqn:E.
  - left. rewrite get_reset_regions_unfold in E. unfold enumerate in E.
    destruct (decide (Exists (fun n =>
                Exists (fun s => k = OpenCabinet.region_key (Z.of_nat n) s)
                       SHELF_SECTIONS)
              (seq 0 (OpenCabinet.num_shelves self)))) as [Hex | Hnex].
    + apply Exists_exists in Hex as (n & Hn & Hs).
      apply Exists_exists in Hs as (s & Hs & ->).
      exists (Z.of_nat n), s. split; [| reflexivity].
      apply list_elem_of_In, in_seq in Hn. apply list_elem_of_In in Hs.
      split; [lia | exact Hs].
    + exfalso. rewrite regions_lookup_other in E; [now rewrite lookup_empty in E |].
      intros n s Hn Hs ->. apply Hnex.
      apply Exists_exists. exists n. split.
      * apply list_elem_of_In, in_seq. rewrite shelf_z_positions_length in Hn. lia.
      * apply Exists_exists. exists s. split; [apply list_elem_of_In; exact Hs | reflexivity].
  - right. intros (i & s & Hp & ->).
    destruct (reset_regions_lookup self i s) as [Hin _].
    destruct (Hin Hp) as (z & j & _ & _ & Hl). congruence.
Qed.

(** X14.  The region dictionary of an open cabinet has a key exactly for
    each pair of a shelf and a section: a string is a key if and only if it
    is the key of a shelf index below the number of shelves and a section
    of [SHELF_SECTIONS]; different pairs have different keys, so no region
    overwrites another. *)
Theorem reset_region_keys (self : OpenCabinet.t) (k : string) :
  (is_Some (OpenCabinet.get_reset_regions self !! k)
   <-> exists i s, pair_present self i s /\ k = OpenCabinet.region_key i s)
  /\ (forall i i' s s',
        OpenCabinet.region_key i s = OpenCabinet.region_key i' s' -> i = i' /\ s = s').
Proof.
  split; [| intros i i' s s'; apply region_key_inj].
  split.
  - intros Hk.
    destruct (region_key_of_pair_dec self k) as [Hyes | Hno]; [exact Hyes |].
    exfalso. rewrite get_reset_regions_unfold in Hk. unfold enumerate in Hk.
    rewrite regions_lookup_other in Hk.
    + rewrite lookup_empty in Hk. destruct Hk as [? Hk]. discriminate Hk.
    + intros n s Hn Hs ->. apply Hno. exists (Z.of_nat n), s.
      split; [| reflexivity]. split; [| exact Hs].
      rewrite shelf_z_positions_length in Hn. lia.
  - intros (i & s & Hp & ->).
    destruct (reset_regions_lookup self i s) as [Hin _].
    destruct (Hin Hp) as (z & j & _ & _ & ->). eauto.
Qed.

Lemma reset_region_keys_witness :
  is_Some (OpenCabinet.get_reset_regions example_shelves !! "shelf_1_section_3").
Proof.
  apply (reset_region_keys example_shelves "shelf_1_section_3").
  exists 1%Z, "section_3". split; [| reflexivity].
  split; [cbn; lia | cbn; auto].
Defined.

(** X15.  The four sections divide the width between the two side walls
    of an open cabinet evenly: section [j] reaches from [j] section widths
    to [j + 1] section widths right of the left wall, four section widths
    make up the inner width, and the region of a section is centred in it
    and takes 0.8 of its width.  When the cabinet is wider than its two
    walls the regions of a shelf therefore lie between the walls and do
    not overlap. *)
Theorem shelf_sections_tile (self : OpenCabinet.t) (z_pos : Q) :
  let x := (Cabinet.size (OpenCabinet.cab self)).1.1 in
  let th := Cabinet.thickness (OpenCabinet.cab self) in
  let w := OpenCabinet.section_width self in
  let left_wall := - x / 2 + th in
  let right_wall := x / 2 - th in
  4 * w == right_wall - left_wall
  /\ (forall j : nat,
        let r := OpenCabinet.region_at self z_pos j in
        (region_offset r).1.1 - w / 2 == left_wall + inject_Z (Z.of_nat j) * w
        /\ (region_offset r).1.1 + w / 2 == left_wall + inject_Z (Z.of_nat (S j)) * w
        /\ (region_size r).1 == 0.8 * w
        /\ (region_offset r).2 == z_pos + th)
  /\ (2 * th < x ->
      forall j j' : nat, (j < j' < 4)%nat ->
        left_wall < region_left (OpenCabinet.region_at self z_pos j)
        /\ region_right (OpenCabinet.region_at self z_pos j)
           < region_left (OpenCabinet.region_at self z_pos j')
        /\ region_right (OpenCabinet.region_at self z_pos j') < right_wall).
Proof.
  intros x th w left_wall right_wall.
  subst x th w left_wall right_wall.
  unfold region_left, region_right, OpenCabinet.region_at, OpenCabinet.section_width.
  destruct (Cabinet.size (OpenCabinet.cab self)) as [[x y] z]. cbn [fst snd].
  set (th := Cabinet.thickness (OpenCabinet.cab self)).
  change (inject_Z (Z.of_nat (length SHELF_SECTIONS))) with 4.
  cbn [region_offset region_size fst snd].
  split; [field |]. split.
  - intros j. rewrite Nat2Z.inj_succ, <- Z.add_1_r, inject_Z_plus.
    change (inject_Z 1) with 1. repeat split; field.
  - intros Hwide j j' Hj.
    assert (Hw : 0 < (x - 2 * th) / 4).
    { unfold Qdiv. change (/ 4) with (1 # 4). lra. }
    set (w := (x - 2 * th) / 4) in *.
    assert (Hjj : inject_Z (Z.of_nat j) + 1 <= inject_Z (Z.of_nat j')).
    { change 1 with (inject_Z 1). rewrite <- inject_Z_plus.
      rewrite <- Zle_Qle. lia. }
    assert (Hj0 : 0 <= inject_Z (Z.of_nat j)).
    { change 0 with (inject_Z 0). rewrite <- Zle_Qle. lia. }
    assert (Hj3 : inject_Z (Z.of_nat j') <= 3).
    { change 3 with (inject_Z 3). rewrite <- Zle_Qle. lia. }
    assert (Ex : x == 4 * w + 2 * th) by (subst w; field).
    clearbody w.
    set (a := inject_Z (Z.of_nat j)) in *. set (a' := inject_Z (Z.of_nat j')) in *.
    clearbody a a'. unfold Qdiv. change (/ 2) with (1 # 2).
    repeat split; nra.
Qed.

Lemma shelf_sections_tile_witness :
  let r := OpenCabinet.region_at example_shelves 0 in
  - 1 / 2 + (1 # 4) < region_left (r 0%nat)
  /\ region_right (r 0%nat) < region_left (r 1%nat)
  /\ region_right (r 1%nat) < 1 / 2 - (1 # 4).
Proof.
  destruct (shelf_sections_tile example_shelves 0) as (_ & _ & H).
  apply H.
  - reflexivity.
  - lia.
Defined.

(** X16.  When a section is passed to [sample_reset_region] as a keyword
    of its own (and no [sample_region_kwargs]), the shelf index of the
    call is never read: whatever index is passed, the answer is that for
    shelf 0, and for a section of [SHELF_SECTIONS] on a cabinet with at
    least one shelf it is the region of that section on shelf 0. *)
Theorem direct_section_addresses_shelf_0 (self : OpenCabinet.t)
    (shelf_index : option Z) (section : string) :
  let kwargs := {| OpenCabinet.kw_sample_region_kwargs := None;
                   OpenCabinet.kw_section := Some section |} in
  OpenCabinet.sample_reset_region self shelf_index kwargs
  = OpenCabinet.sample_reset_region self (Some 0%Z) kwargs
  /\ ((0 < OpenCabinet.num_shelves self)%nat ->
      forall j, SHELF_SECTIONS !! j = Some section ->
        exists z0,
          OpenCabinet.shelf_z_positions self !! 0%nat = Some z0
          /\ OpenCabinet.sample_reset_region self shelf_index kwargs
             = Ok (OpenCabinet.region_at self z0 j)).
Proof.
  intros kwargs. split; [reflexivity |].
  intros HN j Hj.
  destruct (reset_regions_lookup self 0 section) as [Hin _].
  destruct Hin as (z0 & j' & Hz0 & Hj' & Hlook).
  { split; [lia |]. apply list_elem_of_In. eapply list_elem_of_lookup_2. exact Hj. }
  rewrite (section_index_unique j' j section Hj' Hj) in Hlook.
  exists z0. split; [exact Hz0 |].
  unfold OpenCabinet.sample_reset_region. cbn [OpenCabinet.requested kwargs
    OpenCabinet.kw_sample_region_kwargs OpenCabinet.kw_section].
  now rewrite Hlook.
Qed.

Lemma direct_section_addresses_shelf_0_witness :
  exists z0,
    OpenCabinet.shelf_z_positions example_shelves !! 0%nat = Some z0
    /\ OpenCabinet.sample_reset_region example_shelves (Some 1%Z)
         {| OpenCabinet.kw_sample_region_kwargs := None;
            OpenCabinet.kw_section := Some "section_3" |}
       = Ok (OpenCabinet.region_at example_shelves z0 2).
Proof.
  destruct (direct_section_addresses_shelf_0 example_shelves (Some 1%Z) "section_3")
    as [_ H].
  apply H; [cbn; lia | reflexivity].
Defined.

(** X17.  The ["bottom"] reset region of [Cabinet.get_reset_regions] is the
    floor of the cavity.  For a single-door or hinge cabinet of size
    [(sx, sy, sz)] and thickness [t] it measures [sx - 2 t] by
    [sy - 2 t] and lies at height [- sz / 2 + t]; for a drawer it is the
    floor of the inner box, [sx - 4 t - 0.002] by [sy - 3 t] at height
    [- sz / 2 + 2 t + 0.001]. *)
Theorem bottom_region_is_cavity_floor (fx : Fixture) (g : Geometry) (b : BoundingSites) :
  _create_cab fx = Ok g ->
  sites g = Some b ->
  let '(sx, sy, sz) := Cabinet.size (cabinet_of fx) in
  let t := Cabinet.thickness (cabinet_of fx) in
  exists r,
    CabinetRegions.get_reset_regions b = [("bottom", r)]
    /\ (region_offset r).1.1 == 0 /\ (region_offset r).1.2 == 0
    /\ match fx with
       | Single _ | Hinge _ =>
           (region_size r).1 == sx - 2 * t /\ (region_size r).2 == sy - 2 * t
           /\ (region_offset r).2 == - sz / 2 + t
       | DrawerFixture _ =>
           (region_size r).1 == sx - 4 * t - 0.002 /\ (region_size r).2 == sy - 3 * t
           /\ (region_offset r).2 == - sz / 2 + 2 * t + 0.001
       | _ =>
           (region_size r).1 == int_face b XHigh - int_face b XLow
           /\ (region_size r).2 == int_face b YHigh - int_face b YLow
           /\ (region_offset r).2 == int_face b ZLow
       end.
Proof.
  intros Hg Hb. revert Hg.
  destruct fx as [s | s | s | s | s | s]; cbn [_create_cab cabinet_of].
  6: {
    unfold HousingCabinet._create_cab.
    destruct (Cabinet.size (HousingCabinet.cab s)) as [[sx sy] sz].
    destruct (HousingCabinet.padding s) as [[[a0 a1] [b0 b1]] [c0 c1]].
    unfold mret, result_ret. intros Hg. apply Ok_inj in Hg. subst g.
    cbn [sites] in Hb. injection Hb as <-.
    eexists. split; [reflexivity |]. cbn. repeat split; reflexivity. }
  all: open_create_cab; intros [= <-]; cbn in Hb; try discriminate Hb;
    injection Hb as <-; (eexists; split; [reflexivity |]); cbn;
    repeat split; try reflexivity; field.
Qed.

Lemma bottom_region_is_cavity_floor_witness :
  exists r,
    CabinetRegions.get_reset_regions (box_sites (0.6 / 2) (0.4 / 2) (0.8 / 2) (0.03 / 2))
    = [("bottom", r)]
    /\ (region_offset r).1.1 == 0 /\ (region_offset r).1.2 == 0
    /\ (region_size r).1 == 0.6 - 2 * 0.03 /\ (region_size r).2 == 0.4 - 2 * 0.03
    /\ (region_offset r).2 == - 0.8 / 2 + 0.03.
Proof.
  assert (H : exists g,
             _create_cab (Single (example_single "right")) = Ok g
             /\ sites g = Some (box_sites (0.6 / 2) (0.4 / 2) (0.8 / 2) (0.03 / 2))).
  { eexists. split; reflexivity. }
  destruct H as (g & Hg & Hb).
  exact (bottom_region_is_cavity_floor (Single (example_single "right")) g _ Hg Hb).
Defined.

(** ** Shelves *)

Lemma enumerate_from_lookup {A} (l : list A) (n i : nat) :
  enumerate_from n l !! i = (fun a => ((n + i)%nat, a)) <$> l !! i.
Proof.
  revert n i. induction l as [| a l IH]; intros n [| i]; cbn; try reflexivity.
  - now rewrite Nat.add_0_r.
  - rewrite IH. now replace (S n + i)%nat with (n + S i)%nat by lia.
Qed.

Lemma enumerate_from_length {A} (l : list A) (n : nat) :
  length (enumerate_from n l) = length l.
Proof. revert n. induction l; intros n; cbn; auto. Qed.

(** X18.  [OpenCabinet._create_cab] never fails and builds one shelf per
    index below [num_shelves]: shelf [i] is named after the cabinet and
    [i], has the cabinet's width and depth and the wall thickness as its
    size, and sits at the [i]-th shelf height; no two shelves share a
    name.  When the cabinet is higher than a wall is thick, every shelf
    board lies within the cabinet's height, with room above it. *)
Theorem open_cabinet_shelves (self : OpenCabinet.t) :
  let '(x, y, h) := Cabinet.size (OpenCabinet.cab self) in
  let t := Cabinet.thickness (OpenCabinet.cab self) in
  exists g,
    OpenCabinet._create_cab self = Ok g
    /\ length (shelves g) = OpenCabinet.num_shelves self
    /\ NoDup (shelf_name <$> shelves g)
    /\ (forall i, (i < OpenCabinet.num_shelves self)%nat ->
        exists z_i,
          OpenCabinet.shelf_z_positions self !! i = Some z_i
          /\ shelves g !! i
             = Some {| shelf_size := (x, y, t);
                       shelf_pos := (0, 0, z_i);
                       shelf_name := Cabinet.name (OpenCabinet.cab self)
                                     +:+ "_shelf_" +:+ str_int (Z.of_nat i);
                       shelf_texture := Cabinet.texture (OpenCabinet.cab self) |}
          /\ (t < h -> - h / 2 <= z_i - t / 2 /\ z_i + t / 2 < h / 2)).
Proof.
  pose proof (shelf_z_positions_length self) as Hlen.
  pose proof (shelf_z_positions_lookup self) as Hlook.
  unfold OpenCabinet._create_cab.
  destruct (Cabinet.size (OpenCabinet.cab self)) as [[x y] h] eqn:Esize.
  cbn [snd] in Hlook.
  eexists. split; [reflexivity |]. cbn [shelves].
  split; [| split].
  - rewrite length_fmap. unfold enumerate. now rewrite enumerate_from_length.
  - apply NoDup_alt. intros i j nm Hi Hj.
    rewrite !list_lookup_fmap in Hi, Hj. unfold enumerate in Hi, Hj.
    rewrite !enumerate_from_lookup in Hi, Hj.
    destruct (OpenCabinet.shelf_z_positions self !! i); [| discriminate].
    destruct (OpenCabinet.shelf_z_positions self !! j); [| discriminate].
    cbn in Hi, Hj. injection Hi as <-. injection Hj as Hj.
    apply String.app_inj, (String.app_inj "_shelf_"), str_int_inj in Hj. lia.
  - intros i Hi. destruct (Hlook i Hi) as (z_i & Hz & Ez).
    exists z_i. split; [exact Hz |]. split.
    + rewrite list_lookup_fmap. unfold enumerate.
      rewrite enumerate_from_lookup, Hz. reflexivity.
    + intros Hth. rewrite Ez.
      set (N := OpenCabinet.num_shelves self) in *.
      assert (HN : 0 < inject_Z (Z.of_nat N)).
      { change 0 with (inject_Z 0). rewrite <- Zlt_Qlt. lia. }
      assert (Hi0 : 0 <= inject_Z (Z.of_nat i)).
      { change 0 with (inject_Z 0). rewrite <- Zle_Qle. lia. }
      assert (HiN : inject_Z (Z.of_nat i) + 1 <= inject_Z (Z.of_nat N)).
      { change 1 with (inject_Z 1). rewrite <- inject_Z_plus, <- Zle_Qle. lia. }
      set (t := Cabinet.thickness (OpenCabinet.cab self)) in *.
      assert (Hstep : 0 < (h - t) / inject_Z (Z.of_nat N)).
      { apply Qlt_shift_div_l; [exact HN | lra]. }
      assert (Hfull : (h - t) / inject_Z (Z.of_nat N) * inject_Z (Z.of_nat N) == h - t).
      { field. lra. }
      set (step := (h - t) / inject_Z (Z.of_nat N)) in *.
      set (a := inject_Z (Z.of_nat i)) in *. set (n := inject_Z (Z.of_nat N)) in *.
      clearbody step a n. unfold Qdiv. change (/ 2) with (1 # 2).
      assert (Hlo : 0 <= a * step) by nra.
      assert (Hhi : a * step + step <= n * step) by nra.
      split; lra.
Qed.

Lemma open_cabinet_shelves_witness :
  exists g z_1,
    OpenCabinet._create_cab example_shelves = Ok g
    /\ OpenCabinet.shelf_z_positions example_shelves !! 1%nat = Some z_1
    /\ ((1 # 4) < 1 -> - 1 / 2 <= z_1 - (1 # 4) / 2 /\ z_1 + (1 # 4) / 2 < 1 / 2).
Proof.
  destruct (open_cabinet_shelves example_shelves) as (g & Hg & _ & _ & H).
  destruct (H 1%nat) as (z_1 & Hz & _ & Hin); [cbn; lia |].
  exists g, z_1. repeat split; try assumption; apply Hin; assumption.
Defined.
